(** * CampaignScheduler: claim-based work distribution over campaign contacts

    A shallow embedding of [electron/services/CampaignScheduler.ts]
    (class [CampaignScheduler]) together with the tables of
    [electron/database/index.ts] it reads and writes.

    - SQLite tables are lists of rows, in table order; [SELECT ... LIMIT 1]
      is the first matching row, [UPDATE ... WHERE] rewrites every matching
      row. The accounts of a campaign are read through the primary-key index
      of [campaign_accounts], in account id order ([participatingAccounts]).
    - [activeCampaigns : Map<string, CampaignState>] is a [gmap] from campaign
      id to a reference into a store of [CampaignState] objects, because an
      async cycle keeps the object it read before its [await] while
      [stopCampaign] and [startCampaign] replace the registry entry.
    - [setTimeout]/[clearTimeout] act on the list of armed timers of the
      event loop.
    - One macrotask of the event loop (an IPC call, a timer firing, the
      transport settling a send) is one [step]; every [await] inside it is a
      continuation on a FIFO microtask queue that is drained before the step
      ends, or a send parked in [inflight] until the transport settles it.
    - [new Date()] is read once per macrotask ([Clock]); [Math.random()] and
      the date arithmetic of the delays stay symbolic ([Delay]).
    - The constructor's [resumeRunningCampaigns], the scheduled-campaign
      checker ([ScheduledCampaignChecker.ts]) and the campaign handlers of
      [electron/ipc.ts] are modelled after the scheduler, on the same world. *)

From stdpp Require Import gmap strings list fin_maps sorting.
From Stdlib Require Import ZArith Ascii.

Local Open Scope string_scope.
Local Open Scope Z_scope.

(** ** Rows of the tables *)

Inductive CampaignStatus := draft | running | paused | stopped | completed.
Inductive ContactStatus := pending | sending | sent | failed.

#[global] Instance CampaignStatus_eq_dec : EqDecision CampaignStatus.
Proof. solve_decision. Defined.
#[global] Instance ContactStatus_eq_dec : EqDecision ContactStatus.
Proof. solve_decision. Defined.

Record Campaign := mkCampaign {
  c_id : string;
  c_name : string;
  c_message : string;
  c_status : CampaignStatus;
  c_min_delay : Z;
  c_max_delay : Z;
  c_max_messages_per_day : Z;
  c_start_hour : Z;
  c_end_hour : Z;
  c_started_at : option string;
  c_completed_at : option string;
  c_media_path : option string;
  c_media_type : option string;
  c_media_caption : option string
}.

Record CampaignContact := mkCampaignContact {
  cc_id : string;
  cc_campaign_id : string;
  cc_phone_number : string;
  cc_status : ContactStatus;
  cc_sent_by_account_id : option string;
  cc_sent_at : option string;
  cc_error : option string
}.

Record Contact := mkContact {
  ct_id : string;
  ct_phone_number : string;
  ct_name : option string
}.

Record ContactTag := mkContactTag { ctg_contact_id : string; ctg_tag_id : string }.
Record Tag := mkTag { tg_id : string; tg_name : string }.
Record CampaignAccount := mkCampaignAccount { ca_campaign_id : string; ca_account_id : string }.
Record Activity := mkActivity { act_type : string; act_message : string; act_related_id : option string }.

Record Database := mkDatabase {
  campaigns : list Campaign;
  campaign_accounts : list CampaignAccount;
  campaign_contacts : list CampaignContact;
  contacts : list Contact;
  contact_tags : list ContactTag;
  tags : list Tag;
  activities : list Activity;
  stats : gmap string Z
}.

Definition with_campaigns (f : list Campaign → list Campaign) (d : Database) : Database :=
  mkDatabase (f (campaigns d)) (campaign_accounts d) (campaign_contacts d)
             (contacts d) (contact_tags d) (tags d) (activities d) (stats d).

Definition with_campaign_contacts (f : list CampaignContact → list CampaignContact)
    (d : Database) : Database :=
  mkDatabase (campaigns d) (campaign_accounts d) (f (campaign_contacts d))
             (contacts d) (contact_tags d) (tags d) (activities d) (stats d).

Definition with_activities (f : list Activity → list Activity) (d : Database) : Database :=
  mkDatabase (campaigns d) (campaign_accounts d) (campaign_contacts d)
             (contacts d) (contact_tags d) (tags d) (f (activities d)) (stats d).

Definition with_stats (f : gmap string Z → gmap string Z) (d : Database) : Database :=
  mkDatabase (campaigns d) (campaign_accounts d) (campaign_contacts d)
             (contacts d) (contact_tags d) (tags d) (activities d) (f (stats d)).

(** ** The clock and the strings the code computes with *)

(** One reading of [new Date()]: its [toISOString()] and its local
    [getHours()]. *)
Record Clock := mkClock { nowISO : string; currentHour : Z }.

(** [iso.split('T')[0]] *)
Fixpoint beforeT (s : string) : string :=
  match s with
  | EmptyString => EmptyString
  | String a s' => if Ascii.eqb a "T"%char then EmptyString else String a (beforeT s')
  end.

Definition dateKey (clk : Clock) : string := beforeT (nowISO clk).

(** [s.includes(pat)] *)
Fixpoint includes (s pat : string) : bool :=
  String.prefix pat s ||
  match s with
  | EmptyString => false
  | String _ s' => includes s' pat
  end.

(** ASCII lower-casing, the instance of [toLowerCase] the examples run with;
    the scheduler itself is stated over any lower-casing function. *)
Definition lowerAscii (a : ascii) : ascii :=
  let n := N_of_ascii a in
  if ((65 <=? n) && (n <=? 90))%N then ascii_of_N (n + 32) else a.

Fixpoint asciiLowerCase (s : string) : string :=
  match s with
  | EmptyString => EmptyString
  | String a s' => String (lowerAscii a) (asciiLowerCase s')
  end.

(** JavaScript truthiness of a nullable TEXT column. *)
Definition truthy (o : option string) : bool :=
  match o with
  | Some s => negb (bool_decide (s = EmptyString))
  | None => false
  end.

(** ** RateWindow: the working-hours test of [scheduleNextMessageForAccount]

    The cycle is outside the window when
    [currentHour < campaign.start_hour || currentHour >= campaign.end_hour]. *)
Definition outsideWorkingHours (hour startHour endHour : Z) : bool :=
  (hour <? startHour) || (endHour <=? hour).

Definition isWithinWindow (hour startHour endHour : Z) : bool :=
  negb (outsideWorkingHours hour startHour endHour).

(** ** Failure classification: the [catch] of [sendNextMessageFromAccount]

    [errorMsg] is the lower-cased message. *)
Definition permanentPatterns : list string :=
  [ "banned"; "blocked"; "restricted"; "account has been";
    "not registered"; "phone number not registered"; "invalid phone";
    "phone number must include"; "invalid number"; "does not exist";
    "chat not found"; "contact not found"; "recipient not found";
    "recipient not available"; "user not found"; "number is not on whatsapp";
    "you have been blocked"; "this contact blocked you"; "privacy settings";
    "cannot send message to this contact";
    "invalid format"; "malformed"; "invalid input" ].

Definition isPermanentFailure (errorMsg : string) : bool :=
  existsb (includes errorMsg) permanentPatterns.

(** ** Queries and updates on the tables *)

Definition getCampaign (campaignId : string) (d : Database) : option Campaign :=
  List.find (λ c, bool_decide (c_id c = campaignId)) (campaigns d).

(** [UPDATE campaigns SET ... WHERE id = ?] *)
Definition updateCampaign (campaignId : string) (f : Campaign → Campaign)
    (d : Database) : Database :=
  with_campaigns (fmap (λ c, if bool_decide (c_id c = campaignId) then f c else c)) d.

Definition setCampaignFields (s : CampaignStatus) (st ct : option string)
    (c : Campaign) : Campaign :=
  mkCampaign (c_id c) (c_name c) (c_message c) s (c_min_delay c) (c_max_delay c)
             (c_max_messages_per_day c) (c_start_hour c) (c_end_hour c) st ct
             (c_media_path c) (c_media_type c) (c_media_caption c).

(** [SET status = 'running', started_at = COALESCE(started_at, ?)] *)
Definition markRunning (now : string) (c : Campaign) : Campaign :=
  setCampaignFields running
    (match c_started_at c with Some t => Some t | None => Some now end)
    (c_completed_at c) c.

(** [SET status = 'paused'] *)
Definition markPaused (c : Campaign) : Campaign :=
  setCampaignFields paused (c_started_at c) (c_completed_at c) c.

(** [SET status = 'stopped', completed_at = ?] *)
Definition markStopped (now : string) (c : Campaign) : Campaign :=
  setCampaignFields stopped (c_started_at c) (Some now) c.

(** [SET status = 'completed', completed_at = ?] *)
Definition markCompleted (now : string) (c : Campaign) : Campaign :=
  setCampaignFields completed (c_started_at c) (Some now) c.

(** [SET status = 'draft', started_at = NULL, completed_at = NULL] *)
Definition markDraft (c : Campaign) : Campaign :=
  setCampaignFields draft None None c.

(** The order of two TEXT values under SQLite's default collation: byte by
    byte. *)
Definition textLe (a b : string) : Prop := String.leb a b = true.

#[global] Instance textLe_dec a b : Decision (textLe a b) :=
  decide (String.leb a b = true).

(** [SELECT account_id FROM campaign_accounts WHERE campaign_id = ?]. The
    query has no ORDER BY; SQLite answers it from the index of the table's
    [PRIMARY KEY (campaign_id, account_id)], so the account ids come in
    ascending order, whatever the order the rows were inserted in. *)
Definition participatingAccounts (campaignId : string) (d : Database) : list string :=
  merge_sort textLe
    (ca_account_id <$>
       (filter (λ r, ca_campaign_id r = campaignId) (campaign_accounts d))).

(** [UPDATE campaign_contacts SET ... WHERE <cond>] *)
Definition updateContacts (cond : CampaignContact → bool)
    (f : CampaignContact → CampaignContact) (d : Database) : Database :=
  with_campaign_contacts (fmap (λ r, if cond r then f r else r)) d.

Definition setContactFields (s : ContactStatus) (by_ at_ err : option string)
    (r : CampaignContact) : CampaignContact :=
  mkCampaignContact (cc_id r) (cc_campaign_id r) (cc_phone_number r) s by_ at_ err.

Definition setContactStatus (s : ContactStatus) (r : CampaignContact) : CampaignContact :=
  setContactFields s (cc_sent_by_account_id r) (cc_sent_at r) (cc_error r) r.

Definition hasId (contactId : string) (r : CampaignContact) : bool :=
  bool_decide (cc_id r = contactId).

(** The sub-select shared by the three blacklist statements:
    [SELECT c.phone_number FROM contacts c
       JOIN contact_tags ct ON c.id = ct.contact_id
       JOIN tags t ON ct.tag_id = t.id
     WHERE t.name = 'BlackList'] *)
Definition blacklistedPhones (d : Database) : list string :=
  c ← contacts d;
  ct ← contact_tags d;
  t ← tags d;
  if bool_decide (ct_id c = ctg_contact_id ct)
     && bool_decide (ctg_tag_id ct = tg_id t)
     && bool_decide (tg_name t = "BlackList")
  then [ct_phone_number c] else [].

Definition isBlacklisted (d : Database) (r : CampaignContact) : bool :=
  bool_decide (cc_phone_number r ∈ blacklistedPhones d).

Definition inCampaignWith (campaignId : string) (s : ContactStatus)
    (r : CampaignContact) : bool :=
  bool_decide (cc_campaign_id r = campaignId) && bool_decide (cc_status r = s).

(** The claim query: the first pending row of the campaign whose phone number
    is [NOT IN] the blacklist ([LIMIT 1]). *)
Definition nextPendingContact (campaignId : string) (d : Database) : option CampaignContact :=
  List.find (λ r, inCampaignWith campaignId pending r && negb (isBlacklisted d r))
            (campaign_contacts d).

(** [SELECT COUNT( * ) ... status = 'pending' AND phone_number IN (blacklist)] *)
Definition countBlacklistedPending (campaignId : string) (d : Database) : nat :=
  List.length (filter (λ r, inCampaignWith campaignId pending r && isBlacklisted d r = true)
                 (campaign_contacts d)).

(** [UPDATE ... SET status = 'failed', error = 'Contact in BlackList'
     WHERE campaign_id = ? AND status = 'pending' AND phone_number IN (blacklist)] *)
Definition failAllBlacklistedPending (campaignId : string) (d : Database) : Database :=
  updateContacts (λ r, inCampaignWith campaignId pending r && isBlacklisted d r)
    (λ r, setContactFields failed (cc_sent_by_account_id r) (cc_sent_at r)
                           (Some "Contact in BlackList") r) d.

(** [SELECT COUNT( * ) ... WHERE campaign_id = ? AND status = 'sending'] *)
Definition countStuckSending (campaignId : string) (d : Database) : nat :=
  List.length (filter (λ r, inCampaignWith campaignId sending r = true) (campaign_contacts d)).

(** The release statement of the not-connected branch:
    [UPDATE campaign_contacts SET status = 'pending'
     WHERE campaign_id = ? AND status = 'sending' AND sent_by_account_id IS NULL] *)
Definition releaseStuckSendingContacts (campaignId : string) (d : Database) : Database :=
  updateContacts
    (λ r, inCampaignWith campaignId sending r
          && bool_decide (cc_sent_by_account_id r = None))
    (setContactStatus pending) d.

(** [UPDATE campaign_contacts SET status = 'pending', sent_by_account_id = NULL,
     sent_at = NULL, error = NULL WHERE campaign_id = ?] *)
Definition resetCampaignContacts (campaignId : string) (d : Database) : Database :=
  updateContacts (λ r, bool_decide (cc_campaign_id r = campaignId))
    (setContactFields pending None None None) d.

(** [SELECT * FROM contacts WHERE phone_number = ?] *)
Definition contactDetails (phone : string) (d : Database) : option Contact :=
  List.find (λ c, bool_decide (ct_phone_number c = phone)) (contacts d).

(** The double-quote character of the activity messages. *)
Definition dquote : string := String (ascii_of_nat 34) EmptyString.

(** [logActivity] *)
Definition logActivity (type msg : string) (relatedId : string) (d : Database) : Database :=
  with_activities
    (λ l, (l ++ [mkActivity type msg
                   (if bool_decide (relatedId = EmptyString) then None else Some relatedId)])%list) d.

(** [updateStats]: [INSERT INTO stats ... ON CONFLICT(date) DO UPDATE SET
    messages_sent = messages_sent + 1] *)
Definition updateStats (today : string) (d : Database) : Database :=
  with_stats (λ m, <[today := default 0 (m !! today) + 1]> m) d.

(** ** In-memory state of the scheduler *)

(** [interface CampaignState] *)
Record CampaignState := mkCampaignState {
  isRunning : bool;
  accountTimeouts : gmap string nat;
  messagesSentToday : gmap string Z;
  lastResetDate : string
}.

(** The delay a timer is armed with, as the code computes it. *)
Inductive Delay :=
  | UntilStartHour (daysAhead : nat) (startHour : Z)
      (* a date [daysAhead] days from now, [setHours(startHour, 0, 0, 0)], minus now *)
  | RandomSeconds (lo hi : Z)   (* [getRandomDelay(lo, hi) * 1000] *)
  | Millis (ms : Z).

(** An armed timer; its callback is always
    [() => this.scheduleNextMessageForAccount(campaignId, accountId)]. *)
Record Timer := mkTimer {
  timer_id : nat;
  timer_campaign : string;
  timer_account : string;
  timer_delay : Delay
}.

(** [replaceVariables(template, variables)], kept as its arguments. *)
Record Rendered := mkRendered { template : string; variables : list (string * string) }.

(** A call made to the transport. *)
Inductive TransportCall :=
  | sendMessage (accountId phone : string) (text : Rendered)
  | sendMediaFromPath (accountId phone path : string) (caption : string + Rendered).

Inductive SendResult :=
  | Delivered
  | Threw (message : option string).   (* [(error as Error).message] *)

Inductive Notification :=
  | CampaignProgress (campaignId contactId : string) (s : ContactStatus)
                     (accountId error : option string)
  | CampaignCompleted (campaignId : string).

(** What one call of [scheduleNextMessageForAccount] keeps across its
    [await]: its arguments, the [state] object and the [campaign] row it read. *)
Record Cycle := mkCycle {
  cy_campaign : string;
  cy_account : string;
  cy_state : nat;
  cy_row : Campaign
}.

Inductive Continuation :=
  | AfterStop                              (* after [await this.stopCampaign(campaignId)] *)
  | AfterSendNext (sendSuccessful : bool). (* after [await this.sendNextMessageFromAccount(...)] *)

(** A cycle suspended on the transport: the locals of
    [sendNextMessageFromAccount] at its [await]. *)
Record InFlight := mkInFlight {
  if_cycle : Cycle;
  if_campaign : Campaign;
  if_state : nat;
  if_contact : CampaignContact
}.

Record World := mkWorld {
  db : Database;
  activeCampaigns : gmap string nat;
  states : gmap nat CampaignState;
  timers : list Timer;
  fresh : nat;
  inflight : list InFlight;
  transportCalls : list TransportCall;
  notifications : list Notification
}.

Definition with_db (f : Database → Database) (w : World) : World :=
  mkWorld (f (db w)) (activeCampaigns w) (states w) (timers w) (fresh w)
          (inflight w) (transportCalls w) (notifications w).

Definition with_activeCampaigns (f : gmap string nat → gmap string nat) (w : World) : World :=
  mkWorld (db w) (f (activeCampaigns w)) (states w) (timers w) (fresh w)
          (inflight w) (transportCalls w) (notifications w).

Definition with_states (f : gmap nat CampaignState → gmap nat CampaignState)
    (w : World) : World :=
  mkWorld (db w) (activeCampaigns w) (f (states w)) (timers w) (fresh w)
          (inflight w) (transportCalls w) (notifications w).

Definition with_timers (f : list Timer → list Timer) (w : World) : World :=
  mkWorld (db w) (activeCampaigns w) (states w) (f (timers w)) (fresh w)
          (inflight w) (transportCalls w) (notifications w).

Definition with_fresh (f : nat → nat) (w : World) : World :=
  mkWorld (db w) (activeCampaigns w) (states w) (timers w) (f (fresh w))
          (inflight w) (transportCalls w) (notifications w).

Definition with_inflight (f : list InFlight → list InFlight) (w : World) : World :=
  mkWorld (db w) (activeCampaigns w) (states w) (timers w) (fresh w)
          (f (inflight w)) (transportCalls w) (notifications w).

Definition with_transportCalls (f : list TransportCall → list TransportCall)
    (w : World) : World :=
  mkWorld (db w) (activeCampaigns w) (states w) (timers w) (fresh w)
          (inflight w) (f (transportCalls w)) (notifications w).

Definition notifyRenderer (n : Notification) (w : World) : World :=
  mkWorld (db w) (activeCampaigns w) (states w) (timers w) (fresh w)
          (inflight w) (transportCalls w) (notifications w ++ [n])%list.

Definition setRunning (b : bool) (s : CampaignState) : CampaignState :=
  mkCampaignState b (accountTimeouts s) (messagesSentToday s) (lastResetDate s).

Definition setTimeouts (f : gmap string nat → gmap string nat) (s : CampaignState) :=
  mkCampaignState (isRunning s) (f (accountTimeouts s)) (messagesSentToday s)
                  (lastResetDate s).

Definition setCounters (m : gmap string Z) (day : string) (s : CampaignState) :=
  mkCampaignState (isRunning s) (accountTimeouts s) m day.

(** The object behind a reference. [startCampaign] enters a reference in the
    registry together with its object, so the default is never read. *)
Definition stateAt (r : nat) (w : World) : CampaignState :=
  default (mkCampaignState false ∅ ∅ EmptyString) (states w !! r).

(** [this.activeCampaigns.get(campaignId)] *)
Definition activeState (campaignId : string) (w : World) : option (nat * CampaignState) :=
  (λ r, (r, stateAt r w)) <$> activeCampaigns w !! campaignId.

(** [state.messagesSentToday.get(accountId) || 0] *)
Definition sentToday (s : CampaignState) (accountId : string) : Z :=
  default 0 (messagesSentToday s !! accountId).

(** [const timeout = setTimeout(...); state.accountTimeouts.set(accountId, timeout)]
    on the state object [r]. *)
Definition armTimer (r : nat) (campaignId accountId : string) (dl : Delay)
    (w : World) : World :=
  let t := fresh w in
  with_states (alter (setTimeouts <[accountId := t]>) r)
    (with_fresh S
      (with_timers (λ l, (l ++ [mkTimer t campaignId accountId dl])%list) w)).

(** [for (const timeout of state.accountTimeouts.values()) clearTimeout(timeout)] *)
Definition clearTimeouts (handles : list nat) (w : World) : World :=
  with_timers (filter (λ t, timer_id t ∉ handles)) w.

Definition timeoutHandles (s : CampaignState) : list nat :=
  (map_to_list (accountTimeouts s)).*2.

(** ** Lifecycle operations *)

Definition pauseCampaign (campaignId : string) (w : World) : World :=
  let w1 :=
    match activeState campaignId w with
    | Some (r, s) =>
        with_states (alter (λ s, setTimeouts (λ _, ∅) (setRunning false s)) r)
          (clearTimeouts (timeoutHandles s) w)
    | None => w
    end in
  with_db (updateCampaign campaignId markPaused) w1.

Definition stopCampaign (clk : Clock) (campaignId : string) (w : World) : World :=
  let w1 :=
    match activeState campaignId w with
    | Some (r, s) =>
        with_activeCampaigns (delete campaignId)
          (with_states (alter (λ s, setTimeouts (λ _, ∅) (setRunning false s)) r)
            (clearTimeouts (timeoutHandles s) w))
    | None => w
    end in
  with_db (updateCampaign campaignId (markStopped (nowISO clk))) w1.

Definition resetCampaign (clk : Clock) (campaignId : string) (w : World) : World :=
  with_db (updateCampaign campaignId markDraft)
    (with_db (resetCampaignContacts campaignId)
      (stopCampaign clk campaignId w)).

Definition resetDailyCountersIfNeeded (clk : Clock) (campaignId : string)
    (w : World) : World :=
  match activeState campaignId w with
  | None => w
  | Some (r, s) =>
      if bool_decide (lastResetDate s ≠ dateKey clk)
      then with_states (alter (setCounters ∅ (dateKey clk)) r) w
      else w
  end.

(** The callback of [startDailyReset]: every active campaign's counters are
    cleared. *)
Definition dailyReset (clk : Clock) (w : World) : World :=
  with_states
    (λ h, foldr (λ r h, alter (setCounters ∅ (dateKey clk)) r h) h
                (map_to_list (activeCampaigns w)).*2) w.

(** ** The worker cycle *)

Definition Microtask : Type := Cycle * Continuation.

(** The transport call of a claimed contact (text, or media with the explicit
    caption or else the rendered text). *)
Definition outgoing (campaign : Campaign) (accountId : string)
    (contact : CampaignContact) (d : Database) : TransportCall :=
  let phone := cc_phone_number contact in
  let name :=
    match contactDetails phone d with
    | Some c => if truthy (ct_name c) then default phone (ct_name c) else phone
    | None => phone
    end in
  let message :=
    mkRendered (c_message campaign)
      [("name", name); ("phone", phone); ("custom1", EmptyString); ("custom2", EmptyString)] in
  if truthy (c_media_path campaign) && truthy (c_media_type campaign)
  then sendMediaFromPath accountId phone (default EmptyString (c_media_path campaign))
         (if truthy (c_media_caption campaign)
          then inl (default EmptyString (c_media_caption campaign)) else inr message)
  else sendMessage accountId phone message.

(** [sendNextMessageFromAccount], from its entry to its first [await] (or its
    return): the world it leaves and the continuations it queues. A cycle that
    claimed a contact is parked in [inflight] and queues nothing. *)
Definition sendNextMessageFromAccount (clk : Clock) (isConnected : string → bool)
    (cy : Cycle) (w : World) : World * list Microtask :=
  let campaignId := cy_campaign cy in
  let accountId := cy_account cy in
  let returned := [(cy, AfterSendNext true)] in
  match getCampaign campaignId (db w) with
  | None => (w, returned)
  | Some campaign =>
    match activeState campaignId w with
    | None => (w, [(cy, AfterSendNext false)])
    | Some (r, state) =>
      if c_max_messages_per_day campaign <=? sentToday state accountId then
        (* daily limit: schedule for tomorrow's start hour *)
        (armTimer r campaignId accountId (UntilStartHour 1 (c_start_hour campaign)) w,
         returned)
      else if negb (isConnected accountId) then
        (with_db (releaseStuckSendingContacts campaignId) w, returned)
      else
        match nextPendingContact campaignId (db w) with
        | None =>
          let w1 :=
            if (0 <? countBlacklistedPending campaignId (db w))%nat
            then with_db (failAllBlacklistedPending campaignId) w else w in
          if (0 <? countStuckSending campaignId (db w1))%nat then
            (armTimer r campaignId accountId (Millis 60000) w1, returned)
          else
            let w2 :=
              match accountTimeouts state !! accountId with
              | Some t =>
                  with_states (alter (setTimeouts (delete accountId)) r)
                    (clearTimeouts [t] w1)
              | None => w1
              end in
            (* if all accounts finished, complete campaign *)
            if bool_decide (accountTimeouts (stateAt r w2) = ∅)
            then (stopCampaign clk campaignId w2, [(cy, AfterStop)])
            else (w2, returned)
        | Some contact =>
          (* CLAIM: mark as 'sending', then call the transport and await it *)
          let w1 :=
            with_db (updateContacts (hasId (cc_id contact)) (setContactStatus sending)) w in
          let call := outgoing campaign accountId contact (db w1) in
          (with_inflight (λ l, (l ++ [mkInFlight cy campaign r contact])%list)
             (with_transportCalls (λ l, (l ++ [call])%list) w1),
           [])
        end
    end
  end.

(** [scheduleNextMessageForAccount] up to its [await]. *)
Definition scheduleNextMessageForAccount (clk : Clock) (isConnected : string → bool)
    (campaignId accountId : string) (w : World) : World * list Microtask :=
  match activeState campaignId w with
  | None => (w, [])
  | Some (r, state) =>
    if negb (isRunning state) then (w, [])
    else
      match getCampaign campaignId (db w) with
      | None => (w, [])
      | Some campaign =>
        if outsideWorkingHours (currentHour clk) (c_start_hour campaign) (c_end_hour campaign)
        then
          (armTimer r campaignId accountId
             (UntilStartHour (if c_end_hour campaign <=? currentHour clk then 1 else 0)
                             (c_start_hour campaign)) w,
           [])
        else
          sendNextMessageFromAccount clk isConnected
            (mkCycle campaignId accountId r campaign)
            (resetDailyCountersIfNeeded clk campaignId w)
      end
  end.

(** The end of [scheduleNextMessageForAccount]: always schedule the next
    message, whether success or failure. *)
Definition scheduleAgain (cy : Cycle) (sendSuccessful : bool) (w : World) : World :=
  let campaign := cy_row cy in
  armTimer (cy_state cy) (cy_campaign cy) (cy_account cy)
    (if sendSuccessful
     then RandomSeconds (c_min_delay campaign) (c_max_delay campaign)
     else RandomSeconds 60 120) w.

(** The completion branch after [await this.stopCampaign(campaignId)]. *)
Definition completeCampaign (clk : Clock) (cy : Cycle) (w : World) : World :=
  let campaignId := cy_campaign cy in
  let name :=
    match getCampaign campaignId (db w) with
    | Some c => if bool_decide (c_name c = EmptyString) then "Unknown" else c_name c
    | None => "Unknown"
    end in
  notifyRenderer (CampaignCompleted campaignId)
    (with_db (λ d, logActivity "success"
                     ("Campaign " +:+ dquote +:+ name +:+ dquote +:+ " completed") campaignId
                     (updateCampaign campaignId (markCompleted (nowISO clk)) d)) w).

Section Classification.

(** [String.prototype.toLowerCase] *)
Variable toLowerCase : string → string.

(** [(error as Error).message?.toLowerCase() || ''] *)
Definition errorMsgOf (message : option string) : string :=
  match message with
  | Some m => toLowerCase m
  | None => EmptyString
  end.

(** [sendNextMessageFromAccount] after the transport settled: the [try] body
    after the send, or the [catch]. *)
Definition settleSend (clk : Clock) (f : InFlight) (res : SendResult)
    (w : World) : World * list Microtask :=
  let cy := if_cycle f in
  let campaignId := cy_campaign cy in
  let accountId := cy_account cy in
  let contactId := cc_id (if_contact f) in
  let w' :=
    match res with
    | Delivered =>
        let w1 :=
          with_db (updateContacts (hasId contactId)
                     (λ r, setContactFields sent (Some accountId) (Some (nowISO clk))
                                            (cc_error r) r)) w in
        let w2 :=
          with_states
            (alter (λ s, setCounters (<[accountId := sentToday s accountId + 1]>
                                         (messagesSentToday s))
                                     (lastResetDate s) s) (if_state f)) w1 in
        notifyRenderer
          (CampaignProgress campaignId contactId sent (Some accountId) None)
          (with_db (updateStats (dateKey clk)) w2)
    | Threw message =>
        if isPermanentFailure (errorMsgOf message) then
          notifyRenderer (CampaignProgress campaignId contactId failed None message)
            (with_db (updateContacts (hasId contactId)
                        (λ r, setContactFields failed (cc_sent_by_account_id r)
                                               (cc_sent_at r) message r)) w)
        else
          with_db (updateContacts (hasId contactId) (setContactStatus pending)) w
    end in
  (w', [(cy, AfterSendNext true)]).

End Classification.

(** ** The event loop *)

Definition runMicrotask (clk : Clock) (m : Microtask) (w : World) : World * list Microtask :=
  match m with
  | (cy, AfterStop) => (completeCampaign clk cy w, [(cy, AfterSendNext true)])
  | (cy, AfterSendNext ok) => (scheduleAgain cy ok w, [])
  end.

(** Runs the queued continuations in order; returns those they queue. *)
Fixpoint runQueue (clk : Clock) (q : list Microtask) (w : World) : World * list Microtask :=
  match q with
  | [] => (w, [])
  | m :: q' =>
      let '(w1, q1) := runMicrotask clk m w in
      let '(w2, q2) := runQueue clk q' w1 in
      (w2, (q1 ++ q2)%list)
  end.

(** The queue is empty after two rounds: [AfterStop] queues [AfterSendNext],
    which queues nothing. *)
Definition drain (clk : Clock) (q : list Microtask) (w : World) : World :=
  let '(w1, q1) := runQueue clk q w in
  (runQueue clk q1 w1).1.

(** [for (const accountId of accountIds) this.scheduleNextMessageForAccount(...)] *)
Fixpoint spawnWorkers (clk : Clock) (isConnected : string → bool) (campaignId : string)
    (accountIds : list string) (w : World) : World * list Microtask :=
  match accountIds with
  | [] => (w, [])
  | a :: rest =>
      let '(w1, q1) := scheduleNextMessageForAccount clk isConnected campaignId a w in
      let '(w2, q2) := spawnWorkers clk isConnected campaignId rest w1 in
      (w2, (q1 ++ q2)%list)
  end.

Definition startCampaign (clk : Clock) (isConnected : string → bool)
    (campaignId : string) (w : World) : World :=
  if bool_decide (is_Some (activeCampaigns w !! campaignId)) then w
  else
    match getCampaign campaignId (db w) with
    | None => w
    | Some _ =>
      let w1 := with_db (updateCampaign campaignId (markRunning (nowISO clk))) w in
      match participatingAccounts campaignId (db w1) with
      | [] => w1
      | accountIds =>
        let r := fresh w1 in
        let w2 :=
          with_activeCampaigns <[campaignId := r]>
            (with_states <[r := mkCampaignState true ∅ ∅ (dateKey clk)]>
              (with_fresh S w1)) in
        let '(w3, q) := spawnWorkers clk isConnected campaignId accountIds w2 in
        drain clk q w3
      end
    end.

Inductive Event :=
  | StartCampaign (campaignId : string)
  | PauseCampaign (campaignId : string)
  | StopCampaign (campaignId : string)
  | ResetCampaign (campaignId : string)
  | TimerFires (timer : nat)
  | SendSettles (n : nat) (res : SendResult)
  | Midnight.

(** One macrotask: the event, the clock it reads and the connectivity the
    transport reports while it runs. *)
Record Tick := mkTick {
  tk_clock : Clock;
  tk_connected : string → bool;
  tk_event : Event
}.

Section EventLoop.

Variable toLowerCase : string → string.

Definition step (t : Tick) (w : World) : World :=
  let clk := tk_clock t in
  match tk_event t with
  | StartCampaign c => startCampaign clk (tk_connected t) c w
  | PauseCampaign c => pauseCampaign c w
  | StopCampaign c => stopCampaign clk c w
  | ResetCampaign c => resetCampaign clk c w
  | TimerFires i =>
      match List.find (λ tm, bool_decide (timer_id tm = i)) (timers w) with
      | None => w
      | Some tm =>
          let w0 := with_timers (filter (λ x, timer_id x ≠ i)) w in
          let '(w1, q) :=
            scheduleNextMessageForAccount clk (tk_connected t)
              (timer_campaign tm) (timer_account tm) w0 in
          drain clk q w1
      end
  | SendSettles n res =>
      match inflight w !! n with
      | None => w
      | Some f =>
          let w0 := with_inflight (delete n) w in
          let '(w1, q) := settleSend toLowerCase clk f res w0 in
          drain clk q w1
      end
  | Midnight => dailyReset clk w
  end.

Definition run (ts : list Tick) (w : World) : World :=
  fold_left (λ w t, step t w) ts w.

End EventLoop.

(** ** The persisted campaign status and the claims held *)

Definition statusOf (campaignId : string) (w : World) : option CampaignStatus :=
  c_status <$> getCampaign campaignId (db w).




(** The ids of the campaign rows. *)
Definition campaignIds (w : World) : list string := c_id <$> campaigns (db w).


(** A queue that cannot complete the campaign: its [AfterStop] continuations
    belong to other campaigns. *)
Definition foreignStops (campaignId : string) (q : list Microtask) : Prop :=
  Forall (λ m, m.2 = AfterStop → cy_campaign m.1 ≠ campaignId) q.

(** The accounts that hold a claim on a contact: the cycles suspended on its
    send. *)
Definition claimants (contactId : string) (w : World) : list string :=
  (λ f, cy_account (if_cycle f)) <$>
    filter (λ f, cc_id (if_contact f) = contactId) (inflight w).

(** Claim exclusivity of a world: no contact has two claimants. *)
Definition claimExclusive (w : World) : Prop :=
  ∀ contactId, (length (claimants contactId w) ≤ 1)%nat.

(** Every cycle suspended on a send holds a contact of its own, and the rows
    of that contact are sending. *)
Definition claimsHeld (w : World) : Prop :=
  NoDup ((λ f, cc_id (if_contact f)) <$> inflight w) ∧
  ∀ f row, f ∈ inflight w → row ∈ campaign_contacts (db w) →
           cc_id row = cc_id (if_contact f) → cc_status row = sending.

(** The contact is failed with the given error text, no suspended send holds
    it, and contact ids are unique (PRIMARY KEY). *)
Definition staysFailed (contactId : string) (err : option string) (w : World) : Prop :=
  NoDup (cc_id <$> campaign_contacts (db w)) ∧
  (∀ f, f ∈ inflight w → cc_id (if_contact f) ≠ contactId) ∧
  ∃ row, row ∈ campaign_contacts (db w) ∧ cc_id row = contactId ∧
         cc_status row = failed ∧ cc_error row = err.

(** ** Sample data

    One campaign [c1] with working hours 9..18 and paced delays 30..60 s. *)

Definition sampleCampaign (s : CampaignStatus) (perDay : Z) : Campaign :=
  mkCampaign "c1" "Promo" "Hi {{name}}" s 30 60 perDay 9 18 None None None None None.

Definition sampleRow (contactId phone : string) (s : ContactStatus) : CampaignContact :=
  mkCampaignContact contactId "c1" phone s None None None.

Definition sampleDb (s : CampaignStatus) (perDay : Z) (accounts : list string)
    (rows : list CampaignContact) : Database :=
  mkDatabase [sampleCampaign s perDay] (mkCampaignAccount "c1" <$> accounts) rows
             [] [] [] [] ∅.

(** The phone number 222 belongs to a contact tagged BlackList. *)
Definition blacklisting222 (d : Database) : Database :=
  mkDatabase (campaigns d) (campaign_accounts d) (campaign_contacts d)
             [mkContact "k2" "222" (Some "Bob")] [mkContactTag "k2" "t1"]
             [mkTag "t1" "BlackList"] (activities d) (stats d).

(** A freshly started process: nothing registered, no timer armed. *)
Definition idle (d : Database) : World := mkWorld d ∅ ∅ [] 0 [] [] [].

Definition morning : Clock := mkClock "2024-05-01T07:00:00.000Z" 10.
Definition nextMorning : Clock := mkClock "2024-05-02T06:00:00.000Z" 9.

Definition allConnected : string → bool := λ _, true.
Definition allBut (offline : string) : string → bool :=
  λ a, negb (bool_decide (a = offline)).

Definition at_ (clk : Clock) (e : Event) : Tick := mkTick clk allConnected e.

(** Account A suspended on the send of contact x, in a campaign run by the
    accounts A and B. *)
Definition sendingX : InFlight :=
  mkInFlight (mkCycle "c1" "A" 0%nat (sampleCampaign running 5))
             (sampleCampaign running 5) 0%nat (sampleRow "x" "111" pending).

Definition worldSendingX : World :=
  mkWorld (sampleDb running 5 ["A"; "B"] [sampleRow "x" "111" sending])
          {["c1" := 0%nat]} {[0%nat := mkCampaignState true ∅ ∅ "2024-05-01"]}
          [] 1 [sendingX] [] [].

(** Campaign c1 registered and running, account A connected, over the given
    contact rows, the phone number 222 being blacklisted. *)
Definition runningOver (rows : list CampaignContact) : World :=
  mkWorld (blacklisting222 (sampleDb running 5 ["A"] rows))
          {["c1" := 0%nat]} {[0%nat := mkCampaignState true ∅ ∅ "2024-05-01"]}
          [] 1 [] [] [].

Definition cycleOfA : Cycle := mkCycle "c1" "A" 0%nat (sampleCampaign running 5).

(** Three accounts on one pending contact, the second one offline. *)
Definition threeAccountsOneContact : World :=
  idle (sampleDb draft 5 ["A"; "B"; "C"] [sampleRow "x" "111" pending]).

(** Two accounts on one pending contact, the second one offline. *)
Definition twoAccountsOneContact : World :=
  idle (sampleDb draft 5 ["A"; "B"] [sampleRow "x" "111" pending]).

(** A draft campaign with contacts and no account assigned. *)
Definition noAccounts : World :=
  idle (sampleDb draft 5 [] [sampleRow "x" "111" pending]).

(** One account, three contacts, one message per day. The first day: the
    send of x is delivered, the two next wakes find the limit reached, and
    the wake after 18:00 finds the window closed. *)
Definition onePerDay : World :=
  idle (sampleDb draft 1 ["A"]
          [sampleRow "x" "111" pending; sampleRow "y" "333" pending;
           sampleRow "z" "444" pending]).

Definition evening : Clock := mkClock "2024-05-01T15:00:00.000Z" 18.

Definition firstDay : list Tick :=
  [ at_ morning (StartCampaign "c1");
    at_ morning (SendSettles 0 Delivered);
    at_ morning (TimerFires 1);
    at_ morning (TimerFires 3);
    at_ evening (TimerFires 5) ].

(** The next day at the start hour: the wakes armed for it fire one after the
    other, then the transport settles the two sends. *)
Definition secondDay : list Tick :=
  [ at_ nextMorning (TimerFires 2);
    at_ nextMorning (TimerFires 4);
    at_ nextMorning (TimerFires 6);
    at_ nextMorning (SendSettles 0 Delivered);
    at_ nextMorning (SendSettles 0 Delivered) ].

(** A campaign whose only contact has just been sent, its worker's next wake
    armed (timer 1). *)
Definition lastContactSent : World :=
  run asciiLowerCase
    [ at_ morning (StartCampaign "c1"); at_ morning (SendSettles 0 Delivered) ]
    (idle (sampleDb draft 5 ["A"] [sampleRow "x" "111" pending])).

Definition cycleOfB : Cycle := mkCycle "c1" "B" 0%nat (sampleCampaign running 5).

Definition greeting (phone : string) : Rendered :=
  mkRendered "Hi {{name}}"
    [("name", phone); ("phone", phone); ("custom1", EmptyString); ("custom2", EmptyString)].

(** ** Workers that keep a campaign alive *)

(** The campaign has the state object [r] in the registry, running, no other
    campaign shares the object, and its persisted status is [st]. *)
Definition registeredRunning (campaignId : string) (r : nat)
    (st : option CampaignStatus) (w : World) : Prop :=
  activeCampaigns w !! campaignId = Some r ∧
  (∀ c, activeCampaigns w !! c = Some r → c = campaignId) ∧
  (r < fresh w)%nat ∧
  isRunning (stateAt r w) = true ∧
  statusOf campaignId w = st.

(** [state.accountTimeouts.has(accountId)] on the object [r]. *)
Definition hasTimeout (r : nat) (accountId : string) (w : World) : Prop :=
  is_Some (accountTimeouts (stateAt r w) !! accountId).

(** The accounts [a] and [b] both have an entry in [accountTimeouts], except
    the one a cycle has just deleted for itself ([busy]). *)
Definition armedBut (campaignId : string) (r : nat) (st : option CampaignStatus)
    (a b : string) (busy : option string) (w : World) : Prop :=
  registeredRunning campaignId r st w ∧
  (Some a ≠ busy → hasTimeout r a w) ∧
  (Some b ≠ busy → hasTimeout r b w).

(** Two accounts, one contact: A's send of x has been delivered while B found
    nothing to claim, and both wrappers have armed their next wake. *)
Definition bothArmed : World :=
  run asciiLowerCase
    [ at_ morning (StartCampaign "c1"); at_ morning (SendSettles 0 Delivered) ]
    twoAccountsOneContact.

(** ** Halted campaigns *)

(** The campaign is not in the registry (never started, stopped, completed or
    reset), or its state object is not running (paused). *)
Definition halted (campaignId : string) (w : World) : Prop :=
  match activeCampaigns w !! campaignId with
  | None => True
  | Some r => isRunning (stateAt r w) = false ∧ (r < fresh w)%nat
  end.

(** The sends of the campaign that are in flight are among [old]. *)
Definition noNewSends (campaignId : string) (old : list InFlight) (w : World) : Prop :=
  halted campaignId w ∧
  ∀ f, f ∈ inflight w → cy_campaign (if_cycle f) = campaignId → f ∈ old.

(** ** Completion *)

(** Every contact of the campaign is sent or failed. *)
Definition nothingUnsent (campaignId : string) (w : World) : Prop :=
  ∀ row, row ∈ campaign_contacts (db w) → cc_campaign_id row = campaignId →
         cc_status row = sent ∨ cc_status row = failed.

(** The campaign is over: nothing unsent, and no state object registered. *)
Definition finished (campaignId : string) (w : World) : Prop :=
  nothingUnsent campaignId w ∧ activeCampaigns w !! campaignId = None.

(** The continuations that complete a campaign come from cycles of campaign
    [campaignId] and find it finished. *)
Definition stopsFinished (campaignId : string) (q : list Microtask) (w : World) : Prop :=
  ∀ cy, (cy, AfterStop) ∈ q → cy_campaign cy = campaignId ∧ finished campaignId w.

(** ** What the scheduler leaves alone *)

(** The identity of the contact rows: id, campaign and phone number. *)
Definition contactKeys (w : World) : list (string * string * string) :=
  (λ r, (cc_id r, cc_campaign_id r, cc_phone_number r)) <$> campaign_contacts (db w).

(** The columns of a campaign row other than status, started_at and
    completed_at. *)
Definition configOf (c : Campaign) : Campaign :=
  setCampaignFields draft None None c.

Definition campaignConfigs (w : World) : list Campaign := configOf <$> campaigns (db w).

(** [started_at] of a campaign row, when the row exists and the column is set. *)
Definition startedAt (campaignId : string) (w : World) : option string :=
  getCampaign campaignId (db w) ≫= c_started_at.

(** ** The status a macrotask leaves *)

(** The queue holds the completion of the campaign: a cycle of it is
    suspended on [await this.stopCampaign(campaignId)]. *)
Definition hasStop (campaignId : string) (q : list Microtask) : bool :=
  existsb (λ m, match m.2 with
                | AfterStop => bool_decide (cy_campaign m.1 = campaignId)
                | AfterSendNext _ => false
                end) q.

(** The status column after a write of [s] to the row, if the row exists. *)
Definition written (s : CampaignStatus) (before : option CampaignStatus) :
    option CampaignStatus :=
  (λ _, s) <$> before.

(** The event is a lifecycle call on the campaign or the firing of one of
    its timers. *)
Definition concerns (campaignId : string) (w : World) (e : Event) : bool :=
  match e with
  | StartCampaign c | PauseCampaign c | StopCampaign c | ResetCampaign c =>
      bool_decide (c = campaignId)
  | TimerFires i =>
      match List.find (λ tm, bool_decide (timer_id tm = i)) (timers w) with
      | Some tm => bool_decide (timer_campaign tm = campaignId)
      | None => false
      end
  | SendSettles _ _ | Midnight => false
  end.

(** ** startCampaign as its callers see it

    [startCampaign] holds no [await]: a caller that does not await it
    continues after the body, before any continuation of the workers runs. *)
Definition startCampaignBegin (clk : Clock) (isConnected : string → bool)
    (campaignId : string) (w : World) : World * list Microtask :=
  if bool_decide (is_Some (activeCampaigns w !! campaignId)) then (w, [])
  else
    match getCampaign campaignId (db w) with
    | None => (w, [])
    | Some _ =>
      let w1 := with_db (updateCampaign campaignId (markRunning (nowISO clk))) w in
      match participatingAccounts campaignId (db w1) with
      | [] => (w1, [])
      | accountIds =>
        let r := fresh w1 in
        let w2 :=
          with_activeCampaigns <[campaignId := r]>
            (with_states <[r := mkCampaignState true ∅ ∅ (dateKey clk)]>
              (with_fresh S w1)) in
        spawnWorkers clk isConnected campaignId accountIds w2
      end
    end.

(** ** ScheduledCampaignChecker ([electron/services/ScheduledCampaignChecker.ts])

    The column [scheduled_start_datetime] of the campaigns table, by
    campaign id; absent is NULL. Only [campaigns:create] writes it, with a
    [toISOString()] text or NULL. *)
Definition Schedule : Type := gmap string string.

(** [status = 'draft' AND scheduled_start_datetime IS NOT NULL
     AND scheduled_start_datetime <= ?], the parameter being
    [now.toISOString()]: two TEXT values that are no numeric literals compare
    byte by byte. *)
Definition isDue (clk : Clock) (sched : Schedule) (c : Campaign) : bool :=
  bool_decide (c_status c = draft) &&
  match sched !! c_id c with
  | Some s => String.leb s (nowISO clk)
  | None => false
  end.

Definition dueCampaigns (clk : Clock) (sched : Schedule) (d : Database) : list Campaign :=
  List.filter (isDue clk sched) (campaigns d).

(** [for (const campaign of scheduledCampaigns) this.startScheduledCampaign(campaign)]:
    each call runs [startCampaign] to its end and suspends on the [await];
    what follows the [await] only logs. The [catch] is not reached:
    [startCampaign] throws on a database error only. *)
Fixpoint startScheduledCampaigns (clk : Clock) (isConnected : string → bool)
    (l : list Campaign) (w : World) : World * list Microtask :=
  match l with
  | [] => (w, [])
  | c :: rest =>
      let '(w1, q1) := startCampaignBegin clk isConnected (c_id c) w in
      let '(w2, q2) := startScheduledCampaigns clk isConnected rest w1 in
      (w2, (q1 ++ q2)%list)
  end.

Definition checkScheduledCampaigns (clk : Clock) (isConnected : string → bool)
    (sched : Schedule) (w : World) : World * list Microtask :=
  startScheduledCampaigns clk isConnected (dueCampaigns clk sched (db w)) w.

(** One check as a macrotask: the hourly tick of [start], or [checkNow]. *)
Definition checkNow (clk : Clock) (isConnected : string → bool)
    (sched : Schedule) (w : World) : World :=
  let '(w1, q) := checkScheduledCampaigns clk isConnected sched w in
  drain clk q w1.

(** ** resumeRunningCampaigns

    A timer armed by the resume; its handle is dropped, so nothing clears it.
    Its callback is [startCampaign(campaign.id)] followed by [logActivity]. *)
Record ResumeTimer := mkResumeTimer {
  rt_campaign : string;
  rt_name : string;
  rt_delay : Delay
}.

Definition resumedMessage (name suffix : string) : string :=
  "Campaign " +:+ dquote +:+ name +:+ dquote +:+ suffix.

Section Resume.

(** [new Date(text).getTime()]: the milliseconds of a date text, [None] for an
    Invalid Date (NaN). *)
Variable getTime : string → option Z.

(** [new Date(campaign.started_at).getTime()]; [new Date(null)] is the epoch. *)
Definition startedTime (c : Campaign) : option Z :=
  match c_started_at c with
  | None => Some 0
  | Some s => getTime s
  end.

(** [hoursSinceStart > 168], with
    [hoursSinceStart = (now.getTime() - startedAt.getTime()) / 1000 / 60 / 60]:
    on whole milliseconds the three divisions are monotone and exact at
    604800000, so the test is [now - started > 604800000]; with NaN it is
    false. *)
Definition runningTooLong (nowMs : Z) (c : Campaign) : bool :=
  match startedTime c with
  | Some t => 604800000 <? nowMs - t
  | None => false
  end.

(** The body of the loop of [resumeRunningCampaigns] for one row of the
    snapshot [SELECT * FROM campaigns WHERE status = 'running']. *)
Definition resumeCampaign (clk : Clock) (isConnected : string → bool) (nowMs : Z)
    (c : Campaign) (w : World) : World * list ResumeTimer * list Microtask :=
  if runningTooLong nowMs c then
    (with_db (updateCampaign (c_id c) markPaused) w, [], [])
  else if (c_start_hour c <=? currentHour clk) && (currentHour clk <? c_end_hour c) then
    let '(w1, q) := startCampaignBegin clk isConnected (c_id c) w in
    (with_db (logActivity "campaign"
                (resumedMessage (c_name c) " auto-resumed after app restart") (c_id c)) w1,
     [], q)
  else if currentHour clk <? c_start_hour c then
    (w, [mkResumeTimer (c_id c) (c_name c) (UntilStartHour 0 (c_start_hour c))], [])
  else
    (w, [mkResumeTimer (c_id c) (c_name c) (UntilStartHour 1 (c_start_hour c))], []).

Fixpoint resumeCampaigns (clk : Clock) (isConnected : string → bool) (nowMs : Z)
    (l : list Campaign) (w : World) : World * list ResumeTimer * list Microtask :=
  match l with
  | [] => (w, [], [])
  | c :: rest =>
      let '(w1, t1, q1) := resumeCampaign clk isConnected nowMs c w in
      let '(w2, t2, q2) := resumeCampaigns clk isConnected nowMs rest w1 in
      (w2, (t1 ++ t2)%list, (q1 ++ q2)%list)
  end.

Definition runningCampaigns (d : Database) : list Campaign :=
  List.filter (λ c, bool_decide (c_status c = running)) (campaigns d).

Definition resumeRunningCampaigns (clk : Clock) (isConnected : string → bool) (nowMs : Z)
    (w : World) : World * list ResumeTimer * list Microtask :=
  resumeCampaigns clk isConnected nowMs (runningCampaigns (db w)) w.

(** [initializeServices]: the scheduler's constructor resumes, the checker
    makes its first check, and only then do the continuations run. *)
Definition initializeServices (clk : Clock) (isConnected : string → bool) (nowMs : Z)
    (sched : Schedule) (w : World) : World * list ResumeTimer :=
  let '(w1, ts, q1) := resumeRunningCampaigns clk isConnected nowMs w in
  let '(w2, q2) := checkScheduledCampaigns clk isConnected sched w1 in
  (drain clk (q1 ++ q2) w2, ts).

End Resume.

(** A timer of the resume fires. *)
Definition resumeTimerFires (clk : Clock) (isConnected : string → bool)
    (rt : ResumeTimer) (w : World) : World :=
  let '(w1, q) := startCampaignBegin clk isConnected (rt_campaign rt) w in
  drain clk q
    (with_db (logActivity "campaign"
                (resumedMessage (rt_name rt) " auto-resumed at start of working hours")
                (rt_campaign rt)) w1).

(** [currentHour >= campaign.start_hour && currentHour < campaign.end_hour] *)
Definition inWorkingHours (clk : Clock) (c : Campaign) : bool :=
  (c_start_hour c <=? currentHour clk) && (currentHour clk <? c_end_hour c).

(** The timer the resume arms for a campaign found outside its hours. *)
Definition resumeTimerFor (clk : Clock) (c : Campaign) : ResumeTimer :=
  mkResumeTimer (c_id c) (c_name c)
    (UntilStartHour (if currentHour clk <? c_start_hour c then 0 else 1) (c_start_hour c)).

(** The date texts of the examples, in milliseconds; any other text is an
    Invalid Date. *)
Definition sampleTimes (s : string) : option Z :=
  if bool_decide (s = "2024-05-01T07:00:00.000Z") then Some 1714546800000
  else if bool_decide (s = "2024-05-01T15:00:00.000Z") then Some 1714575600000
  else if bool_decide (s = "2024-05-02T06:00:00.000Z") then Some 1714629600000
  else None.

(** The database a restarted process finds: campaign c1 running, started at
    the given time, account A, contact x pending. *)
Definition afterRestart (startedAt : option string) : World :=
  idle (mkDatabase
          [setCampaignFields running startedAt None (sampleCampaign running 5)]
          [mkCampaignAccount "c1" "A"] [sampleRow "x" "111" pending] [] [] [] [] ∅).

(** ** The campaign handlers of [electron/ipc.ts] *)

(** [x || d] on a whole number that may be undefined: undefined and 0 give [d]. *)
Definition orNumber (x : option Z) (d : Z) : Z :=
  match x with
  | Some n => if n =? 0 then d else n
  | None => d
  end.

(** [x || null] on a string that may be undefined: undefined and '' give null. *)
Definition orNull (x : option string) : option string :=
  match x with
  | Some s => if bool_decide (s = EmptyString) then None else Some s
  | None => None
  end.

(** The [data] of [campaigns:create]. *)
Record CampaignData := mkCampaignData {
  cd_name : string;
  cd_message : string;
  cd_min_delay : option Z;
  cd_max_delay : option Z;
  cd_max_messages_per_day : option Z;
  cd_start_hour : option Z;
  cd_end_hour : option Z;
  cd_media_path : option string;
  cd_media_type : option string;
  cd_media_caption : option string;
  cd_scheduled_start_datetime : option string
}.

(** The row [campaigns:create] inserts; status takes the column default
    'draft', started_at and completed_at are NULL. *)
Definition createdRow (id : string) (data : CampaignData) : Campaign :=
  mkCampaign id (cd_name data) (cd_message data) draft
    (orNumber (cd_min_delay data) 30) (orNumber (cd_max_delay data) 60)
    (orNumber (cd_max_messages_per_day data) 100)
    (orNumber (cd_start_hour data) 9) (orNumber (cd_end_hour data) 18)
    None None
    (orNull (cd_media_path data)) (orNull (cd_media_type data))
    (orNull (cd_media_caption data)).

(** [campaigns:create] with [id] the fresh uuid; an id already in the table
    fails the PRIMARY KEY and nothing is inserted. *)
Definition createCampaign (id : string) (data : CampaignData)
    (ds : Database * Schedule) : Database * Schedule :=
  let '(d, sched) := ds in
  match getCampaign id d with
  | Some _ => (d, sched)
  | None =>
      (with_campaigns (λ l, (l ++ [createdRow id data])%list) d,
       match orNull (cd_scheduled_start_datetime data) with
       | Some s => <[id := s]> sched
       | None => sched
       end)
  end.

#[global] Instance CampaignAccount_eq_dec : EqDecision CampaignAccount.
Proof. solve_decision. Defined.

(** The loop of [campaigns:addAccounts] inside its transaction:
    [INSERT OR IGNORE INTO campaign_accounts (campaign_id, account_id)].
    A pair already there is skipped (PRIMARY KEY, OR IGNORE); a new pair whose
    campaign or account does not exist fails the FOREIGN KEY and throws
    ([None]). [accounts] are the ids of the accounts table. *)
Fixpoint insertAccounts (accounts : list string) (campaignExists : bool)
    (campaignId : string) (accountIds : list string)
    (rows : list CampaignAccount) : option (list CampaignAccount) :=
  match accountIds with
  | [] => Some rows
  | a :: rest =>
      if bool_decide (mkCampaignAccount campaignId a ∈ rows)
      then insertAccounts accounts campaignExists campaignId rest rows
      else if campaignExists && bool_decide (a ∈ accounts)
      then insertAccounts accounts campaignExists campaignId rest
             (rows ++ [mkCampaignAccount campaignId a])%list
      else None
  end.

(** [campaigns:addAccounts]; a throw rolls the transaction back. *)
Definition addAccounts (accounts : list string) (campaignId : string)
    (accountIds : list string) (d : Database) : Database :=
  match insertAccounts accounts (bool_decide (is_Some (getCampaign campaignId d)))
          campaignId accountIds (campaign_accounts d) with
  | Some rows =>
      mkDatabase (campaigns d) rows (campaign_contacts d) (contacts d)
                 (contact_tags d) (tags d) (activities d) (stats d)
  | None => d
  end.

(** The row [campaigns:getStats] returns: [COUNT( * )] and three
    [SUM(CASE WHEN status = ... THEN 1 ELSE 0 END)], which are NULL over no
    row. *)
Record CampaignStats := mkCampaignStats {
  st_total : Z;
  st_sent : option Z;
  st_pending : option Z;
  st_failed : option Z
}.

Definition countStatus (s : ContactStatus) (rows : list CampaignContact) : Z :=
  Z.of_nat (List.length (List.filter (λ r, bool_decide (cc_status r = s)) rows)).

Definition sumCase (s : ContactStatus) (rows : list CampaignContact) : option Z :=
  match rows with
  | [] => None
  | _ => Some (countStatus s rows)
  end.

Definition getStats (campaignId : string) (d : Database) : CampaignStats :=
  let rows := List.filter (λ r, bool_decide (cc_campaign_id r = campaignId))
                (campaign_contacts d) in
  mkCampaignStats (Z.of_nat (List.length rows))
    (sumCase sent rows) (sumCase pending rows) (sumCase failed rows).

(** [campaigns:delete]: [await campaignScheduler.stopCampaign(id)], then
    [DELETE FROM campaigns WHERE id = ?]; with foreign keys on, the rows of
    campaign_accounts and campaign_contacts that reference the campaign go
    with it (ON DELETE CASCADE). *)
Definition deleteCampaign (clk : Clock) (id : string) (ws : World * Schedule) :
    World * Schedule :=
  let '(w, sched) := ws in
  (with_db (λ d,
      mkDatabase
        (List.filter (λ c, negb (bool_decide (c_id c = id))) (campaigns d))
        (List.filter (λ r, negb (bool_decide (ca_campaign_id r = id))) (campaign_accounts d))
        (List.filter (λ r, negb (bool_decide (cc_campaign_id r = id))) (campaign_contacts d))
        (contacts d) (contact_tags d) (tags d) (activities d) (stats d))
     (stopCampaign clk id w),
   delete id sched).

(** The row is in the table, contact ids are unique (PRIMARY KEY), and no
    suspended send holds the row's contact. *)
Definition settledRow (row : CampaignContact) (w : World) : Prop :=
  NoDup (cc_id <$> campaign_contacts (db w)) ∧
  (∀ f, f ∈ inflight w → cc_id (if_contact f) ≠ cc_id row) ∧
  row ∈ campaign_contacts (db w).

(** The loop of [campaigns:addContacts] inside its transaction:
    [INSERT INTO campaign_contacts (id, campaign_id, phone_number)], each row
    with the uuid drawn for it; status takes the column default 'pending'. An
    id already in the table fails the PRIMARY KEY and an unknown campaign the
    FOREIGN KEY: the statement throws ([None]). *)
Fixpoint insertContacts (campaignExists : bool) (campaignId : string)
    (new : list (string * string)) (rows : list CampaignContact) :
    option (list CampaignContact) :=
  match new with
  | [] => Some rows
  | (id, phone) :: rest =>
      if campaignExists && negb (bool_decide (id ∈ cc_id <$> rows))
      then insertContacts campaignExists campaignId rest
             (rows ++ [mkCampaignContact id campaignId phone pending None None None])%list
      else None
  end.

(** [campaigns:addContacts]; a throw rolls the transaction back. *)
Definition addContacts (campaignId : string) (new : list (string * string))
    (d : Database) : Database :=
  match insertContacts (bool_decide (is_Some (getCampaign campaignId d)))
          campaignId new (campaign_contacts d) with
  | Some rows => with_campaign_contacts (λ _, rows) d
  | None => d
  end.

Definition newContact (campaignId : string) (p : string * string) : CampaignContact :=
  mkCampaignContact p.1 campaignId p.2 pending None None None.

(** [armTimer] for each account in turn, on the state object [r]. *)
Definition armAll (r : nat) (campaignId : string) (dl : Delay)
    (accountIds : list string) (w : World) : World :=
  foldl (λ w a, armTimer r campaignId a dl w) w accountIds.


(** * Properties *)

(** ** RateWindow *)

(** C4. Working-hours gating: for every hour of the day, the window [9,18)
    holds exactly on hours 9..17 and fails on 0..8 and 18..23, and the window
    [0,24) holds on every hour. *)
Theorem working_hours_gating (hour : Z) :
  0 ≤ hour ≤ 23 →
  (isWithinWindow hour 9 18 = true ↔ 9 ≤ hour ≤ 17) ∧
  (isWithinWindow hour 9 18 = false ↔ hour ≤ 8 ∨ 18 ≤ hour) ∧
  isWithinWindow hour 0 24 = true.
Proof.
  intros Hh. unfold isWithinWindow, outsideWorkingHours.
  destruct (Z.ltb_spec hour 9), (Z.leb_spec 18 hour),
           (Z.ltb_spec hour 0), (Z.leb_spec 24 hour); simpl;
    repeat split; intros; try lia; try discriminate.
Qed.

Lemma working_hours_gating_witness :
  0 ≤ 12 ≤ 23 ∧ isWithinWindow 12 9 18 = true ∧ isWithinWindow 12 0 24 = true.
Proof.
  split; [lia |].
  destruct (working_hours_gating 12 ltac:(lia)) as (H1 & _ & H3).
  split; [apply H1; lia | exact H3].
Defined.

(** The gate of the cycle is this test: outside the window a worker only arms
    a wake at the start hour (today before the window, tomorrow after it) and
    touches neither the tables nor the transport. *)
Lemma outside_window_only_arms clk conn campaignId accountId w r state campaign :
  activeState campaignId w = Some (r, state) →
  isRunning state = true →
  getCampaign campaignId (db w) = Some campaign →
  isWithinWindow (currentHour clk) (c_start_hour campaign) (c_end_hour campaign) = false →
  scheduleNextMessageForAccount clk conn campaignId accountId w =
    (armTimer r campaignId accountId
       (UntilStartHour (if c_end_hour campaign <=? currentHour clk then 1 else 0)
                       (c_start_hour campaign)) w, []).
Proof.
  intros Hs Hr Hc Hw. unfold scheduleNextMessageForAccount.
  rewrite Hs, Hr, Hc. simpl.
  unfold isWithinWindow in Hw. apply negb_false_iff in Hw. by rewrite Hw.
Qed.

(** ** Rows under the statements *)

Lemma lookup_updateContacts cond f d i :
  campaign_contacts (updateContacts cond f d) !! i =
    (λ r, if cond r then f r else r) <$> campaign_contacts d !! i.
Proof. unfold updateContacts. simpl. apply list_lookup_fmap. Qed.

Lemma elem_of_updateContacts cond f d r' :
  r' ∈ campaign_contacts (updateContacts cond f d) →
  ∃ r, r ∈ campaign_contacts d ∧ r' = if cond r then f r else r.
Proof.
  unfold updateContacts. simpl. intros H.
  apply list_elem_of_fmap in H as (r & -> & Hr). eauto.
Qed.

Lemma nextPendingContact_Some campaignId d c :
  nextPendingContact campaignId d = Some c →
  c ∈ campaign_contacts d ∧ cc_campaign_id c = campaignId ∧
  cc_status c = pending ∧ isBlacklisted d c = false.
Proof.
  unfold nextPendingContact. intros H. apply find_some in H as [Hin Hc].
  apply andb_prop in Hc as [Hc Hb]. apply andb_prop in Hc as [Hc Hs].
  apply bool_decide_eq_true in Hc. apply bool_decide_eq_true in Hs.
  apply negb_true_iff in Hb. by rewrite list_elem_of_In.
Qed.

Lemma nextPendingContact_None campaignId d r :
  nextPendingContact campaignId d = None →
  r ∈ campaign_contacts d → cc_campaign_id r = campaignId → cc_status r = pending →
  isBlacklisted d r = true.
Proof.
  unfold nextPendingContact. intros H Hin Hc Hs.
  apply list_elem_of_In in Hin.
  pose proof (find_none _ _ H _ Hin) as Hf. simpl in Hf.
  unfold inCampaignWith in Hf.
  rewrite !bool_decide_eq_true_2 in Hf by done. simpl in Hf.
  by apply negb_false_iff in Hf.
Qed.

(** ** Failure classification *)

Lemma isPermanentFailure_true errorMsg pat :
  pat ∈ permanentPatterns → includes errorMsg pat = true →
  isPermanentFailure errorMsg = true.
Proof.
  intros Hin Hinc. unfold isPermanentFailure. apply existsb_exists.
  exists pat. split; [by apply list_elem_of_In | done].
Qed.

Lemma isPermanentFailure_false errorMsg :
  (∀ pat, pat ∈ permanentPatterns → includes errorMsg pat = false) →
  isPermanentFailure errorMsg = false.
Proof.
  intros H. unfold isPermanentFailure.
  destruct (existsb _ _) eqn:E; [| done].
  apply existsb_exists in E as (pat & Hin & Hp).
  apply list_elem_of_In in Hin. by rewrite (H _ Hin) in Hp.
Qed.

Lemma settleSend_threw_db (toLowerCase : string → string) clk f message w :
  db (settleSend toLowerCase clk f (Threw message) w).1 =
    if isPermanentFailure (errorMsgOf toLowerCase message)
    then updateContacts (hasId (cc_id (if_contact f)))
           (λ r, setContactFields failed (cc_sent_by_account_id r) (cc_sent_at r)
                                  message r) (db w)
    else updateContacts (hasId (cc_id (if_contact f))) (setContactStatus pending) (db w).
Proof. unfold settleSend. cbn [fst]. by destruct (isPermanentFailure _). Qed.

(** ** Lifecycle: reset and pause *)

Lemma stopCampaign_db clk campaignId w :
  db (stopCampaign clk campaignId w) =
    updateCampaign campaignId (markStopped (nowISO clk)) (db w).
Proof. unfold stopCampaign. by destruct (activeState campaignId w) as [[r s] |]. Qed.

Lemma stopCampaign_unregisters clk campaignId w :
  activeCampaigns (stopCampaign clk campaignId w) !! campaignId = None.
Proof.
  unfold stopCampaign, activeState.
  destruct (activeCampaigns w !! campaignId) as [r |] eqn:E; simpl; [| done].
  apply lookup_delete_eq.
Qed.

Lemma getCampaign_updateCampaign campaignId campaignId' f d :
  (∀ c, c_id (f c) = c_id c) →
  getCampaign campaignId (updateCampaign campaignId' f d) =
    (λ c, if bool_decide (c_id c = campaignId') then f c else c) <$> getCampaign campaignId d.
Proof.
  intros Hid. unfold getCampaign, updateCampaign. simpl.
  induction (campaigns d) as [| c l IH]; [done |].
  cbn [fmap list_fmap List.find].
  replace (c_id (if bool_decide (c_id c = campaignId') then f c else c)) with (c_id c)
    by (by case_bool_decide).
  by destruct (bool_decide (c_id c = campaignId)).
Qed.

Lemma reset_db_fixed now campaignId d :
  let d' := updateCampaign campaignId markDraft (resetCampaignContacts campaignId d) in
  updateCampaign campaignId markDraft
    (resetCampaignContacts campaignId
       (updateCampaign campaignId (markStopped now) d')) = d'.
Proof.
  destruct d as [cs cas ccs ks kts ts acts sts].
  unfold updateCampaign, resetCampaignContacts, updateContacts,
    with_campaigns, with_campaign_contacts. simpl. f_equal.
  - rewrite <- !list_fmap_compose. apply list_fmap_ext. intros _ c _. simpl.
    destruct (decide (c_id c = campaignId)) as [E | E].
    + repeat (rewrite ?(bool_decide_eq_true_2 _ E); simpl). done.
    + repeat (rewrite ?(bool_decide_eq_false_2 _ E); simpl). done.
  - rewrite <- !list_fmap_compose. apply list_fmap_ext. intros _ r _. simpl.
    destruct (decide (cc_campaign_id r = campaignId)) as [E | E].
    + repeat (rewrite ?(bool_decide_eq_true_2 _ E); simpl). done.
    + repeat (rewrite ?(bool_decide_eq_false_2 _ E); simpl). done.
Qed.

Lemma getCampaign_in campaignId d c :
  getCampaign campaignId d = Some c → c_id c = campaignId.
Proof.
  unfold getCampaign. intros E. apply find_some in E as [_ E].
  by apply bool_decide_eq_true in E.
Qed.

Lemma status_after_update campaignId f d :
  (∀ c, c_id (f c) = c_id c) →
  getCampaign campaignId (updateCampaign campaignId f d) = f <$> getCampaign campaignId d.
Proof.
  intros Hid. rewrite getCampaign_updateCampaign by done.
  destruct (getCampaign campaignId d) as [c |] eqn:E; [| done].
  cbn [fmap option_fmap option_map].
  by rewrite (bool_decide_eq_true_2 _ (getCampaign_in _ _ _ E)).
Qed.

Lemma resetCampaign_db clk campaignId w :
  db (resetCampaign clk campaignId w) =
    updateCampaign campaignId markDraft
      (resetCampaignContacts campaignId
         (updateCampaign campaignId (markStopped (nowISO clk)) (db w))).
Proof. unfold resetCampaign. cbn [db with_db]. by rewrite stopCampaign_db. Qed.

Lemma resetCampaign_getCampaign clk campaignId w :
  getCampaign campaignId (db (resetCampaign clk campaignId w)) =
    (λ c, markDraft (markStopped (nowISO clk) c)) <$> getCampaign campaignId (db w).
Proof.
  rewrite resetCampaign_db. rewrite status_after_update by done.
  change (getCampaign campaignId (resetCampaignContacts campaignId ?d))
    with (getCampaign campaignId d).
  rewrite status_after_update by done.
  by destruct (getCampaign campaignId (db w)).
Qed.

(** C7. Idempotent reset: after [resetCampaign] every contact of the campaign
    is pending with sent_by_account_id, sent_at and error cleared, and the
    campaign row is draft with started_at and completed_at cleared; a second
    [resetCampaign] (the operation is total: nothing in it can fail) leaves
    exactly this state. *)
Theorem reset_idempotent clk1 clk2 campaignId w :
  let w' := resetCampaign clk1 campaignId w in
  (∀ r, r ∈ campaign_contacts (db w') → cc_campaign_id r = campaignId →
     cc_status r = pending ∧ cc_sent_by_account_id r = None ∧
     cc_sent_at r = None ∧ cc_error r = None) ∧
  (∀ c, c ∈ campaigns (db w') → c_id c = campaignId →
     c_status c = draft ∧ c_started_at c = None ∧ c_completed_at c = None) ∧
  getCampaign campaignId (db w') =
    (λ c, markDraft (markStopped (nowISO clk1) c)) <$> getCampaign campaignId (db w) ∧
  length (campaign_contacts (db w')) = length (campaign_contacts (db w)) ∧
  resetCampaign clk2 campaignId w' = w'.
Proof.
  intros w'.
  assert (Hdb : db w' = updateCampaign campaignId markDraft
                  (resetCampaignContacts campaignId
                     (updateCampaign campaignId (markStopped (nowISO clk1)) (db w)))).
  { apply resetCampaign_db. }
  split; [| split; [| split; [| split]]].
  - intros r Hr Hc. rewrite Hdb in Hr. cbn [campaign_contacts updateCampaign with_campaigns] in Hr.
    apply elem_of_updateContacts in Hr as (r0 & _ & ->).
    case_bool_decide; [done | congruence].
  - intros c Hc Hid. rewrite Hdb in Hc.
    unfold updateCampaign at 1 in Hc. cbn [campaigns with_campaigns] in Hc.
    apply list_elem_of_fmap in Hc as (c0 & -> & _).
    case_bool_decide; [done | congruence].
  - apply resetCampaign_getCampaign.
  - rewrite Hdb. unfold updateCampaign, resetCampaignContacts, updateContacts. simpl.
    by rewrite length_fmap.
  - unfold resetCampaign at 1.
    assert (Hs : stopCampaign clk2 campaignId w' =
                 with_db (updateCampaign campaignId (markStopped (nowISO clk2))) w').
    { unfold stopCampaign, activeState.
      replace (activeCampaigns w' !! campaignId) with (@None nat); [done |].
      subst w'. unfold resetCampaign. cbn [activeCampaigns with_db].
      by rewrite stopCampaign_unregisters. }
    rewrite Hs. unfold with_db at 1 2 3. cbn [db activeCampaigns states timers fresh inflight
      transportCalls notifications].
    rewrite Hdb. rewrite reset_db_fixed. rewrite <- Hdb. by destruct w'.
Qed.

Lemma reset_idempotent_witness :
  let w' := resetCampaign morning "c1" worldSendingX in
  campaign_contacts (db w') = [sampleRow "x" "111" pending] ∧
  resetCampaign nextMorning "c1" w' = w'.
Proof.
  split; [reflexivity |].
  exact (proj2 (proj2 (proj2 (proj2
           (reset_idempotent morning nextMorning "c1" worldSendingX))))).
Defined.

Lemma pauseCampaign_registry campaignId w :
  activeCampaigns (pauseCampaign campaignId w) = activeCampaigns w.
Proof. unfold pauseCampaign. by destruct (activeState campaignId w) as [[r s] |]. Qed.

Lemma pauseCampaign_db campaignId w :
  db (pauseCampaign campaignId w) = updateCampaign campaignId markPaused (db w).
Proof. unfold pauseCampaign. by destruct (activeState campaignId w) as [[r s] |]. Qed.

(** ** The claim step *)

(** What a cycle that reaches the claim step (campaign found, under the daily
    limit, account connected) does to the contact rows. *)
Lemma claim_step_rows clk isConnected cy w campaign r state :
  getCampaign (cy_campaign cy) (db w) = Some campaign →
  activeState (cy_campaign cy) w = Some (r, state) →
  sentToday state (cy_account cy) < c_max_messages_per_day campaign →
  isConnected (cy_account cy) = true →
  campaign_contacts (db (sendNextMessageFromAccount clk isConnected cy w).1) =
    match nextPendingContact (cy_campaign cy) (db w) with
    | Some c =>
        campaign_contacts
          (updateContacts (hasId (cc_id c)) (setContactStatus sending) (db w))
    | None =>
        if (0 <? countBlacklistedPending (cy_campaign cy) (db w))%nat
        then campaign_contacts (failAllBlacklistedPending (cy_campaign cy) (db w))
        else campaign_contacts (db w)
    end.
Proof.
  intros Hc Hs Hlim Hconn. unfold sendNextMessageFromAccount.
  rewrite Hc, Hs. cbn zeta.
  destruct (Z.leb_spec (c_max_messages_per_day campaign)
              (sentToday state (cy_account cy))) as [Hle | _]; [lia |].
  rewrite Hconn. cbn [negb].
  destruct (nextPendingContact _ _) as [c |]; [done |].
  set (w1 := if (0 <? _)%nat then _ else w).
  assert (Hw1 : campaign_contacts (db w1) =
                if (0 <? countBlacklistedPending (cy_campaign cy) (db w))%nat
                then campaign_contacts (failAllBlacklistedPending (cy_campaign cy) (db w))
                else campaign_contacts (db w)).
  { subst w1. by destruct (0 <? _)%nat. }
  rewrite <- Hw1. clearbody w1.
  destruct (0 <? countStuckSending _ _)%nat; [done |].
  set (w2 := match accountTimeouts state !! _ with Some _ => _ | None => w1 end).
  assert (Hw2 : db w2 = db w1) by (subst w2; by destruct (accountTimeouts state !! _)).
  clearbody w2.
  destruct (bool_decide _); cbn [fst]; [| by rewrite Hw2].
  by rewrite stopCampaign_db, Hw2.
Qed.

(** C5. Blacklist exclusion: the claim query never returns a pending contact
    whose phone number carries the BlackList tag, so a cycle that claims
    leaves every such contact as it was (never sending); and a cycle that
    finds no other pending contact turns every blacklisted pending contact of
    the campaign into failed with error Contact in BlackList. *)
Theorem blacklist_exclusion clk isConnected cy w campaign r state :
  NoDup (cc_id <$> campaign_contacts (db w)) →
  getCampaign (cy_campaign cy) (db w) = Some campaign →
  activeState (cy_campaign cy) w = Some (r, state) →
  sentToday state (cy_account cy) < c_max_messages_per_day campaign →
  isConnected (cy_account cy) = true →
  let w' := (sendNextMessageFromAccount clk isConnected cy w).1 in
  (∀ c, nextPendingContact (cy_campaign cy) (db w) = Some c →
        isBlacklisted (db w) c = false) ∧
  (∀ i row,
     campaign_contacts (db w) !! i = Some row →
     cc_campaign_id row = cy_campaign cy →
     cc_status row = pending →
     isBlacklisted (db w) row = true →
     campaign_contacts (db w') !! i =
       match nextPendingContact (cy_campaign cy) (db w) with
       | Some _ => Some row
       | None =>
           Some (setContactFields failed (cc_sent_by_account_id row) (cc_sent_at row)
                                  (Some "Contact in BlackList") row)
       end).
Proof.
  intros Hnd Hc Hs Hlim Hconn w'. split.
  - intros c Hn. by apply nextPendingContact_Some in Hn as (_ & _ & _ & Hb).
  - intros i row Hi Hcid Hst Hbl. subst w'.
    rewrite (claim_step_rows _ _ _ _ _ _ _ Hc Hs Hlim Hconn).
    destruct (nextPendingContact _ _) as [c |] eqn:Hn.
    + rewrite lookup_updateContacts, Hi. cbn [fmap option_fmap option_map].
      unfold hasId. case_bool_decide as E; [| done].
      apply nextPendingContact_Some in Hn as (Hin & _ & _ & Hb).
      apply list_elem_of_lookup in Hin as [j Hj].
      assert (i = j) as ->.
      { eapply NoDup_lookup; [exact Hnd | |];
          rewrite list_lookup_fmap; [rewrite Hi | rewrite Hj]; simpl; by f_equal. }
      congruence.
    + assert (0 < countBlacklistedPending (cy_campaign cy) (db w))%nat as Hpos.
      { unfold countBlacklistedPending.
        assert (row ∈ filter (λ r0, inCampaignWith (cy_campaign cy) pending r0
                                    && isBlacklisted (db w) r0 = true)
                             (campaign_contacts (db w))) as Hin.
        { apply list_elem_of_filter. split; [| by eapply list_elem_of_lookup_2].
          unfold inCampaignWith. rewrite !bool_decide_eq_true_2 by done. by rewrite Hbl. }
        destruct (filter _ _); [by apply elem_of_nil in Hin | simpl; lia]. }
      apply Nat.ltb_lt in Hpos. rewrite Hpos.
      unfold failAllBlacklistedPending. rewrite lookup_updateContacts, Hi.
      cbn [fmap option_fmap option_map].
      unfold inCampaignWith. rewrite !bool_decide_eq_true_2 by done. by rewrite Hbl.
Qed.

Lemma blacklist_exclusion_witness :
  campaign_contacts
    (db (sendNextMessageFromAccount morning allConnected cycleOfA
           (runningOver [sampleRow "y" "222" pending; sampleRow "x" "111" pending])).1)
    !! 0%nat = Some (sampleRow "y" "222" pending) ∧
  campaign_contacts
    (db (sendNextMessageFromAccount morning allConnected cycleOfA
           (runningOver [sampleRow "y" "222" pending])).1)
    !! 0%nat =
    Some (mkCampaignContact "y" "c1" "222" failed None None (Some "Contact in BlackList")).
Proof.
  split.
  - refine (proj2 (blacklist_exclusion morning allConnected cycleOfA
                     (runningOver [sampleRow "y" "222" pending; sampleRow "x" "111" pending])
                     (sampleCampaign running 5) 0%nat
                     (mkCampaignState true ∅ ∅ "2024-05-01")
                     _ eq_refl eq_refl eq_refl eq_refl)
                  0%nat (sampleRow "y" "222" pending) eq_refl eq_refl eq_refl eq_refl).
    match goal with |- ?G => exact (bool_decide_unpack G I) end.
  - refine (proj2 (blacklist_exclusion morning allConnected cycleOfA
                     (runningOver [sampleRow "y" "222" pending])
                     (sampleCampaign running 5) 0%nat
                     (mkCampaignState true ∅ ∅ "2024-05-01")
                     _ eq_refl eq_refl eq_refl eq_refl)
                  0%nat (sampleRow "y" "222" pending) eq_refl eq_refl eq_refl eq_refl).
    match goal with |- ?G => exact (bool_decide_unpack G I) end.
Defined.

(** ** The persisted campaign status *)

Section StatusWrites.

(** A relation between the world before and the world after: it holds across
    whatever leaves the campaigns table alone and across the unconditional
    status writes [W] of the lifecycle. *)
Variable R : World → World → Prop.
Variable W : (Campaign → Campaign) → Prop.

Hypothesis R_trans : ∀ w1 w2 w3, R w1 w2 → R w2 w3 → R w1 w3.
Hypothesis R_frame : ∀ w w', campaigns (db w') = campaigns (db w) → R w w'.
Hypothesis R_write : ∀ c f w, W f → R w (with_db (updateCampaign c f) w).
Hypothesis W_running : ∀ now, W (markRunning now).
Hypothesis W_paused : W markPaused.
Hypothesis W_stopped : ∀ now, W (markStopped now).
Hypothesis W_completed : ∀ now, W (markCompleted now).

Local Lemma R_refl w : R w w.
Proof. by apply R_frame. Qed.

Lemma writes_stop clk campaignId w : R w (stopCampaign clk campaignId w).
Proof.
  eapply R_trans; [apply (R_write campaignId (markStopped (nowISO clk))); done |].
  apply R_frame. by rewrite stopCampaign_db.
Qed.

Lemma writes_pause campaignId w : R w (pauseCampaign campaignId w).
Proof.
  eapply R_trans; [apply (R_write campaignId markPaused); done |].
  apply R_frame. by rewrite pauseCampaign_db.
Qed.

Lemma writes_reset clk campaignId w :
  W markDraft → R w (resetCampaign clk campaignId w).
Proof.
  intros Hd. unfold resetCampaign.
  eapply R_trans; [apply writes_stop |].
  eapply R_trans; [| by apply R_write]. by apply R_frame.
Qed.

Lemma writes_sendNext clk isConnected cy w :
  R w (sendNextMessageFromAccount clk isConnected cy w).1.
Proof.
  unfold sendNextMessageFromAccount.
  destruct (getCampaign _ _) as [campaign |]; [| apply R_refl].
  destruct (activeState _ _) as [[r state] |]; [| apply R_refl].
  cbn zeta.
  destruct (_ <=? _); [by apply R_frame |].
  destruct (negb _); [by apply R_frame |].
  destruct (nextPendingContact _ _) as [c |]; [by apply R_frame |].
  set (w1 := if (0 <? _)%nat then _ else w).
  assert (H1 : campaigns (db w1) = campaigns (db w)) by (subst w1; by destruct (0 <? _)%nat).
  clearbody w1.
  destruct (0 <? countStuckSending _ _)%nat; [by apply R_frame |].
  set (w2 := match accountTimeouts state !! _ with Some _ => _ | None => w1 end).
  assert (H2 : campaigns (db w2) = campaigns (db w))
    by (subst w2; by destruct (accountTimeouts state !! _)).
  clearbody w2.
  destruct (bool_decide _); cbn [fst]; [| by apply R_frame].
  eapply R_trans; [by apply R_frame | apply writes_stop].
Qed.

Lemma writes_scheduleNext clk isConnected campaignId accountId w :
  R w (scheduleNextMessageForAccount clk isConnected campaignId accountId w).1.
Proof.
  unfold scheduleNextMessageForAccount.
  destruct (activeState _ _) as [[r state] |] eqn:Hs; [| apply R_refl].
  destruct (negb _); [apply R_refl |].
  destruct (getCampaign _ _) as [campaign |]; [| apply R_refl].
  destruct (outsideWorkingHours _ _ _); [by apply R_frame |].
  eapply R_trans; [| apply writes_sendNext].
  apply R_frame. unfold resetDailyCountersIfNeeded. rewrite Hs.
  by destruct (bool_decide _).
Qed.

Lemma writes_microtask clk m w : R w (runMicrotask clk m w).1.
Proof.
  destruct m as [cy [| ok]]; cbn [runMicrotask fst]; [| by apply R_frame].
  eapply R_trans;
    [apply (R_write (cy_campaign cy) (markCompleted (nowISO clk))); done |].
  by apply R_frame.
Qed.

Lemma writes_runQueue clk q w : R w (runQueue clk q w).1.
Proof.
  revert w. induction q as [| m q IH]; intros w; [apply R_refl |].
  cbn [runQueue].
  pose proof (writes_microtask clk m w) as Hm.
  destruct (runMicrotask clk m w) as [w1 q1]. cbn [fst] in Hm.
  pose proof (IH w1) as Hq. destruct (runQueue clk q w1) as [w2 q2].
  cbn [fst] in *. by eapply R_trans.
Qed.

Lemma writes_drain clk q w : R w (drain clk q w).
Proof.
  unfold drain. pose proof (writes_runQueue clk q w) as H1.
  destruct (runQueue clk q w) as [w1 q1]. cbn [fst] in H1.
  eapply R_trans; [exact H1 | apply writes_runQueue].
Qed.

Lemma writes_spawn clk isConnected campaignId accountIds w :
  R w (spawnWorkers clk isConnected campaignId accountIds w).1.
Proof.
  revert w. induction accountIds as [| a l IH]; intros w; [apply R_refl |].
  cbn [spawnWorkers].
  pose proof (writes_scheduleNext clk isConnected campaignId a w) as Ha.
  destruct (scheduleNextMessageForAccount clk isConnected campaignId a w) as [w1 q1].
  pose proof (IH w1) as Hl.
  destruct (spawnWorkers clk isConnected campaignId l w1) as [w2 q2].
  cbn [fst] in *. by eapply R_trans.
Qed.

Lemma writes_start clk isConnected campaignId w :
  R w (startCampaign clk isConnected campaignId w).
Proof.
  unfold startCampaign.
  destruct (bool_decide _); [apply R_refl |].
  destruct (getCampaign _ _); [| apply R_refl].
  cbn zeta.
  pose proof (R_write campaignId (markRunning (nowISO clk)) w (W_running _)) as Hrun.
  destruct (participatingAccounts _ _) as [| a l] eqn:Ha; [exact Hrun |].
  set (w2 := with_activeCampaigns _ _).
  pose proof (writes_spawn clk isConnected campaignId (a :: l) w2) as Hsp.
  destruct (spawnWorkers clk isConnected campaignId (a :: l) w2) as [w3 q].
  cbn [fst] in Hsp.
  eapply R_trans; [exact Hrun |].
  eapply R_trans; [| eapply R_trans; [exact Hsp | apply writes_drain]].
  by apply R_frame.
Qed.

Lemma writes_settle toLowerCase clk f res w :
  R w (settleSend toLowerCase clk f res w).1.
Proof.
  apply R_frame. unfold settleSend. cbn [fst].
  destruct res as [| message]; [done |]. by destruct (isPermanentFailure _).
Qed.

Lemma writes_step toLowerCase t w :
  (W markDraft ∨ ∀ c, tk_event t ≠ ResetCampaign c) →
  R w (step toLowerCase t w).
Proof.
  intros Hev. unfold step. destruct (tk_event t) as [c | c | c | c | i | n res |].
  - apply writes_start.
  - apply writes_pause.
  - apply writes_stop.
  - destruct Hev as [Hd | Hev]; [by apply writes_reset | by destruct (Hev c)].
  - destruct (List.find _ _) as [tm |]; [| apply R_refl].
    set (w0 := with_timers _ w).
    pose proof (writes_scheduleNext (tk_clock t) (tk_connected t)
                  (timer_campaign tm) (timer_account tm) w0) as Hs.
    destruct (scheduleNextMessageForAccount _ _ _ _ w0) as [w1 q]. cbn [fst] in Hs.
    eapply R_trans; [| apply writes_drain].
    eapply R_trans; [| exact Hs]. by apply R_frame.
  - destruct (inflight w !! n) as [f |]; [| apply R_refl].
    set (w0 := with_inflight _ w).
    pose proof (writes_settle toLowerCase (tk_clock t) f res w0) as Hs.
    destruct (settleSend _ _ _ _ w0) as [w1 q]. cbn [fst] in Hs.
    eapply R_trans; [| apply writes_drain].
    eapply R_trans; [| exact Hs]. by apply R_frame.
  - by apply R_frame.
Qed.

End StatusWrites.








(** ** A paused campaign stays paused *)




Lemma statusOf_update_other campaignId c f w :
  c ≠ campaignId → (∀ x, c_id (f x) = c_id x) →
  statusOf campaignId (with_db (updateCampaign c f) w) = statusOf campaignId w.
Proof.
  intros Hne Hid. unfold statusOf. cbn [db with_db].
  rewrite getCampaign_updateCampaign by done.
  destruct (getCampaign campaignId (db w)) as [x |] eqn:E; [| done].
  cbn [fmap option_fmap option_map].
  rewrite bool_decide_eq_false_2; [done |].
  rewrite (getCampaign_in _ _ _ E). congruence.
Qed.






Lemma foreignStops_app campaignId q1 q2 :
  foreignStops campaignId q1 → foreignStops campaignId q2 →
  foreignStops campaignId (q1 ++ q2)%list.
Proof. unfold foreignStops. intros. by apply Forall_app. Qed.














(** ** Starting a campaign *)

Lemma startCampaign_no_accounts clk isConnected campaignId w c :
  activeCampaigns w !! campaignId = None →
  getCampaign campaignId (db w) = Some c →
  participatingAccounts campaignId (db w) = [] →
  startCampaign clk isConnected campaignId w =
    with_db (updateCampaign campaignId (markRunning (nowISO clk))) w.
Proof.
  intros Hreg Hc Hacc. unfold startCampaign. rewrite Hreg, Hc.
  rewrite bool_decide_eq_false_2 by (by intros [? ?]).
  cbn zeta.
  change (participatingAccounts campaignId
            (db (with_db (updateCampaign campaignId (markRunning (nowISO clk))) w)))
    with (participatingAccounts campaignId (db w)).
  by rewrite Hacc.
Qed.

(** C2, on the code: [startCampaign] writes status running and stamps
    started_at before it reads the participating accounts, so a draft
    campaign with no account is left running, with no state object, no timer
    and no cycle; the zero-accounts return comes after the write, unlike the
    not-found return that precedes it. *)
Theorem start_without_accounts_marks_running :
  let w' := startCampaign morning allConnected "c1" noAccounts in
  statusOf "c1" noAccounts = Some draft ∧
  participatingAccounts "c1" (db noAccounts) = [] ∧
  statusOf "c1" w' = Some running ∧
  c_started_at <$> getCampaign "c1" (db w') = Some (Some "2024-05-01T07:00:00.000Z") ∧
  activeCampaigns w' = ∅ ∧ timers w' = [] ∧ inflight w' = [].
Proof.
  cbv zeta.
  rewrite (startCampaign_no_accounts morning allConnected "c1" noAccounts
             (sampleCampaign draft 5) eq_refl eq_refl eq_refl).
  repeat split.
Qed.

(** ** The not-connected cycle *)

Lemma disconnected_cycle clk isConnected cy w campaign r state :
  getCampaign (cy_campaign cy) (db w) = Some campaign →
  activeState (cy_campaign cy) w = Some (r, state) →
  sentToday state (cy_account cy) < c_max_messages_per_day campaign →
  isConnected (cy_account cy) = false →
  sendNextMessageFromAccount clk isConnected cy w =
    (with_db (releaseStuckSendingContacts (cy_campaign cy)) w, [(cy, AfterSendNext true)]).
Proof.
  intros Hc Hs Hlim Hconn. unfold sendNextMessageFromAccount.
  rewrite Hc, Hs. cbn zeta.
  destruct (Z.leb_spec (c_max_messages_per_day campaign)
              (sentToday state (cy_account cy))) as [Hle | _]; [lia |].
  by rewrite Hconn.
Qed.

(** The release statement has no account in its WHERE clause: it reverts
    every sending row of the campaign whose sent_by_account_id is NULL, and a
    claim never sets that column. *)
Lemma release_ignores_claimant campaignId d i row :
  campaign_contacts d !! i = Some row →
  cc_campaign_id row = campaignId →
  cc_status row = sending →
  cc_sent_by_account_id row = None →
  campaign_contacts (releaseStuckSendingContacts campaignId d) !! i =
    Some (setContactStatus pending row).
Proof.
  intros Hi Hc Hs Hby. unfold releaseStuckSendingContacts.
  rewrite lookup_updateContacts, Hi. cbn [fmap option_fmap option_map].
  unfold inCampaignWith. by rewrite !bool_decide_eq_true_2.
Qed.

(** C9, on the code: the cycle of a not-connected account claims nothing and
    sends nothing, but its release reverts the contact that the connected
    account A has claimed and is sending: x is pending again while A still
    holds it. The same happens inside [startCampaign] when the offline
    account B follows A in the account list. *)
Theorem disconnected_cycle_releases_foreign_claim :
  let w' := (sendNextMessageFromAccount morning (allBut "B") cycleOfB worldSendingX).1 in
  let started := step asciiLowerCase (mkTick morning (allBut "B") (StartCampaign "c1"))
                      twoAccountsOneContact in
  (claimants "x" worldSendingX = ["A"] ∧
   campaign_contacts (db worldSendingX) = [sampleRow "x" "111" sending] ∧
   campaign_contacts (db w') = [sampleRow "x" "111" pending] ∧
   claimants "x" w' = ["A"] ∧
   transportCalls w' = transportCalls worldSendingX) ∧
  (campaign_contacts (db started) = [sampleRow "x" "111" pending] ∧
   claimants "x" started = ["A"] ∧
   transportCalls started = [sendMessage "A" "111" (greeting "111")]).
Proof. vm_compute. repeat split. Qed.

(** ** Invariants on the contact rows and the sends in flight *)

Lemma settleSend_rows toLowerCase clk f res w :
  inflight (settleSend toLowerCase clk f res w).1 = inflight w ∧
  ∃ g, (∀ r, cc_id (g r) = cc_id r) ∧
       campaign_contacts (db (settleSend toLowerCase clk f res w).1) =
       campaign_contacts (updateContacts (hasId (cc_id (if_contact f))) g (db w)).
Proof.
  unfold settleSend. cbn [fst]. destruct res as [| message].
  - split; [done |]. eexists. split; [| done]. done.
  - destruct (isPermanentFailure _); (split; [done |]); eexists; (split; [| done]); done.
Qed.

Section RowWrites.

(** A property of worlds that depends on the contact rows and the suspended
    sends only, and survives the statements that write contact rows. The
    release of the not-connected branch is allowed only under [releaseOk]. *)
Variable I : World → Prop.
Variable releaseOk : Prop.

Hypothesis I_frame : ∀ w w',
  campaign_contacts (db w') = campaign_contacts (db w) →
  inflight w' = inflight w → I w → I w'.
Hypothesis I_fail : ∀ c w, I w → I (with_db (failAllBlacklistedPending c) w).
Hypothesis I_release : ∀ c w,
  releaseOk → I w → I (with_db (releaseStuckSendingContacts c) w).
Hypothesis I_claim : ∀ campaignId cy campaign r c call w,
  nextPendingContact campaignId (db w) = Some c → I w →
  I (with_inflight (λ l, (l ++ [mkInFlight cy campaign r c])%list)
       (with_transportCalls (λ l, (l ++ [call])%list)
          (with_db (updateContacts (hasId (cc_id c)) (setContactStatus sending)) w))).
Hypothesis I_settle : ∀ toLowerCase clk f res w n,
  inflight w !! n = Some f → I w →
  I (settleSend toLowerCase clk f res (with_inflight (delete n) w)).1.

Lemma rows_stop clk campaignId w : I w → I (stopCampaign clk campaignId w).
Proof.
  apply I_frame; [by rewrite stopCampaign_db |].
  unfold stopCampaign. by destruct (activeState campaignId w) as [[r s] |].
Qed.

Lemma rows_pause campaignId w : I w → I (pauseCampaign campaignId w).
Proof.
  apply I_frame; [by rewrite pauseCampaign_db |].
  unfold pauseCampaign. by destruct (activeState campaignId w) as [[r s] |].
Qed.

Lemma rows_sendNext clk isConnected cy w :
  releaseOk ∨ isConnected (cy_account cy) = true →
  I w → I (sendNextMessageFromAccount clk isConnected cy w).1.
Proof.
  intros Hconn H. unfold sendNextMessageFromAccount.
  destruct (getCampaign _ _) as [campaign |]; [| done].
  destruct (activeState _ _) as [[r state] |]; [| done].
  cbn zeta.
  destruct (_ <=? _); [by apply (I_frame w) |].
  destruct (isConnected (cy_account cy)) eqn:Hc; cbn [negb];
    [| destruct Hconn as [Hok | ?]; [by apply I_release | done]].
  destruct (nextPendingContact _ _) as [c |] eqn:Hn; [by eapply I_claim |].
  set (w1 := if (0 <? _)%nat then _ else w).
  assert (H1 : I w1).
  { subst w1. destruct (0 <? _)%nat; [by apply I_fail | done]. }
  clearbody w1.
  destruct (0 <? countStuckSending _ _)%nat; [by apply (I_frame w1) |].
  set (w2 := match accountTimeouts state !! _ with Some _ => _ | None => w1 end).
  assert (H2 : I w2).
  { subst w2. destruct (accountTimeouts state !! _); [by apply (I_frame w1) | done]. }
  clearbody w2.
  destruct (bool_decide _); cbn [fst]; [by apply rows_stop | done].
Qed.

Lemma rows_scheduleNext clk isConnected campaignId accountId w :
  releaseOk ∨ isConnected accountId = true →
  I w → I (scheduleNextMessageForAccount clk isConnected campaignId accountId w).1.
Proof.
  intros Hconn H. unfold scheduleNextMessageForAccount.
  destruct (activeState _ _) as [[r state] |] eqn:Hs; [| done].
  destruct (negb _); [done |].
  destruct (getCampaign _ _) as [campaign |]; [| done].
  destruct (outsideWorkingHours _ _ _); [by apply (I_frame w) |].
  apply rows_sendNext; [done |].
  unfold resetDailyCountersIfNeeded. rewrite Hs.
  destruct (bool_decide _); [by apply (I_frame w) | done].
Qed.

Lemma rows_microtask clk m w : I w → I (runMicrotask clk m w).1.
Proof. destruct m as [cy [| ok]]; by apply I_frame. Qed.

Lemma rows_runQueue clk q w : I w → I (runQueue clk q w).1.
Proof.
  revert w. induction q as [| m q IH]; intros w H; [done |].
  cbn [runQueue].
  pose proof (rows_microtask clk m w H) as Hm.
  destruct (runMicrotask clk m w) as [w1 q1]. cbn [fst] in Hm.
  pose proof (IH w1 Hm) as Hq. by destruct (runQueue clk q w1) as [w2 q2].
Qed.

Lemma rows_drain clk q w : I w → I (drain clk q w).
Proof.
  intros H. unfold drain. pose proof (rows_runQueue clk q w H) as H1.
  destruct (runQueue clk q w) as [w1 q1]. by apply rows_runQueue.
Qed.

Lemma rows_spawn clk isConnected campaignId accountIds w :
  releaseOk ∨ (∀ a, isConnected a = true) →
  I w → I (spawnWorkers clk isConnected campaignId accountIds w).1.
Proof.
  intros Hconn. revert w. induction accountIds as [| a l IH]; intros w H; [done |].
  cbn [spawnWorkers].
  assert (releaseOk ∨ isConnected a = true) as Ha' by (destruct Hconn; auto).
  pose proof (rows_scheduleNext clk isConnected campaignId a w Ha' H) as Ha.
  destruct (scheduleNextMessageForAccount clk isConnected campaignId a w) as [w1 q1].
  pose proof (IH w1 Ha) as Hl.
  by destruct (spawnWorkers clk isConnected campaignId l w1) as [w2 q2].
Qed.

Lemma rows_start clk isConnected campaignId w :
  releaseOk ∨ (∀ a, isConnected a = true) →
  I w → I (startCampaign clk isConnected campaignId w).
Proof.
  intros Hconn H. unfold startCampaign.
  destruct (bool_decide _); [done |].
  destruct (getCampaign _ _); [| done]. cbn zeta.
  destruct (participatingAccounts _ _) as [| a l]; [by apply (I_frame w) |].
  set (w2 := with_activeCampaigns _ _).
  assert (H2 : I w2) by (by apply (I_frame w)).
  pose proof (rows_spawn clk isConnected campaignId (a :: l) w2 Hconn H2) as Hsp.
  destruct (spawnWorkers clk isConnected campaignId (a :: l) w2) as [w3 q].
  by apply rows_drain.
Qed.

Lemma rows_step toLowerCase t w :
  releaseOk ∨ (∀ a, tk_connected t a = true) →
  (∀ c, tk_event t ≠ ResetCampaign c) →
  I w → I (step toLowerCase t w).
Proof.
  intros Hconn Hev H. unfold step.
  destruct (tk_event t) as [c | c | c | c | i | n res |].
  - by apply rows_start.
  - by apply rows_pause.
  - by apply rows_stop.
  - by destruct (Hev c).
  - destruct (List.find _ _) as [tm |]; [| done].
    set (w0 := with_timers _ w).
    assert (H0 : I w0) by (by apply (I_frame w)).
    assert (releaseOk ∨ tk_connected t (timer_account tm) = true) as Ha
      by (destruct Hconn; auto).
    pose proof (rows_scheduleNext (tk_clock t) (tk_connected t)
                  (timer_campaign tm) (timer_account tm) w0 Ha H0) as Hs.
    destruct (scheduleNextMessageForAccount _ _ _ _ w0) as [w1 q].
    by apply rows_drain.
  - destruct (inflight w !! n) as [f |] eqn:Hn; [| done].
    pose proof (I_settle toLowerCase (tk_clock t) f res w n Hn H) as Hs.
    destruct (settleSend _ _ _ _ _) as [w1 q].
    by apply rows_drain.
  - by apply (I_frame w).
Qed.

Lemma rows_run toLowerCase ts w :
  Forall (λ t, (releaseOk ∨ ∀ a, tk_connected t a = true) ∧
               ∀ c, tk_event t ≠ ResetCampaign c) ts →
  I w → I (run toLowerCase ts w).
Proof.
  revert w. induction ts as [| t ts IH]; intros w Hts H; [done |].
  apply Forall_cons in Hts as [[Hc He] Hts]. cbn [run fold_left].
  apply (IH _ Hts). by apply rows_step.
Qed.

End RowWrites.

(** ** Claim exclusivity *)

(** The claim step itself is exclusive: the SELECT and the UPDATE run with no
    [await] between them, and once a contact is marked sending the claim
    query of any other cycle does not return it. *)
Lemma claim_step_exclusive campaignId campaignId' d c c' :
  nextPendingContact campaignId d = Some c →
  nextPendingContact campaignId'
    (updateContacts (hasId (cc_id c)) (setContactStatus sending) d) = Some c' →
  cc_id c' ≠ cc_id c.
Proof.
  intros _ Hc' Heq.
  apply nextPendingContact_Some in Hc' as (Hin & _ & Hs & _).
  apply elem_of_updateContacts in Hin as (r0 & _ & ->).
  unfold hasId in *. case_bool_decide as E; simpl in *; [discriminate | congruence].
Qed.

Lemma filter_by_key_NoDup {A} (key : A → string) (x : string) (l : list A) :
  NoDup (key <$> l) → (length (filter (λ a, key a = x) l) ≤ 1)%nat.
Proof.
  induction l as [| a l IH]; [simpl; lia |].
  rewrite fmap_cons. intros Hnd. apply NoDup_cons in Hnd as [Hnotin Hnd].
  destruct (decide (key a = x)) as [E | E].
  - rewrite filter_cons_True by done.
    assert (filter (λ a0, key a0 = x) l = []) as ->; [| simpl; lia].
    destruct (filter _ l) as [| b l'] eqn:Hf; [done |].
    assert (b ∈ filter (λ a0, key a0 = x) l) as Hb by (rewrite Hf; left).
    apply list_elem_of_filter in Hb as [Hk Hb].
    destruct Hnotin. rewrite E, <- Hk. by apply list_elem_of_fmap_2.
  - rewrite filter_cons_False by done. by apply IH.
Qed.

Lemma claimsHeld_exclusive w : claimsHeld w → claimExclusive w.
Proof.
  intros [Hnd _] x. unfold claimants. rewrite length_fmap.
  by apply (filter_by_key_NoDup (λ f, cc_id (if_contact f))).
Qed.

Lemma claimsHeld_frame w w' :
  campaign_contacts (db w') = campaign_contacts (db w) →
  inflight w' = inflight w →
  claimsHeld w → claimsHeld w'.
Proof. intros Hc Hi H. unfold claimsHeld in *. by rewrite Hc, Hi. Qed.

Lemma claimsHeld_fail campaignId w :
  claimsHeld w → claimsHeld (with_db (failAllBlacklistedPending campaignId) w).
Proof.
  intros [Hnd Hs]. split; [done |].
  intros f row' Hf Hrow' Hid. cbn [db with_db inflight] in *.
  apply elem_of_updateContacts in Hrow' as (row & Hrow & ->).
  assert (cc_status row = sending) as Hst.
  { apply (Hs f row Hf Hrow). by destruct (_ && _). }
  unfold inCampaignWith. rewrite Hst.
  rewrite (bool_decide_eq_false_2 (sending = pending)) by done.
  by rewrite andb_false_r.
Qed.

Lemma claimsHeld_claim campaignId cy campaign r c call w :
  nextPendingContact campaignId (db w) = Some c →
  claimsHeld w →
  claimsHeld
    (with_inflight (λ l, (l ++ [mkInFlight cy campaign r c])%list)
       (with_transportCalls (λ l, (l ++ [call])%list)
          (with_db (updateContacts (hasId (cc_id c)) (setContactStatus sending)) w))).
Proof.
  intros Hc [Hnd Hs].
  apply nextPendingContact_Some in Hc as (Hin & _ & Hpend & _).
  split; cbn [db with_db inflight with_inflight with_transportCalls].
  - rewrite fmap_app. apply NoDup_app. split; [done |]. split; [| apply NoDup_singleton].
    intros x Hx Hx'. apply list_elem_of_singleton in Hx'. simpl in Hx'. subst x.
    apply list_elem_of_fmap in Hx as (f & Hid & Hf).
    pose proof (Hs f c Hf Hin Hid) as Hst. congruence.
  - intros f row' Hf Hrow' Hid.
    apply elem_of_updateContacts in Hrow' as (row & Hrow & ->).
    unfold hasId in *. case_bool_decide as E; [done |].
    apply elem_of_app in Hf as [Hf | Hf].
    + by apply (Hs f row).
    + apply list_elem_of_singleton in Hf. subst f. simpl in Hid. congruence.
Qed.

Lemma claimsHeld_settle toLowerCase clk f res w n :
  inflight w !! n = Some f →
  claimsHeld w →
  claimsHeld (settleSend toLowerCase clk f res (with_inflight (delete n) w)).1.
Proof.
  intros Hn [Hnd Hs].
  destruct (settleSend_rows toLowerCase clk f res (with_inflight (delete n) w))
    as (Hi & g & Hg & Hrows).
  unfold claimsHeld. rewrite Hi, Hrows. cbn [db with_inflight inflight]. split.
  - rewrite list_fmap_delete. eapply sublist_NoDup; [exact Hnd | apply sublist_delete].
  - intros f' row' Hf' Hrow' Hid.
    apply elem_of_updateContacts in Hrow' as (row & Hrow & ->).
    apply list_elem_of_lookup_1 in Hf' as [j Hj].
    assert (∃ k, inflight w !! k = Some f' ∧ k ≠ n) as (k & Hk & Hkn).
    { destruct (decide (j < n)%nat) as [Hlt | Hge].
      - exists j. rewrite list_lookup_delete_lt in Hj by done. split; [done | lia].
      - exists (S j). rewrite list_lookup_delete_ge in Hj by lia. split; [done | lia]. }
    assert (cc_id (if_contact f') ≠ cc_id (if_contact f)) as Hne.
    { intros E. apply Hkn.
      eapply (NoDup_lookup _ k n); [exact Hnd | |];
        rewrite list_lookup_fmap; [rewrite Hk | rewrite Hn]; simpl; by f_equal. }
    unfold hasId in *. case_bool_decide as E.
    + rewrite Hg in Hid. congruence.
    + apply (Hs f' row); [by eapply list_elem_of_lookup_2 | done | done].
Qed.

(** What holds of claim exclusivity: along any run in which every account is
    connected and no campaign is reset, every suspended send holds a contact
    of its own, so no contact has two claimants. *)
Lemma exclusive_while_connected toLowerCase ts d :
  Forall (λ t, (∀ a, tk_connected t a = true) ∧ ∀ c, tk_event t ≠ ResetCampaign c) ts →
  claimExclusive (run toLowerCase ts (idle d)).
Proof.
  intros Hts. apply claimsHeld_exclusive.
  apply (rows_run claimsHeld False).
  - apply claimsHeld_frame.
  - apply claimsHeld_fail.
  - done.
  - apply claimsHeld_claim.
  - apply claimsHeld_settle.
  - eapply Forall_impl; [exact Hts |]. intros t [Hc He]. split; [by right | done].
  - split; [apply NoDup_nil_2 | intros f row Hf; by apply elem_of_nil in Hf].
Qed.


(** C1, on the code: with accounts A, B, C on one pending contact and B not
    connected, [startCampaign] lets A claim x, lets B's cycle release it, and
    lets C claim it again: two accounts hold the claim on x and the transport
    is called twice for the same phone number. It is the release of the
    not-connected branch that breaks exclusivity, not the claim step: with
    every account connected there is never a second claimant
    ([exclusive_while_connected]). *)
Theorem double_claim_after_release :
  let w := step asciiLowerCase (mkTick morning (allBut "B") (StartCampaign "c1"))
                threeAccountsOneContact in
  claimants "x" w = ["A"; "C"] ∧
  transportCalls w =
    [sendMessage "A" "111" (greeting "111"); sendMessage "C" "111" (greeting "111")] ∧
  ¬ claimExclusive w.
Proof.
  cbv zeta. split; [by vm_compute | split; [by vm_compute |]].
  intros H. specialize (H "x").
  assert (length (claimants "x"
            (step asciiLowerCase (mkTick morning (allBut "B") (StartCampaign "c1"))
               threeAccountsOneContact)) = 2%nat) as E by (by vm_compute).
  rewrite E in H. lia.
Qed.

(** ** A failed contact stays failed *)

Lemma updateContacts_ids cond g d :
  (∀ r, cc_id (g r) = cc_id r) →
  cc_id <$> campaign_contacts (updateContacts cond g d) = cc_id <$> campaign_contacts d.
Proof.
  intros Hg. unfold updateContacts. simpl. rewrite <- list_fmap_compose.
  apply list_fmap_ext. intros _ r _. simpl. by destruct (cond r).
Qed.

Lemma staysFailed_rows contactId err w w' cond g :
  (∀ r, cc_id (g r) = cc_id r) →
  (∀ r, cc_id r = contactId → cc_status r = failed → cond r = false) →
  campaign_contacts (db w') = campaign_contacts (updateContacts cond g (db w)) →
  (∀ f, f ∈ inflight w' → cc_id (if_contact f) ≠ contactId) →
  staysFailed contactId err w → staysFailed contactId err w'.
Proof.
  intros Hg Hcond Hrows Hfl (Hnd & _ & row & Hin & Hid & Hst & Herr).
  unfold staysFailed. rewrite Hrows. split; [by rewrite updateContacts_ids |].
  split; [done |]. exists row. split; [| done].
  unfold updateContacts. simpl. apply list_elem_of_fmap.
  exists row. split; [| done]. by rewrite (Hcond row Hid Hst).
Qed.

Lemma staysFailed_frame contactId err w w' :
  campaign_contacts (db w') = campaign_contacts (db w) →
  inflight w' = inflight w →
  staysFailed contactId err w → staysFailed contactId err w'.
Proof. intros Hc Hi H. unfold staysFailed in *. by rewrite Hc, Hi. Qed.

Lemma staysFailed_claim contactId err campaignId cy campaign r c call w :
  nextPendingContact campaignId (db w) = Some c →
  staysFailed contactId err w →
  staysFailed contactId err
    (with_inflight (λ l, (l ++ [mkInFlight cy campaign r c])%list)
       (with_transportCalls (λ l, (l ++ [call])%list)
          (with_db (updateContacts (hasId (cc_id c)) (setContactStatus sending)) w))).
Proof.
  intros Hc H.
  apply nextPendingContact_Some in Hc as (Hin & _ & Hpend & _).
  assert (cc_id c ≠ contactId) as Hne.
  { destruct H as (Hnd & _ & row & Hrow & Hid & Hst & _). intros E.
    apply list_elem_of_lookup_1 in Hin as [i Hi].
    apply list_elem_of_lookup_1 in Hrow as [j Hj].
    assert (i = j) as ->.
    { eapply NoDup_lookup; [exact Hnd | |];
        rewrite list_lookup_fmap; [rewrite Hi | rewrite Hj]; simpl; [done | f_equal; congruence]. }
    congruence. }
  eapply (staysFailed_rows _ _ w _ (hasId (cc_id c)) (setContactStatus sending));
    [done | | done | | done].
  - intros r0 Hid _. unfold hasId. apply bool_decide_eq_false_2. congruence.
  - intros f Hf. cbn [inflight with_inflight with_transportCalls with_db] in Hf.
    apply elem_of_app in Hf as [Hf | Hf].
    + destruct H as (_ & Hfl & _). by apply Hfl.
    + apply list_elem_of_singleton in Hf. by subst f.
Qed.

Lemma staysFailed_settle contactId err toLowerCase clk f res w n :
  inflight w !! n = Some f →
  staysFailed contactId err w →
  staysFailed contactId err
    (settleSend toLowerCase clk f res (with_inflight (delete n) w)).1.
Proof.
  intros Hn H.
  destruct (settleSend_rows toLowerCase clk f res (with_inflight (delete n) w))
    as (Hi & g & Hg & Hrows).
  assert (Hfl : ∀ f', f' ∈ inflight w → cc_id (if_contact f') ≠ contactId)
    by (by destruct H as (_ & Hfl & _)).
  eapply (staysFailed_rows _ _ w _ _ g); [done | | exact Hrows | | done].
  - intros r0 Hid _. unfold hasId. apply bool_decide_eq_false_2.
    rewrite Hid. intros E. eapply Hfl; [by eapply list_elem_of_lookup_2 | done].
  - intros f'. rewrite Hi. cbn [inflight with_inflight]. intros Hf'.
    apply Hfl. by eapply list_elem_of_delete_inv.
Qed.

(** Once failed, and held by no other suspended send, a contact is failed
    with the same error text after any run without a reset. *)
Lemma failed_is_final contactId err toLowerCase ts w :
  Forall (λ t, ∀ c, tk_event t ≠ ResetCampaign c) ts →
  staysFailed contactId err w → staysFailed contactId err (run toLowerCase ts w).
Proof.
  intros Hts H.
  apply (rows_run (staysFailed contactId err) True); try done.
  - apply staysFailed_frame.
  - intros c w0 H0. unfold failAllBlacklistedPending.
    eapply (staysFailed_rows _ _ w0); [| | done | by destruct H0 as (_ & ? & _) | done];
      [done |].
    intros r0 _ Hst. unfold inCampaignWith. rewrite Hst.
    rewrite (bool_decide_eq_false_2 (failed = pending)) by done.
    by rewrite andb_false_r.
  - intros c w0 _ H0. unfold releaseStuckSendingContacts.
    eapply (staysFailed_rows _ _ w0); [| | done | by destruct H0 as (_ & ? & _) | done];
      [done |].
    intros r0 _ Hst. unfold inCampaignWith. rewrite Hst.
    rewrite (bool_decide_eq_false_2 (failed = sending)) by done.
    by rewrite andb_false_r.
  - intros. by eapply staysFailed_claim.
  - intros. by apply staysFailed_settle.
  - eapply Forall_impl; [exact Hts |]. intros t He. split; [by left | done].
Qed.

(** Failure classification, one claimant at a time: when the transport throws
    during the send of
    a claimed contact, a lower-cased message that contains a permanent pattern
    (among them banned, not registered, blocked) leaves the contact failed
    with the error text, and it is never retried: the claim query does not
    return it, and it is still failed with that text after any later run of
    the event loop without a reset (contact ids being unique and no other
    suspended send holding the contact); a message that matches no permanent
    pattern leaves the contact pending, its other columns untouched. *)
Theorem failure_classification (toLowerCase : string → string) clk f message w i row :
  campaign_contacts (db w) !! i = Some row →
  cc_id row = cc_id (if_contact f) →
  let w' := (settleSend toLowerCase clk f (Threw message) w).1 in
  ("banned" ∈ permanentPatterns ∧ "not registered" ∈ permanentPatterns ∧
   "blocked" ∈ permanentPatterns) ∧
  (∀ pat, pat ∈ permanentPatterns →
     includes (errorMsgOf toLowerCase message) pat = true →
     campaign_contacts (db w') !! i =
       Some (setContactFields failed (cc_sent_by_account_id row) (cc_sent_at row)
                              message row) ∧
     (∀ campaignId c, nextPendingContact campaignId (db w') = Some c →
                      cc_id c ≠ cc_id row) ∧
     (NoDup (cc_id <$> campaign_contacts (db w)) →
      (∀ g, g ∈ inflight w → cc_id (if_contact g) ≠ cc_id row) →
      ∀ ts, Forall (λ t, ∀ c, tk_event t ≠ ResetCampaign c) ts →
        ∃ row', row' ∈ campaign_contacts (db (run toLowerCase ts w')) ∧
                cc_id row' = cc_id row ∧ cc_status row' = failed ∧
                cc_error row' = message)) ∧
  ((∀ pat, pat ∈ permanentPatterns →
      includes (errorMsgOf toLowerCase message) pat = false) →
   campaign_contacts (db w') !! i = Some (setContactStatus pending row)).
Proof.
  intros Hrow Hid w'. split; [| split].
  - unfold permanentPatterns. repeat split; set_solver.
  - intros pat Hin Hinc.
    assert (Hfailed : campaign_contacts (db w') !! i =
              Some (setContactFields failed (cc_sent_by_account_id row) (cc_sent_at row)
                                     message row)).
    { subst w'. rewrite settleSend_threw_db.
      rewrite (isPermanentFailure_true _ _ Hin Hinc).
      rewrite lookup_updateContacts, Hrow. cbn [fmap option_fmap option_map].
      unfold hasId. by rewrite bool_decide_eq_true_2. }
    split; [done |]. split.
    + subst w'. rewrite settleSend_threw_db.
      rewrite (isPermanentFailure_true _ _ Hin Hinc).
      intros campaignId c Hc Heq.
      apply nextPendingContact_Some in Hc as (Hc & _ & Hs & _).
      apply elem_of_updateContacts in Hc as (r0 & _ & ->).
      unfold hasId in *. case_bool_decide as E; simpl in *; [discriminate |].
      congruence.
    + intros Hnd Hfl ts Hts.
      destruct (settleSend_rows toLowerCase clk f (Threw message) w) as (Hi & g & Hg & Hrows).
      fold w' in Hi, Hrows.
      assert (staysFailed (cc_id row) message w') as H0.
      { split; [by rewrite Hrows, updateContacts_ids |].
        split; [by rewrite Hi |].
        eexists. split; [by eapply list_elem_of_lookup_2 | done]. }
      destruct (failed_is_final _ _ toLowerCase ts w' Hts H0) as (_ & _ & row' & H').
      by exists row'.
  - intros Hno. subst w'. rewrite settleSend_threw_db.
    rewrite (isPermanentFailure_false _ Hno).
    rewrite lookup_updateContacts, Hrow. cbn [fmap option_fmap option_map].
    unfold hasId. by rewrite bool_decide_eq_true_2.
Qed.

Lemma failure_classification_witness :
  let w0 := with_inflight (delete 0%nat) worldSendingX in
  let banned := (settleSend asciiLowerCase morning sendingX
                   (Threw (Some "Your account is BANNED")) w0).1 in
  let timeout := (settleSend asciiLowerCase morning sendingX
                    (Threw (Some "Timeout: client not ready")) w0).1 in
  campaign_contacts (db banned) !! 0%nat =
    Some (mkCampaignContact "x" "c1" "111" failed None None
            (Some "Your account is BANNED")) ∧
  (∃ row', row' ∈ campaign_contacts
                    (db (run asciiLowerCase
                           [ at_ nextMorning (StopCampaign "c1");
                             at_ nextMorning (StartCampaign "c1") ] banned)) ∧
           cc_id row' = "x" ∧ cc_status row' = failed ∧
           cc_error row' = Some "Your account is BANNED") ∧
  campaign_contacts (db timeout) !! 0%nat = Some (sampleRow "x" "111" pending).
Proof.
  cbv zeta. split; [| split].
  - pose proof (failure_classification asciiLowerCase morning sendingX
                  (Some "Your account is BANNED")
                  (with_inflight (delete 0%nat) worldSendingX) 0
                  (sampleRow "x" "111" sending) eq_refl eq_refl) as (Hin & Hperm & _).
    exact (proj1 (Hperm "banned" (proj1 Hin) eq_refl)).
  - pose proof (failure_classification asciiLowerCase morning sendingX
                  (Some "Your account is BANNED")
                  (with_inflight (delete 0%nat) worldSendingX) 0
                  (sampleRow "x" "111" sending) eq_refl eq_refl) as (Hin & Hperm & _).
    refine (proj2 (proj2 (Hperm "banned" (proj1 Hin) eq_refl)) _ _
              [ at_ nextMorning (StopCampaign "c1");
                at_ nextMorning (StartCampaign "c1") ] _).
    + apply NoDup_singleton.
    + intros g Hg. by apply elem_of_nil in Hg.
    + repeat constructor; discriminate.
  - pose proof (failure_classification asciiLowerCase morning sendingX
                  (Some "Timeout: client not ready")
                  (with_inflight (delete 0%nat) worldSendingX) 0
                  (sampleRow "x" "111" sending) eq_refl eq_refl) as (_ & _ & Htrans).
    apply Htrans. intros pat Hin. unfold permanentPatterns in Hin.
    repeat (apply elem_of_cons in Hin as [-> | Hin]; [reflexivity |]).
    by apply elem_of_nil in Hin.
Defined.

(** C6, on the code: a contact marked failed for good is sent to again. With
    accounts A, B, C on one pending contact and B not connected,
    [startCampaign] leaves A and C both suspended on the send of x (the double
    claim of C1). A's send throws a message with a permanent pattern, and x is
    failed with the error text. C's send then throws a timeout, and the
    transient branch, whose [UPDATE ... SET status = 'pending' WHERE id = ?]
    does not look at the status, puts x back to pending under the old error
    text. The claim query returns x again, A's next wake (the timer its cycle
    armed after the failure) claims it and calls the transport for 111 a
    third time, and when that send is delivered x is sent. With no second
    send holding the contact this cannot happen ([failure_classification]). *)
Theorem failed_contact_sent_again :
  let tick := mkTick morning (allBut "B") in
  let started := step asciiLowerCase (tick (StartCampaign "c1")) threeAccountsOneContact in
  let blocked := step asciiLowerCase
                   (tick (SendSettles 0 (Threw (Some "You have been BLOCKED")))) started in
  let timedOut := step asciiLowerCase
                    (tick (SendSettles 0 (Threw (Some "Timeout: client not ready")))) blocked in
  let woken := step asciiLowerCase (tick (TimerFires 2)) timedOut in
  let delivered := step asciiLowerCase (tick (SendSettles 0 Delivered)) woken in
  claimants "x" started = ["A"; "C"] ∧
  isPermanentFailure (errorMsgOf asciiLowerCase (Some "You have been BLOCKED")) = true ∧
  isPermanentFailure (errorMsgOf asciiLowerCase (Some "Timeout: client not ready")) = false ∧
  campaign_contacts (db blocked) =
    [mkCampaignContact "x" "c1" "111" failed None None (Some "You have been BLOCKED")] ∧
  claimants "x" blocked = ["C"] ∧
  campaign_contacts (db timedOut) =
    [mkCampaignContact "x" "c1" "111" pending None None (Some "You have been BLOCKED")] ∧
  cc_id <$> nextPendingContact "c1" (db timedOut) = Some "x" ∧
  timer_account <$> List.find (λ t, bool_decide (timer_id t = 2%nat)) (timers timedOut)
    = Some "A" ∧
  claimants "x" woken = ["A"] ∧
  transportCalls woken =
    [sendMessage "A" "111" (greeting "111"); sendMessage "C" "111" (greeting "111");
     sendMessage "A" "111" (greeting "111")] ∧
  cc_status <$> campaign_contacts (db delivered) = [sent].
Proof.
  cbv zeta.
  split; [by vm_compute |]. split; [by vm_compute |]. split; [by vm_compute |].
  split; [by vm_compute |]. split; [by vm_compute |]. split; [by vm_compute |].
  split; [by vm_compute |]. split; [by vm_compute |]. split; [by vm_compute |].
  split; by vm_compute.
Qed.

(** ** The daily limit *)

(** A cycle that finds the limit reached claims nothing and sends nothing: it
    arms a wake for tomorrow's start hour and returns to the wrapper. *)
Lemma capped_cycle clk isConnected cy w campaign r state :
  getCampaign (cy_campaign cy) (db w) = Some campaign →
  activeState (cy_campaign cy) w = Some (r, state) →
  c_max_messages_per_day campaign ≤ sentToday state (cy_account cy) →
  sendNextMessageFromAccount clk isConnected cy w =
    (armTimer r (cy_campaign cy) (cy_account cy)
       (UntilStartHour 1 (c_start_hour campaign)) w,
     [(cy, AfterSendNext true)]).
Proof.
  intros Hc Hs Hlim. unfold sendNextMessageFromAccount.
  rewrite Hc, Hs. cbn zeta.
  by destruct (Z.leb_spec (c_max_messages_per_day campaign)
                 (sentToday state (cy_account cy))) as [_ | Hlt]; [| lia].
Qed.

Lemma capped_cycle_sends_nothing clk isConnected cy w campaign r state :
  getCampaign (cy_campaign cy) (db w) = Some campaign →
  activeState (cy_campaign cy) w = Some (r, state) →
  c_max_messages_per_day campaign ≤ sentToday state (cy_account cy) →
  let w' := (sendNextMessageFromAccount clk isConnected cy w).1 in
  db w' = db w ∧ inflight w' = inflight w ∧ transportCalls w' = transportCalls w ∧
  messagesSentToday (stateAt r w') = messagesSentToday (stateAt r w).
Proof.
  intros Hc Hs Hlim w'. subst w'. rewrite (capped_cycle _ _ _ _ _ _ _ Hc Hs Hlim).
  repeat split. unfold stateAt, armTimer. cbn [states with_states with_fresh with_timers fst].
  rewrite lookup_alter_eq. by destruct (states w !! r).
Qed.

(** C3, on the code. The wake of a capped cycle arms a timer for tomorrow's
    start hour, and the wrapper then arms the usual paced timer, which is the
    one left in [accountTimeouts]: the next wake comes 30..60 s later, and
    each such wake leaves one more timer armed for tomorrow. The next day
    these wakes fire one after the other, each reads the counter before any
    send has settled, each claims and sends: with a limit of one message per
    day, account A sends two and its counter reaches 2. *)
Theorem daily_cap_exceeded :
  let capped := run asciiLowerCase (take 3 firstDay) onePerDay in
  let day1 := run asciiLowerCase firstDay onePerDay in
  let day2 := run asciiLowerCase secondDay day1 in
  c_max_messages_per_day <$> getCampaign "c1" (db day2) = Some 1 ∧
  sentToday (stateAt 0 (run asciiLowerCase (take 2 firstDay) onePerDay)) "A" = 1 ∧
  timers capped = [ mkTimer 2 "c1" "A" (UntilStartHour 1 9);
                    mkTimer 3 "c1" "A" (RandomSeconds 30 60) ] ∧
  accountTimeouts (stateAt 0 capped) !! "A" = Some 3%nat ∧
  transportCalls day1 = [sendMessage "A" "111" (greeting "111")] ∧
  timers day1 = [ mkTimer 2 "c1" "A" (UntilStartHour 1 9);
                  mkTimer 4 "c1" "A" (UntilStartHour 1 9);
                  mkTimer 6 "c1" "A" (UntilStartHour 1 9) ] ∧
  lastResetDate (stateAt 0 day2) = "2024-05-02" ∧
  sentToday (stateAt 0 day2) "A" = 2 ∧
  transportCalls day2 =
    [ sendMessage "A" "111" (greeting "111"); sendMessage "A" "333" (greeting "333");
      sendMessage "A" "444" (greeting "444") ] ∧
  (λ r, (cc_status r, cc_sent_at r)) <$> campaign_contacts (db day2) =
    [ (sent, Some "2024-05-01T07:00:00.000Z"); (sent, Some "2024-05-02T06:00:00.000Z");
      (sent, Some "2024-05-02T06:00:00.000Z") ].
Proof. vm_compute. repeat split. Qed.

(** ** A delivered send *)

(** X1. A delivered send marks the rows of the claimed contact sent, with the
    sending account and the time; it adds one to that account's counter on
    the state object the cycle captured and one to today's row of stats, and
    touches no other contact, counter, state object or date. *)
Theorem delivered_send_recorded (toLowerCase : string → string) clk f w :
  is_Some (states w !! if_state f) →
  let w' := (settleSend toLowerCase clk f Delivered w).1 in
  let a := cy_account (if_cycle f) in
  (∀ i row, campaign_contacts (db w) !! i = Some row →
     campaign_contacts (db w') !! i =
       Some (if bool_decide (cc_id row = cc_id (if_contact f))
             then setContactFields sent (Some a) (Some (nowISO clk)) (cc_error row) row
             else row)) ∧
  sentToday (stateAt (if_state f) w') a = sentToday (stateAt (if_state f) w) a + 1 ∧
  (∀ a', a' ≠ a →
     sentToday (stateAt (if_state f) w') a' = sentToday (stateAt (if_state f) w) a') ∧
  (∀ r, r ≠ if_state f → stateAt r w' = stateAt r w) ∧
  stats (db w') !! dateKey clk = Some (default 0 (stats (db w) !! dateKey clk) + 1) ∧
  (∀ day, day ≠ dateKey clk → stats (db w') !! day = stats (db w) !! day) ∧
  (settleSend toLowerCase clk f Delivered w).2 = [(if_cycle f, AfterSendNext true)].
Proof.
  intros [s Hs] w' a. subst w'. unfold settleSend. cbn [fst snd].
  repeat split.
  - intros i row Hi. cbn [db notifyRenderer with_db with_states].
    change (campaign_contacts (updateStats ?k ?d)) with (campaign_contacts d).
    rewrite lookup_updateContacts, Hi. done.
  - unfold stateAt. cbn [states notifyRenderer with_db with_states].
    rewrite lookup_alter_eq, Hs. cbn. unfold sentToday at 1. cbn.
    by rewrite lookup_insert_eq.
  - intros a' Hne. unfold stateAt. cbn [states notifyRenderer with_db with_states].
    rewrite lookup_alter_eq, Hs. cbn. unfold sentToday at 1. cbn.
    by rewrite lookup_insert_ne.
  - intros r Hne. unfold stateAt. cbn [states notifyRenderer with_db with_states].
    by rewrite lookup_alter_ne.
  - cbn [db notifyRenderer with_db with_states]. unfold updateStats, with_stats. cbn [stats].
    by rewrite lookup_insert_eq.
  - intros day Hne. cbn [db notifyRenderer with_db with_states].
    unfold updateStats, with_stats. cbn [stats]. by rewrite lookup_insert_ne.
Qed.

Lemma delivered_send_recorded_witness :
  let w0 := with_inflight (delete 0%nat) worldSendingX in
  let w' := (settleSend asciiLowerCase morning sendingX Delivered w0).1 in
  campaign_contacts (db w') !! 0%nat =
    Some (mkCampaignContact "x" "c1" "111" sent (Some "A")
            (Some "2024-05-01T07:00:00.000Z") None) ∧
  sentToday (stateAt 0 w') "A" = 1 ∧
  stats (db w') !! "2024-05-01" = Some 1.
Proof.
  cbv zeta.
  pose proof (delivered_send_recorded asciiLowerCase morning sendingX
                (with_inflight (delete 0%nat) worldSendingX)
                (ex_intro _ (mkCampaignState true ∅ ∅ "2024-05-01") eq_refl))
    as (Hrows & Hcount & _ & _ & Hstats & _).
  split; [exact (Hrows 0%nat (sampleRow "x" "111" sending) eq_refl) |].
  split; [exact Hcount | exact Hstats].
Defined.

(** ** Completion needs every other account's entry gone *)

Section ArmedWorkers.

Variables (campaignId : string) (r : nat) (st : option CampaignStatus) (a b : string).
Hypothesis a_ne_b : a ≠ b.

Local Abbreviation armed := (armedBut campaignId r st a b).

Lemma armed_frame busy w w' :
  activeCampaigns w' = activeCampaigns w →
  states w' = states w →
  fresh w' = fresh w →
  campaigns (db w') = campaigns (db w) →
  armed busy w → armed busy w'.
Proof.
  intros Ha Hs Hf Hc H.
  unfold armedBut, registeredRunning, hasTimeout, stateAt, statusOf, getCampaign in *.
  rewrite Ha, Hs, Hf, Hc. done.
Qed.

Lemma armed_weaken busy w : armed None w → armed busy w.
Proof. intros (H & Ha & Hb). split; [done |]. split; intros _; [by apply Ha | by apply Hb]. Qed.

Lemma running_object w :
  isRunning (stateAt r w) = true → ∃ s, states w !! r = Some s ∧ stateAt r w = s.
Proof.
  unfold stateAt. destruct (states w !! r) as [s |]; [by exists s | done].
Qed.

Lemma armed_alter busy w r' f :
  (r' = r → ∀ s, isRunning (f s) = isRunning s ∧
                 ∀ y, is_Some (accountTimeouts s !! y) → is_Some (accountTimeouts (f s) !! y)) →
  armed busy w → armed busy (with_states (alter f r') w).
Proof.
  intros Hf ((H1 & H2 & H3 & H4 & H5) & Ha & Hb).
  destruct (running_object w H4) as (s & Hs & Hs').
  destruct (decide (r' = r)) as [-> | Hne].
  - destruct (Hf eq_refl s) as [Hrun Hkeep].
    assert (stateAt r (with_states (alter f r) w) = f s) as E.
    { unfold stateAt. cbn [states with_states]. by rewrite lookup_alter_eq, Hs. }
    unfold armedBut, registeredRunning, hasTimeout in *. rewrite E.
    rewrite Hs' in *. repeat split; try done.
    + by rewrite Hrun.
    + intros Hx. by apply Hkeep, Ha.
    + intros Hx. by apply Hkeep, Hb.
  - assert (stateAt r (with_states (alter f r') w) = stateAt r w) as E.
    { unfold stateAt. cbn [states with_states]. by rewrite lookup_alter_ne. }
    unfold armedBut, registeredRunning, hasTimeout. rewrite E. done.
Qed.

Lemma armed_counters busy w r' m day :
  armed busy w → armed busy (with_states (alter (setCounters m day) r') w).
Proof. intros H. apply armed_alter; [| done]. intros _ s. done. Qed.

Lemma armed_armTimer busy w r' c x dl :
  armed busy w → armed busy (armTimer r' c x dl w).
Proof.
  intros H. unfold armTimer. apply armed_alter.
  - intros _ s. split; [done |]. intros y Hy. cbn.
    destruct (decide (x = y)) as [-> | Hne];
      [by rewrite lookup_insert_eq | by rewrite lookup_insert_ne].
  - destruct H as ((H1 & H2 & H3 & H4 & H5) & Ha & Hb).
    repeat split; try done. cbn [fresh with_fresh with_timers]. lia.
Qed.

(** The cycle's own entry comes back when its wrapper arms the next wake. *)
Lemma armed_rearm w c x dl :
  armed (Some x) w → armed None (armTimer r c x dl w).
Proof.
  intros H. pose proof (armed_armTimer _ _ r c x dl H) as (HB & Ha & Hb).
  split; [done |].
  assert (hasTimeout r x (armTimer r c x dl w)) as Hx.
  { destruct H as ((H1 & H2 & H3 & H4 & H5) & _ & _).
    destruct (running_object w H4) as (s & Hs & _).
    unfold hasTimeout, armTimer, stateAt. cbn [states with_states with_fresh with_timers].
    rewrite lookup_alter_eq, Hs. cbn. by rewrite lookup_insert_eq. }
  split; intros _.
  - destruct (decide (a = x)) as [-> | Hne]; [done | apply Ha; congruence].
  - destruct (decide (b = x)) as [-> | Hne]; [done | apply Hb; congruence].
Qed.

(** A cycle that drops its own entry still sees the other account's. *)
Lemma armed_delete_own w x :
  armed None w →
  armed (Some x) (with_states (alter (setTimeouts (delete x)) r) w) ∧
  accountTimeouts (stateAt r (with_states (alter (setTimeouts (delete x)) r) w)) ≠ ∅.
Proof.
  intros ((H1 & H2 & H3 & H4 & H5) & Ha & Hb).
  destruct (running_object w H4) as (s & Hs & Hs').
  assert (stateAt r (with_states (alter (setTimeouts (delete x)) r) w)
          = setTimeouts (delete x) s) as E.
  { unfold stateAt. cbn [states with_states]. by rewrite lookup_alter_eq, Hs. }
  unfold armedBut, registeredRunning, hasTimeout in *. rewrite E. rewrite Hs' in *.
  specialize (Ha ltac:(done)). specialize (Hb ltac:(done)).
  split.
  - repeat split; try done.
    + intros Hx. cbn. rewrite lookup_delete_ne by congruence. done.
    + intros Hx. cbn. rewrite lookup_delete_ne by congruence. done.
  - cbn. intros Hempty.
    destruct (decide (a = x)) as [-> | Hne].
    + destruct Hb as [t Ht].
      assert (delete x (accountTimeouts s) !! b = Some t) as Hl
        by (rewrite lookup_delete_ne by congruence; done).
      rewrite Hempty in Hl. by rewrite lookup_empty in Hl.
    + destruct Ha as [t Ht].
      assert (delete x (accountTimeouts s) !! a = Some t) as Hl
        by (rewrite lookup_delete_ne by congruence; done).
      rewrite Hempty in Hl. by rewrite lookup_empty in Hl.
Qed.

Lemma armed_update_other busy w c f :
  c ≠ campaignId → (∀ x, c_id (f x) = c_id x) →
  armed busy w → armed busy (with_db (updateCampaign c f) w).
Proof.
  intros Hne Hid ((H1 & H2 & H3 & H4 & H5) & Ha & Hb). repeat split; try done.
  by rewrite statusOf_update_other.
Qed.

Lemma armed_foreign_ref busy w c r' s :
  c ≠ campaignId → armed busy w → activeState c w = Some (r', s) → r' ≠ r.
Proof.
  intros Hne ((H1 & H2 & _) & _) Hs. unfold activeState in Hs.
  destruct (activeCampaigns w !! c) as [x |] eqn:E; [| done].
  injection Hs as <- _. intros ->. by apply Hne, H2.
Qed.

Lemma armed_alter_other busy w r' f :
  r' ≠ r → armed busy w → armed busy (with_states (alter f r') w).
Proof. intros Hne. apply armed_alter. done. Qed.

Lemma armed_stop_other busy w clk c :
  c ≠ campaignId → armed busy w → armed busy (stopCampaign clk c w).
Proof.
  intros Hne H. unfold stopCampaign.
  apply armed_update_other; [done | done |].
  destruct (activeState c w) as [[r' s] |] eqn:Hs; [| done].
  pose proof (armed_foreign_ref _ _ _ _ _ Hne H Hs) as Hr.
  assert (armed busy
            (with_states (alter (λ s0, setTimeouts (λ _, ∅) (setRunning false s0)) r')
               (clearTimeouts (timeoutHandles s) w)))
    as ((H1 & H2 & H3 & H4 & H5) & Ha & Hb).
  { apply armed_alter_other; [done |]. by apply (armed_frame _ w). }
  repeat split; try done.
  - cbn [activeCampaigns with_activeCampaigns]. by rewrite lookup_delete_ne.
  - intros c'. cbn [activeCampaigns with_activeCampaigns].
    destruct (decide (c = c')) as [-> | Hc];
      [by rewrite lookup_delete_eq | rewrite lookup_delete_ne by done; apply H2].
Qed.

Lemma armed_pause_other busy w c :
  c ≠ campaignId → armed busy w → armed busy (pauseCampaign c w).
Proof.
  intros Hne H. unfold pauseCampaign.
  apply armed_update_other; [done | done |].
  destruct (activeState c w) as [[r' s] |] eqn:Hs; [| done].
  pose proof (armed_foreign_ref _ _ _ _ _ Hne H Hs) as Hr.
  apply armed_alter_other; [done |]. by apply (armed_frame _ w).
Qed.

Lemma armed_sendNext busy w clk isConnected cy :
  cy_campaign cy ≠ campaignId →
  armed busy w →
  armed busy (sendNextMessageFromAccount clk isConnected cy w).1 ∧
  foreignStops campaignId (sendNextMessageFromAccount clk isConnected cy w).2.
Proof.
  intros Hne H. unfold sendNextMessageFromAccount, foreignStops.
  destruct (getCampaign _ _) as [campaign |]; [| split; [done | by repeat constructor]].
  destruct (activeState _ _) as [[r' state] |] eqn:Hs; [| split; [done | by repeat constructor]].
  pose proof (armed_foreign_ref _ _ _ _ _ Hne H Hs) as Hr.
  cbn zeta.
  destruct (_ <=? _);
    [split; [by apply armed_armTimer | by repeat constructor] |].
  destruct (negb _);
    [split; [by apply (armed_frame _ w) | by repeat constructor] |].
  destruct (nextPendingContact _ _) as [c |];
    [split; [by apply (armed_frame _ w) | by repeat constructor] |].
  set (w1 := if (0 <? _)%nat then _ else w).
  assert (H1 : armed busy w1).
  { subst w1. destruct (0 <? _)%nat; [by apply (armed_frame _ w) | done]. }
  clearbody w1.
  destruct (0 <? countStuckSending _ _)%nat;
    [split; [by apply armed_armTimer | by repeat constructor] |].
  set (w2 := match accountTimeouts state !! _ with Some _ => _ | None => w1 end).
  assert (H2 : armed busy w2).
  { subst w2. destruct (accountTimeouts state !! _); [| done].
    apply armed_alter_other; [done |]. by apply (armed_frame _ w1). }
  clearbody w2.
  destruct (bool_decide _); cbn [fst snd].
  - split; [by apply armed_stop_other | by repeat constructor].
  - split; [done | by repeat constructor].
Qed.

Lemma armed_resetDaily busy w clk c :
  armed busy w → armed busy (resetDailyCountersIfNeeded clk c w).
Proof.
  intros H. unfold resetDailyCountersIfNeeded.
  destruct (activeState c w) as [[r' s] |]; [| done].
  destruct (bool_decide _); [| done]. by apply armed_counters.
Qed.

Lemma drain_nil clk w : drain clk [] w = w.
Proof. done. Qed.

Lemma drain_returned clk cy ok w : drain clk [(cy, AfterSendNext ok)] w = scheduleAgain cy ok w.
Proof. done. Qed.

(** A cycle of the campaign itself: it cannot complete the campaign, and its
    wrapper puts its entry back. *)
Lemma armed_own_sendNext w clk isConnected x campaign :
  armed None w →
  let cy := mkCycle campaignId x r campaign in
  let '(w1, q) := sendNextMessageFromAccount clk isConnected cy w in
  armed None (drain clk q w1).
Proof.
  intros H cy. unfold sendNextMessageFromAccount. cbn [cy_campaign cy_account cy].
  pose proof H as ((H1 & H2 & H3 & H4 & H5) & Ha & Hb).
  destruct (getCampaign _ _) as [campaign' |].
  2:{ rewrite drain_returned. apply armed_rearm. by apply armed_weaken. }
  unfold activeState. rewrite H1. cbn [fmap option_fmap option_map].
  destruct (_ <=? _).
  { rewrite drain_returned. apply armed_rearm, armed_weaken. by apply armed_armTimer. }
  destruct (negb _).
  { rewrite drain_returned. apply armed_rearm, armed_weaken. by apply (armed_frame _ w). }
  destruct (nextPendingContact _ _) as [c |].
  { rewrite drain_nil. by apply (armed_frame _ w). }
  set (w1 := if (0 <? _)%nat then _ else w).
  assert (Hw1 : armed None w1).
  { subst w1. destruct (0 <? _)%nat; [by apply (armed_frame _ w) | done]. }
  assert (Hst : stateAt r w1 = stateAt r w).
  { subst w1. by destruct (0 <? _)%nat. }
  clearbody w1.
  destruct (0 <? countStuckSending _ _)%nat.
  { rewrite drain_returned. apply armed_rearm, armed_weaken. by apply armed_armTimer. }
  set (w2 := match accountTimeouts (stateAt r w) !! x with Some _ => _ | None => w1 end).
  assert (Hw2 : armed (Some x) w2 ∧ accountTimeouts (stateAt r w2) ≠ ∅).
  { subst w2. destruct (accountTimeouts (stateAt r w) !! x) as [t |] eqn:Ex.
    - pose proof (armed_delete_own (clearTimeouts [t] w1) x) as Hd.
      apply Hd. by apply (armed_frame _ w1).
    - split; [by apply armed_weaken |].
      destruct Hw1 as (_ & Ha1 & _). specialize (Ha1 ltac:(done)).
      unfold hasTimeout in Ha1. intros Hempty. rewrite Hempty in Ha1.
      rewrite lookup_empty in Ha1. by destruct Ha1. }
  clearbody w2. destruct Hw2 as [Hw2 Hne].
  rewrite bool_decide_eq_false_2 by done.
  rewrite drain_returned. by apply armed_rearm.
Qed.

Lemma armed_microtask busy w clk m :
  (m.2 = AfterStop → cy_campaign m.1 ≠ campaignId) →
  armed busy w →
  armed busy (runMicrotask clk m w).1 ∧
  foreignStops campaignId (runMicrotask clk m w).2.
Proof.
  intros Hm H. destruct m as [cy [| ok]]; cbn [runMicrotask fst snd].
  - split; [| by repeat constructor].
    unfold completeCampaign.
    assert (armed busy
              (with_db (updateCampaign (cy_campaign cy) (markCompleted (nowISO clk))) w))
      as H' by (apply armed_update_other; [by apply Hm | done | done]).
    revert H'. by apply armed_frame.
  - split; [by apply armed_armTimer | constructor].
Qed.

Lemma armed_runQueue busy clk q w :
  foreignStops campaignId q →
  armed busy w →
  armed busy (runQueue clk q w).1 ∧
  foreignStops campaignId (runQueue clk q w).2.
Proof.
  revert w. induction q as [| m q IH]; intros w Hq H; [split; [done | constructor] |].
  apply Forall_cons in Hq as [Hm Hq]. cbn [runQueue].
  destruct (armed_microtask busy w clk m Hm H) as [H1 Hq1].
  destruct (runMicrotask clk m w) as [w1 q1]. cbn [fst snd] in *.
  destruct (IH w1 Hq H1) as [H2 Hq2].
  destruct (runQueue clk q w1) as [w2 q2]. cbn [fst snd] in *.
  split; [done | by apply foreignStops_app].
Qed.

Lemma armed_drain busy clk q w :
  foreignStops campaignId q →
  armed busy w → armed busy (drain clk q w).
Proof.
  intros Hq H. unfold drain.
  destruct (armed_runQueue busy clk q w Hq H) as [H1 Hq1].
  destruct (runQueue clk q w) as [w1 q1]. cbn [fst snd] in *.
  by apply armed_runQueue.
Qed.

(** One wake of a worker, with its continuations. *)
Lemma armed_wake w clk isConnected c x :
  armed None w →
  let '(w1, q) := scheduleNextMessageForAccount clk isConnected c x w in
  armed None (drain clk q w1).
Proof.
  intros H. unfold scheduleNextMessageForAccount.
  destruct (decide (c = campaignId)) as [-> | Hne].
  - pose proof H as ((H1 & H2 & H3 & H4 & H5) & Ha & Hb).
    unfold activeState at 1. rewrite H1. cbn [fmap option_fmap option_map].
    rewrite H4. cbn [negb].
    destruct (getCampaign _ _) as [campaign |]; [| done].
    destruct (outsideWorkingHours _ _ _); [rewrite drain_nil; by apply armed_armTimer |].
    apply armed_own_sendNext. by apply armed_resetDaily.
  - destruct (activeState c w) as [[r' state] |] eqn:Hs; [| done].
    destruct (negb _); [done |].
    destruct (getCampaign _ _) as [campaign |]; [| done].
    destruct (outsideWorkingHours _ _ _); [rewrite drain_nil; by apply armed_armTimer |].
    pose proof (armed_sendNext None (resetDailyCountersIfNeeded clk c w) clk isConnected
                  (mkCycle c x r' campaign) Hne (armed_resetDaily _ _ _ _ H)) as [H1 Hq].
    destruct (sendNextMessageFromAccount _ _ _ _) as [w1 q]. cbn [fst snd] in *.
    by apply armed_drain.
Qed.

Lemma armed_scheduleNext_other busy w clk isConnected c x :
  c ≠ campaignId →
  armed busy w →
  armed busy (scheduleNextMessageForAccount clk isConnected c x w).1 ∧
  foreignStops campaignId (scheduleNextMessageForAccount clk isConnected c x w).2.
Proof.
  intros Hne H. unfold scheduleNextMessageForAccount.
  destruct (activeState c w) as [[r' state] |] eqn:Hs; [| split; [done | constructor]].
  destruct (negb _); [split; [done | constructor] |].
  destruct (getCampaign _ _) as [campaign |]; [| split; [done | constructor]].
  destruct (outsideWorkingHours _ _ _);
    [split; [by apply armed_armTimer | constructor] |].
  apply armed_sendNext; [done |]. by apply armed_resetDaily.
Qed.

Lemma armed_spawn busy clk isConnected c accountIds w :
  c ≠ campaignId →
  armed busy w →
  armed busy (spawnWorkers clk isConnected c accountIds w).1 ∧
  foreignStops campaignId (spawnWorkers clk isConnected c accountIds w).2.
Proof.
  intros Hne. revert w.
  induction accountIds as [| x l IH]; intros w H; [split; [done | constructor] |].
  cbn [spawnWorkers].
  destruct (armed_scheduleNext_other busy w clk isConnected c x Hne H) as [H1 Hq1].
  destruct (scheduleNextMessageForAccount clk isConnected c x w) as [w1 q1].
  cbn [fst snd] in *.
  destruct (IH w1 H1) as [H2 Hq2].
  destruct (spawnWorkers clk isConnected c l w1) as [w2 q2]. cbn [fst snd] in *.
  split; [done | by apply foreignStops_app].
Qed.

Lemma armed_start busy clk isConnected c w :
  armed busy w → armed busy (startCampaign clk isConnected c w).
Proof.
  intros H. unfold startCampaign.
  case_bool_decide as Hreg; [done |].
  assert (c ≠ campaignId) as Hne.
  { intros ->. destruct H as ((H1 & _) & _). apply Hreg. by rewrite H1. }
  destruct (getCampaign _ _); [| done]. cbn zeta.
  assert (H1 : armed busy (with_db (updateCampaign c (markRunning (nowISO clk))) w))
    by (by apply armed_update_other).
  destruct (participatingAccounts _ _) as [| x l]; [done |].
  set (w1 := with_db _ w) in *.
  set (w2 := with_activeCampaigns _ _).
  assert (H2 : armed busy w2).
  { destruct H1 as ((Ha & Hb & Hc & Hd & He) & Hf & Hg).
    assert (stateAt r w2 = stateAt r w1) as E.
    { unfold stateAt. subst w2. cbn [states with_activeCampaigns with_states].
      rewrite lookup_insert_ne by lia. done. }
    unfold armedBut, registeredRunning, hasTimeout. rewrite E.
    subst w2. repeat split; try done.
    - cbn [activeCampaigns with_activeCampaigns]. by rewrite lookup_insert_ne.
    - intros c'. cbn [activeCampaigns with_activeCampaigns with_states with_fresh].
      destruct (decide (c = c')) as [-> | Hc'].
      + rewrite lookup_insert_eq. intros [= E']. subst w1.
        cbn [fresh with_db] in *. lia.
      + rewrite lookup_insert_ne by done. apply Hb.
    - cbn [fresh with_activeCampaigns with_states with_fresh]. lia. }
  destruct (armed_spawn busy clk isConnected c (x :: l) w2 Hne H2) as [H3 Hq].
  destruct (spawnWorkers clk isConnected c (x :: l) w2) as [w3 q]. cbn [fst snd] in *.
  by apply armed_drain.
Qed.

Lemma armed_settle busy toLowerCase clk f res w :
  armed busy w →
  armed busy (settleSend toLowerCase clk f res w).1 ∧
  foreignStops campaignId (settleSend toLowerCase clk f res w).2.
Proof.
  intros H. unfold settleSend. cbn [fst snd]. split; [| by repeat constructor].
  destruct res as [| message].
  - assert (armed busy
      (with_states
         (alter (λ s, setCounters (<[cy_account (if_cycle f) :=
                                       sentToday s (cy_account (if_cycle f)) + 1]>
                                     (messagesSentToday s)) (lastResetDate s) s)
                (if_state f))
         (with_db (updateContacts (hasId (cc_id (if_contact f)))
                     (λ r0, setContactFields sent (Some (cy_account (if_cycle f)))
                              (Some (nowISO clk)) (cc_error r0) r0)) w))) as H'.
    { apply armed_alter; [done |]. by apply (armed_frame _ w). }
    revert H'. by apply armed_frame.
  - destruct (isPermanentFailure _); by apply (armed_frame _ w).
Qed.

Lemma armed_dailyReset busy clk w :
  armed busy w → armed busy (dailyReset clk w).
Proof.
  intros H. unfold dailyReset.
  induction ((map_to_list (activeCampaigns w)).*2) as [| r' l IH].
  - by apply (armed_frame _ w).
  - cbn [foldr].
    change (with_states (λ h, alter (setCounters ∅ (dateKey clk)) r'
                                (foldr (λ r0 h0, alter (setCounters ∅ (dateKey clk)) r0 h0) h l)) w)
      with (with_states (alter (setCounters ∅ (dateKey clk)) r')
              (with_states (λ h, foldr (λ r0 h0, alter (setCounters ∅ (dateKey clk)) r0 h0) h l) w)).
    by apply armed_counters.
Qed.

Lemma armed_step toLowerCase t w :
  tk_event t ≠ PauseCampaign campaignId →
  tk_event t ≠ StopCampaign campaignId →
  tk_event t ≠ ResetCampaign campaignId →
  armed None w → armed None (step toLowerCase t w).
Proof.
  intros Hpause Hstop Hreset H. unfold step.
  destruct (tk_event t) as [c | c | c | c | i | n res |].
  - by apply armed_start.
  - apply armed_pause_other; [congruence | done].
  - apply armed_stop_other; [congruence | done].
  - assert (c ≠ campaignId) as Hne by congruence. unfold resetCampaign.
    assert (armed None
              (with_db (resetCampaignContacts c) (stopCampaign (tk_clock t) c w))) as H'.
    { apply (armed_frame _ (stopCampaign (tk_clock t) c w)); try done.
      by apply armed_stop_other. }
    by apply armed_update_other.
  - destruct (List.find _ _) as [tm |]; [| done].
    set (w0 := with_timers _ w).
    assert (H0 : armed None w0) by (by apply (armed_frame _ w)).
    pose proof (armed_wake w0 (tk_clock t) (tk_connected t)
                  (timer_campaign tm) (timer_account tm) H0) as H1.
    by destruct (scheduleNextMessageForAccount _ _ _ _ w0) as [w1 q].
  - destruct (inflight w !! n) as [f |]; [| done].
    set (w0 := with_inflight _ w).
    assert (H0 : armed None w0) by (by apply (armed_frame _ w)).
    destruct (armed_settle None toLowerCase (tk_clock t) f res w0 H0) as [H1 Hq].
    destruct (settleSend _ _ _ _ w0) as [w1 q]. cbn [fst snd] in *.
    by apply armed_drain.
  - by apply armed_dailyReset.
Qed.

Lemma armed_run toLowerCase ts w :
  Forall (λ t, tk_event t ≠ PauseCampaign campaignId ∧
               tk_event t ≠ StopCampaign campaignId ∧
               tk_event t ≠ ResetCampaign campaignId) ts →
  armed None w → armed None (run toLowerCase ts w).
Proof.
  revert w. induction ts as [| t ts IH]; intros w Hts H; [done |].
  apply Forall_cons in Hts as [(Hp & Hs & Hr) Hts]. cbn [run fold_left].
  apply IH; [done |]. by apply armed_step.
Qed.

End ArmedWorkers.

(** X2. Once two accounts of a running campaign both have an entry in
    [accountTimeouts], no timer that fires, send that settles, midnight reset
    or operation on another campaign completes the campaign or changes its
    persisted status: a cycle that finds nothing left deletes its own entry
    only, sees the other account's, and its wrapper puts its own back. The
    campaign stays registered and running, both entries in place, until it is
    paused, stopped or reset. *)
Theorem two_armed_workers_never_complete (toLowerCase : string → string)
    campaignId r a b ts w :
  a ≠ b →
  activeCampaigns w !! campaignId = Some r →
  (∀ c, activeCampaigns w !! c = Some r → c = campaignId) →
  (r < fresh w)%nat →
  isRunning (stateAt r w) = true →
  hasTimeout r a w → hasTimeout r b w →
  Forall (λ t, tk_event t ≠ PauseCampaign campaignId ∧
               tk_event t ≠ StopCampaign campaignId ∧
               tk_event t ≠ ResetCampaign campaignId) ts →
  let w' := run toLowerCase ts w in
  statusOf campaignId w' = statusOf campaignId w ∧
  activeCampaigns w' !! campaignId = Some r ∧
  isRunning (stateAt r w') = true ∧
  hasTimeout r a w' ∧ hasTimeout r b w'.
Proof.
  intros Hab H1 H2 H3 H4 Ha Hb Hts w'.
  assert (armedBut campaignId r (statusOf campaignId w) a b None w) as H
    by (by repeat split).
  pose proof (armed_run campaignId r (statusOf campaignId w) a b Hab toLowerCase ts w Hts H)
    as ((K1 & K2 & K3 & K4 & K5) & Ka & Kb).
  repeat split; try done; [by apply Ka | by apply Kb].
Qed.

Lemma two_armed_workers_never_complete_witness :
  let w' := run asciiLowerCase
              [ at_ morning (TimerFires 1); at_ morning (TimerFires 3);
                at_ morning (TimerFires 4); at_ morning (TimerFires 5) ] bothArmed in
  cc_status <$> campaign_contacts (db bothArmed) = [sent] ∧
  statusOf "c1" w' = Some running ∧
  activeCampaigns w' !! "c1" = Some 0%nat.
Proof.
  cbv zeta. split; [by vm_compute |].
  assert (Forall (λ t, tk_event t ≠ PauseCampaign "c1" ∧ tk_event t ≠ StopCampaign "c1" ∧
                       tk_event t ≠ ResetCampaign "c1")
            [ at_ morning (TimerFires 1); at_ morning (TimerFires 3);
              at_ morning (TimerFires 4); at_ morning (TimerFires 5) ]) as Hts
    by (repeat constructor; discriminate).
  assert (activeCampaigns bothArmed = {["c1" := 0%nat]}) as Hreg by (by vm_compute).
  assert (∀ c, activeCampaigns bothArmed !! c = Some 0%nat → c = "c1") as Hinj.
  { intros c. rewrite Hreg. intros Hc. by apply lookup_singleton_Some in Hc as [-> _]. }
  assert (activeCampaigns bothArmed !! "c1" = Some 0%nat) as H0 by (by vm_compute).
  assert (0 < fresh bothArmed)%nat as Hf by (vm_compute; lia).
  assert (isRunning (stateAt 0 bothArmed) = true) as Hr by (by vm_compute).
  assert (hasTimeout 0 "A" bothArmed) as Ha by (eexists; by vm_compute).
  assert (hasTimeout 0 "B" bothArmed) as Hb by (eexists; by vm_compute).
  assert (statusOf "c1" bothArmed = Some running) as Hst by (by vm_compute).
  destruct (two_armed_workers_never_complete asciiLowerCase "c1" 0%nat "A" "B" _ bothArmed
              ltac:(done) H0 Hinj Hf Hr Ha Hb Hts)
    as (H1 & H2 & _).
  split; [by rewrite H1 | exact H2].
Defined.

(** ** A halted campaign claims nothing *)

Section Halted.

Variables (campaignId : string) (old : list InFlight).

Local Abbreviation quiet := (noNewSends campaignId old).

Lemma quiet_frame w w' :
  activeCampaigns w' = activeCampaigns w →
  states w' = states w →
  fresh w' = fresh w →
  inflight w' = inflight w →
  quiet w → quiet w'.
Proof.
  intros Ha Hs Hf Hi H. unfold noNewSends, halted, stateAt in *.
  rewrite Ha, Hs, Hf, Hi. done.
Qed.

Lemma quiet_db w f : quiet w → quiet (with_db f w).
Proof. by apply quiet_frame. Qed.

Lemma quiet_alter w r' f :
  (∀ s, isRunning s = false → isRunning (f s) = false) →
  quiet w → quiet (with_states (alter f r') w).
Proof.
  intros Hf [H Hi]. split; [| done]. unfold halted, stateAt in *.
  cbn [activeCampaigns states fresh with_states].
  destruct (activeCampaigns w !! campaignId) as [r |]; [| done].
  destruct H as [H1 H2]. split; [| done].
  destruct (decide (r' = r)) as [-> | Hne].
  - rewrite lookup_alter_eq. destruct (states w !! r); simpl in *; [by apply Hf | done].
  - by rewrite lookup_alter_ne.
Qed.

Lemma quiet_armTimer w r' c x dl : quiet w → quiet (armTimer r' c x dl w).
Proof.
  intros H. unfold armTimer. apply quiet_alter; [done |].
  destruct H as [H Hi]. split; [| done]. unfold halted, stateAt in *.
  cbn [activeCampaigns states fresh with_fresh with_timers].
  destruct (activeCampaigns w !! campaignId) as [r |]; [| done].
  destruct H. split; [done | lia].
Qed.

Lemma quiet_unregister w c :
  quiet w → quiet (with_activeCampaigns (delete c) w).
Proof.
  intros [H Hi]. split; [| done]. unfold halted, stateAt in *.
  cbn [activeCampaigns states fresh with_activeCampaigns].
  destruct (decide (c = campaignId)) as [-> | Hne];
    [by rewrite lookup_delete_eq | by rewrite lookup_delete_ne].
Qed.

Lemma quiet_stop w clk c : quiet w → quiet (stopCampaign clk c w).
Proof.
  intros H. unfold stopCampaign. apply quiet_db.
  destruct (activeState c w) as [[r' s] |]; [| done].
  apply quiet_unregister, quiet_alter; [done |]. by apply (quiet_frame w).
Qed.

Lemma quiet_pause w c : quiet w → quiet (pauseCampaign c w).
Proof.
  intros H. unfold pauseCampaign. apply quiet_db.
  destruct (activeState c w) as [[r' s] |]; [| done].
  apply quiet_alter; [done |]. by apply (quiet_frame w).
Qed.

Lemma quiet_sendNext w clk isConnected cy :
  cy_campaign cy ≠ campaignId →
  quiet w → quiet (sendNextMessageFromAccount clk isConnected cy w).1.
Proof.
  intros Hne H. unfold sendNextMessageFromAccount.
  destruct (getCampaign _ _) as [campaign |]; [| done].
  destruct (activeState _ _) as [[r' state] |]; [| done].
  cbn zeta.
  destruct (_ <=? _); [by apply quiet_armTimer |].
  destruct (negb _); [by apply quiet_db |].
  destruct (nextPendingContact _ _) as [c |].
  { cbn [fst]. destruct H as [H Hi]. split; [done |].
    intros f. cbn [inflight with_inflight with_transportCalls with_db].
    rewrite elem_of_app, list_elem_of_singleton. intros [Hf | ->]; [by apply Hi |].
    by cbn [if_cycle]. }
  set (w1 := if (0 <? _)%nat then _ else w).
  assert (H1 : quiet w1).
  { subst w1. destruct (0 <? _)%nat; [by apply quiet_db | done]. }
  clearbody w1.
  destruct (0 <? countStuckSending _ _)%nat; [by apply quiet_armTimer |].
  set (w2 := match accountTimeouts state !! _ with Some _ => _ | None => w1 end).
  assert (H2 : quiet w2).
  { subst w2. destruct (accountTimeouts state !! _); [| done].
    apply quiet_alter; [done |]. by apply (quiet_frame w1). }
  clearbody w2.
  destruct (bool_decide _); cbn [fst]; [by apply quiet_stop | done].
Qed.

Lemma quiet_scheduleNext w clk isConnected c x :
  quiet w → quiet (scheduleNextMessageForAccount clk isConnected c x w).1.
Proof.
  intros H. unfold scheduleNextMessageForAccount.
  destruct (activeState c w) as [[r' state] |] eqn:Hs; [| done].
  destruct (decide (c = campaignId)) as [-> | Hne].
  { pose proof H as [Hh _]. unfold halted, activeState in *.
    destruct (activeCampaigns w !! campaignId) as [r |]; [| done].
    injection Hs as <- <-. destruct Hh as [-> _]. done. }
  destruct (negb _); [done |].
  destruct (getCampaign _ _) as [campaign |]; [| done].
  destruct (outsideWorkingHours _ _ _); [by apply quiet_armTimer |].
  apply quiet_sendNext; [done |].
  unfold resetDailyCountersIfNeeded. rewrite Hs.
  destruct (bool_decide _); [| done]. by apply quiet_alter.
Qed.

Lemma quiet_microtask w clk m : quiet w → quiet (runMicrotask clk m w).1.
Proof.
  intros H. destruct m as [cy [| ok]]; cbn [runMicrotask fst].
  - by apply (quiet_frame w).
  - by apply quiet_armTimer.
Qed.

Lemma quiet_runQueue clk q w : quiet w → quiet (runQueue clk q w).1.
Proof.
  revert w. induction q as [| m q IH]; intros w H; [done |].
  cbn [runQueue].
  pose proof (quiet_microtask w clk m H) as H1.
  destruct (runMicrotask clk m w) as [w1 q1]. cbn [fst] in H1.
  pose proof (IH w1 H1) as H2.
  by destruct (runQueue clk q w1) as [w2 q2].
Qed.

Lemma quiet_drain clk q w : quiet w → quiet (drain clk q w).
Proof.
  intros H. unfold drain.
  pose proof (quiet_runQueue clk q w H) as H1.
  destruct (runQueue clk q w) as [w1 q1]. cbn [fst] in H1.
  by apply quiet_runQueue.
Qed.

Lemma quiet_spawn clk isConnected c accountIds w :
  quiet w → quiet (spawnWorkers clk isConnected c accountIds w).1.
Proof.
  revert w. induction accountIds as [| x l IH]; intros w H; [done |].
  cbn [spawnWorkers].
  pose proof (quiet_scheduleNext w clk isConnected c x H) as H1.
  destruct (scheduleNextMessageForAccount clk isConnected c x w) as [w1 q1].
  cbn [fst] in H1. pose proof (IH w1 H1) as H2.
  by destruct (spawnWorkers clk isConnected c l w1) as [w2 q2].
Qed.

Lemma quiet_start clk isConnected c w :
  c ≠ campaignId → quiet w → quiet (startCampaign clk isConnected c w).
Proof.
  intros Hne H. unfold startCampaign.
  case_bool_decide as Hreg; [done |].
  destruct (getCampaign _ _); [| done]. cbn zeta.
  destruct (participatingAccounts _ _) as [| x l]; [by apply quiet_db |].
  set (w1 := with_db _ w).
  set (w2 := with_activeCampaigns _ _).
  assert (H2 : quiet w2).
  { destruct H as [H Hi]. split; [| done]. unfold halted, stateAt in *. subst w2 w1.
    cbn [activeCampaigns states fresh with_activeCampaigns with_states with_fresh with_db].
    rewrite lookup_insert_ne by done.
    destruct (activeCampaigns w !! campaignId) as [r |]; [| done].
    destruct H as [H1 H2]. rewrite lookup_insert_ne by lia. split; [done | lia]. }
  pose proof (quiet_spawn clk isConnected c (x :: l) w2 H2) as H3.
  destruct (spawnWorkers clk isConnected c (x :: l) w2) as [w3 q]. cbn [fst] in H3.
  by apply quiet_drain.
Qed.

Lemma quiet_settle toLowerCase clk f res w :
  quiet w → quiet (settleSend toLowerCase clk f res w).1.
Proof.
  intros H. unfold settleSend. cbn [fst].
  destruct res as [| message].
  - apply (quiet_frame
             (with_states
                (alter (λ s, setCounters (<[cy_account (if_cycle f) :=
                                              sentToday s (cy_account (if_cycle f)) + 1]>
                                            (messagesSentToday s)) (lastResetDate s) s)
                       (if_state f)) w)); try done.
    by apply quiet_alter.
  - destruct (isPermanentFailure _); by apply (quiet_frame w).
Qed.

Lemma quiet_dailyReset clk w : quiet w → quiet (dailyReset clk w).
Proof.
  intros H. unfold dailyReset.
  induction ((map_to_list (activeCampaigns w)).*2) as [| r' l IH].
  - by apply (quiet_frame w).
  - cbn [foldr].
    change (with_states (λ h, alter (setCounters ∅ (dateKey clk)) r'
                                (foldr (λ r0 h0, alter (setCounters ∅ (dateKey clk)) r0 h0) h l)) w)
      with (with_states (alter (setCounters ∅ (dateKey clk)) r')
              (with_states (λ h, foldr (λ r0 h0, alter (setCounters ∅ (dateKey clk)) r0 h0) h l) w)).
    by apply quiet_alter.
Qed.

Lemma quiet_step toLowerCase t w :
  tk_event t ≠ StartCampaign campaignId →
  quiet w → quiet (step toLowerCase t w).
Proof.
  intros Hstart H. unfold step.
  destruct (tk_event t) as [c | c | c | c | i | n res |].
  - apply quiet_start; [congruence | done].
  - by apply quiet_pause.
  - by apply quiet_stop.
  - unfold resetCampaign. by apply quiet_db, quiet_db, quiet_stop.
  - destruct (List.find _ _) as [tm |]; [| done].
    set (w0 := with_timers _ w).
    assert (H0 : quiet w0) by (by apply (quiet_frame w)).
    pose proof (quiet_scheduleNext w0 (tk_clock t) (tk_connected t)
                  (timer_campaign tm) (timer_account tm) H0) as H1.
    destruct (scheduleNextMessageForAccount _ _ _ _ w0) as [w1 q]. cbn [fst] in H1.
    by apply quiet_drain.
  - destruct (inflight w !! n) as [f |] eqn:Hn; [| done].
    set (w0 := with_inflight _ w).
    assert (H0 : quiet w0).
    { destruct H as [H Hi]. split; [done |]. intros f' Hf'. apply Hi.
      subst w0. cbn [inflight with_inflight] in Hf'.
      by apply list_elem_of_delete_inv in Hf'. }
    pose proof (quiet_settle toLowerCase (tk_clock t) f res w0 H0) as H1.
    destruct (settleSend _ _ _ _ w0) as [w1 q]. cbn [fst] in H1.
    by apply quiet_drain.
  - by apply quiet_dailyReset.
Qed.

Lemma quiet_run toLowerCase ts w :
  Forall (λ t, tk_event t ≠ StartCampaign campaignId) ts →
  quiet w → quiet (run toLowerCase ts w).
Proof.
  revert w. induction ts as [| t ts IH]; intros w Hts H; [done |].
  apply Forall_cons in Hts as [Ht Hts]. cbn [run fold_left].
  apply IH; [done |]. by apply quiet_step.
Qed.

End Halted.

Lemma halted_after_stop clk campaignId w : halted campaignId (stopCampaign clk campaignId w).
Proof. unfold halted. by rewrite stopCampaign_unregisters. Qed.

Lemma halted_after_pause campaignId w :
  (∀ r, activeCampaigns w !! campaignId = Some r → (r < fresh w)%nat) →
  halted campaignId (pauseCampaign campaignId w).
Proof.
  intros Hlt. unfold halted. rewrite pauseCampaign_registry.
  destruct (activeCampaigns w !! campaignId) as [r |] eqn:Hr; [| done].
  unfold pauseCampaign, activeState, stateAt. rewrite Hr. simpl.
  rewrite lookup_alter_eq. split; [by destruct (states w !! r) | by apply Hlt].
Qed.

(** X3. A campaign that is not registered (never started, stopped, completed
    or reset) or whose state object is not running (paused) claims no contact:
    whatever happens afterwards short of a start of this campaign (its
    leftover timers firing, sends settling, other campaigns working,
    midnight), every send of the campaign that is in flight was in flight
    already, and the campaign stays halted. [stopCampaign] and
    [pauseCampaign] leave the campaign halted ([halted_after_stop],
    [halted_after_pause]). *)
Theorem halted_campaign_claims_nothing (toLowerCase : string → string) campaignId ts w :
  halted campaignId w →
  Forall (λ t, tk_event t ≠ StartCampaign campaignId) ts →
  let w' := run toLowerCase ts w in
  halted campaignId w' ∧
  ∀ f, f ∈ inflight w' → cy_campaign (if_cycle f) = campaignId → f ∈ inflight w.
Proof.
  intros H Hts w'.
  assert (noNewSends campaignId (inflight w) w) as Hq by (by split).
  exact (quiet_run campaignId (inflight w) toLowerCase ts w Hts Hq).
Qed.

Lemma halted_campaign_claims_nothing_witness :
  let w' := run asciiLowerCase
              [ at_ morning (SendSettles 0 (Threw (Some "timeout")));
                at_ morning (TimerFires 1) ]
              (pauseCampaign "c1" worldSendingX) in
  cc_status <$> campaign_contacts (db w') = [pending] ∧
  halted "c1" w' ∧
  ∀ f, f ∈ inflight w' → cy_campaign (if_cycle f) = "c1" → f ∈ [sendingX].
Proof.
  cbv zeta. split; [reflexivity |].
  apply (halted_campaign_claims_nothing asciiLowerCase "c1"
           [ at_ morning (SendSettles 0 (Threw (Some "timeout")));
             at_ morning (TimerFires 1) ]
           (pauseCampaign "c1" worldSendingX)).
  - apply halted_after_pause. intros r Hr. vm_compute in Hr.
    injection Hr as <-. vm_compute. lia.
  - repeat constructor; discriminate.
Defined.

(** ** Completion *)

Lemma countStuckSending_0 campaignId d row :
  countStuckSending campaignId d = 0%nat →
  row ∈ campaign_contacts d → cc_campaign_id row = campaignId → cc_status row ≠ sending.
Proof.
  unfold countStuckSending. intros H Hin Hc Hs.
  assert (row ∈ filter (λ r, inCampaignWith campaignId sending r = true) (campaign_contacts d))
    as Hf.
  { apply list_elem_of_filter. split; [| done].
    unfold inCampaignWith. by rewrite !bool_decide_eq_true_2. }
  destruct (filter _ _); [by apply elem_of_nil in Hf | done].
Qed.

Lemma countBlacklistedPending_0 campaignId d row :
  countBlacklistedPending campaignId d = 0%nat →
  row ∈ campaign_contacts d → cc_campaign_id row = campaignId → cc_status row = pending →
  isBlacklisted d row = false.
Proof.
  unfold countBlacklistedPending. intros H Hin Hc Hs.
  destruct (isBlacklisted d row) eqn:Hb; [| done].
  assert (row ∈ filter (λ r, inCampaignWith campaignId pending r && isBlacklisted d r = true)
                  (campaign_contacts d)) as Hf.
  { apply list_elem_of_filter. split; [| done].
    unfold inCampaignWith. by rewrite !bool_decide_eq_true_2, Hb. }
  destruct (filter _ _); [by apply elem_of_nil in Hf | done].
Qed.

(** When the claim query finds nothing and, after the blacklisted contacts
    are failed, no contact is sending, every contact is sent or failed. *)
Lemma nothing_left campaignId d row :
  nextPendingContact campaignId d = None →
  let d1 := if (0 <? countBlacklistedPending campaignId d)%nat
            then failAllBlacklistedPending campaignId d else d in
  countStuckSending campaignId d1 = 0%nat →
  row ∈ campaign_contacts d1 → cc_campaign_id row = campaignId →
  cc_status row = sent ∨ cc_status row = failed.
Proof.
  intros Hn d1 Hstuck Hin Hc.
  pose proof (countStuckSending_0 _ _ _ Hstuck Hin Hc) as Hs.
  destruct (cc_status row) eqn:Hst; [| done | by left | by right].
  exfalso. subst d1.
  destruct (0 <? countBlacklistedPending campaignId d)%nat eqn:Hb.
  - unfold failAllBlacklistedPending in Hin.
    apply elem_of_updateContacts in Hin as (r0 & Hr0 & ->).
    destruct (inCampaignWith campaignId pending r0 && isBlacklisted d r0) eqn:Hcond;
      [done |].
    pose proof (nextPendingContact_None _ _ _ Hn Hr0 Hc Hst) as Hbl.
    unfold inCampaignWith in Hcond.
    by rewrite !bool_decide_eq_true_2, Hbl in Hcond.
  - apply Nat.ltb_ge in Hb.
    pose proof (nextPendingContact_None _ _ _ Hn Hin Hc Hst) as Hbl.
    rewrite (countBlacklistedPending_0 campaignId d row) in Hbl; [done | lia | done..].
Qed.

Lemma not_completed_by campaignId c f w :
  (∀ x, c_id (f x) = c_id x) → (∀ x, c_status (f x) ≠ completed) →
  statusOf campaignId (with_db (updateCampaign c f) w) = Some completed →
  statusOf campaignId w = Some completed.
Proof.
  intros Hid Hf. unfold statusOf. cbn [db with_db].
  rewrite getCampaign_updateCampaign by done.
  destruct (getCampaign campaignId (db w)) as [x |]; [| done].
  cbn [fmap option_fmap option_map].
  case_bool_decide; [| done]. intros [= E]. by destruct (Hf x).
Qed.

Lemma not_completed_by_stop campaignId clk c w :
  statusOf campaignId (stopCampaign clk c w) = Some completed →
  statusOf campaignId w = Some completed.
Proof.
  intros H.
  assert (statusOf campaignId (with_db (updateCampaign c (markStopped (nowISO clk))) w)
          = Some completed) as H'.
  { unfold statusOf in *. cbn [db with_db]. by rewrite <- stopCampaign_db. }
  by apply not_completed_by in H'.
Qed.

Lemma statusOf_frame campaignId w w' :
  campaigns (db w') = campaigns (db w) → statusOf campaignId w' = statusOf campaignId w.
Proof. intros E. unfold statusOf, getCampaign. by rewrite E. Qed.

(** A cycle never writes completed itself; when it queues the completion, the
    campaign has nothing unsent and is out of the registry. *)
Lemma sendNext_completion campaignId clk isConnected cy w :
  let '(w1, q) := sendNextMessageFromAccount clk isConnected cy w in
  (statusOf campaignId w1 = Some completed → statusOf campaignId w = Some completed) ∧
  stopsFinished (cy_campaign cy) q w1.
Proof.
  unfold sendNextMessageFromAccount, stopsFinished.
  assert (∀ ok cy', (cy', AfterStop) ∈ [(cy, AfterSendNext ok)] → False) as Hret.
  { intros ok cy' H. by apply list_elem_of_singleton in H. }
  destruct (getCampaign _ _) as [campaign |];
    [| split; [done | intros cy' H; by destruct (Hret _ _ H)]].
  destruct (activeState _ _) as [[r state] |];
    [| split; [done | intros cy' H; by destruct (Hret _ _ H)]].
  cbn zeta.
  destruct (_ <=? _); [split; [done | intros cy' H; by destruct (Hret _ _ H)] |].
  destruct (negb _); [split; [done | intros cy' H; by destruct (Hret _ _ H)] |].
  destruct (nextPendingContact _ _) as [c |] eqn:Hn;
    [split; [done | intros cy' H; by apply elem_of_nil in H] |].
  set (d1 := if (0 <? countBlacklistedPending (cy_campaign cy) (db w))%nat
             then failAllBlacklistedPending (cy_campaign cy) (db w) else db w).
  set (w1 := if (0 <? _)%nat then _ else w).
  assert (Hd1 : db w1 = d1) by (subst w1 d1; by destruct (0 <? _)%nat).
  assert (Hc1 : campaigns (db w1) = campaigns (db w)) by (subst w1; by destruct (0 <? _)%nat).
  clearbody w1.
  destruct (0 <? countStuckSending _ _)%nat eqn:Hstuck;
    [split; [by rewrite (statusOf_frame _ w) | intros cy' H; by destruct (Hret _ _ H)] |].
  set (w2 := match accountTimeouts state !! _ with Some _ => _ | None => w1 end).
  assert (Hd2 : db w2 = db w1) by (subst w2; by destruct (accountTimeouts state !! _)).
  clearbody w2.
  destruct (bool_decide _).
  - split.
    + intros H. apply not_completed_by_stop in H.
      rewrite <- H. symmetry. apply statusOf_frame. by rewrite Hd2.
    + intros cy' H. apply list_elem_of_singleton in H as [= ->].
      split; [done |]. split; [| apply stopCampaign_unregisters].
      intros row Hrow Hc. rewrite stopCampaign_db in Hrow.
      cbn [campaign_contacts updateCampaign with_campaigns] in Hrow.
      rewrite Hd2, Hd1 in Hrow. apply Nat.ltb_ge in Hstuck. rewrite Hd1 in Hstuck.
      pose proof (nothing_left (cy_campaign cy) (db w) row Hn) as Hnl.
      cbv zeta in Hnl. fold d1 in Hnl. apply Hnl; [lia | done | done].
  - split; [intros H; rewrite <- H; symmetry; apply statusOf_frame; by rewrite Hd2 |].
    intros cy' H; by destruct (Hret _ _ H).
Qed.

Lemma scheduleNext_completion campaignId clk isConnected c x w :
  let '(w1, q) := scheduleNextMessageForAccount clk isConnected c x w in
  (statusOf campaignId w1 = Some completed → statusOf campaignId w = Some completed) ∧
  stopsFinished c q w1.
Proof.
  unfold scheduleNextMessageForAccount.
  assert (∀ w0, stopsFinished c [] w0) as Hnil
    by (intros w0 cy H; by apply elem_of_nil in H).
  destruct (activeState c w) as [[r state] |] eqn:Hs; [| done].
  destruct (negb _); [done |].
  destruct (getCampaign _ _) as [campaign |]; [| done].
  destruct (outsideWorkingHours _ _ _); [done |].
  pose proof (sendNext_completion campaignId clk isConnected (mkCycle c x r campaign)
                (resetDailyCountersIfNeeded clk c w)) as H.
  destruct (sendNextMessageFromAccount _ _ _ _) as [w1 q].
  destruct H as [H1 H2]. split; [| done].
  intros H. apply H1 in H. rewrite <- H. symmetry. apply statusOf_frame.
  unfold resetDailyCountersIfNeeded. rewrite Hs. by destruct (bool_decide _).
Qed.

Lemma spawnWorkers_unregistered clk isConnected c l w :
  activeCampaigns w !! c = None → spawnWorkers clk isConnected c l w = (w, []).
Proof.
  intros H. induction l as [| x l IH]; [done |].
  cbn [spawnWorkers]. unfold scheduleNextMessageForAccount, activeState at 1.
  rewrite H. cbn [fmap option_fmap option_map]. by rewrite IH.
Qed.

Lemma spawn_completion campaignId clk isConnected c l w :
  let '(w1, q) := spawnWorkers clk isConnected c l w in
  (statusOf campaignId w1 = Some completed → statusOf campaignId w = Some completed) ∧
  stopsFinished c q w1.
Proof.
  revert w. induction l as [| x l IH]; intros w.
  { split; [done |]. intros cy H. by apply elem_of_nil in H. }
  cbn [spawnWorkers].
  pose proof (scheduleNext_completion campaignId clk isConnected c x w) as H1.
  destruct (scheduleNextMessageForAccount clk isConnected c x w) as [w1 q1].
  destruct H1 as [Ha Hb].
  pose proof (IH w1) as H2.
  destruct (spawnWorkers clk isConnected c l w1) as [w2 q2] eqn:Hsp.
  destruct H2 as [Hc Hd]. split; [by intros H; apply Ha, Hc |].
  intros cy H. apply elem_of_app in H as [H | H]; [| by apply Hd].
  destruct (Hb cy H) as [Hcy Hfin]. split; [done |].
  rewrite spawnWorkers_unregistered in Hsp by apply Hfin.
  by injection Hsp as <- <-.
Qed.

Lemma microtask_frame clk m w :
  campaign_contacts (db (runMicrotask clk m w).1) = campaign_contacts (db w) ∧
  activeCampaigns (runMicrotask clk m w).1 = activeCampaigns w ∧
  (∀ cy, (cy, AfterStop) ∉ (runMicrotask clk m w).2).
Proof.
  destruct m as [cy [| ok]]; cbn [runMicrotask fst snd].
  - repeat split. intros cy' H. by apply list_elem_of_singleton in H.
  - repeat split. intros cy' H. by apply elem_of_nil in H.
Qed.

Lemma runQueue_frame clk q w :
  campaign_contacts (db (runQueue clk q w).1) = campaign_contacts (db w) ∧
  activeCampaigns (runQueue clk q w).1 = activeCampaigns w ∧
  (∀ cy, (cy, AfterStop) ∉ (runQueue clk q w).2).
Proof.
  revert w. induction q as [| m q IH]; intros w.
  { repeat split. intros cy H. by apply elem_of_nil in H. }
  cbn [runQueue].
  pose proof (microtask_frame clk m w) as (H1 & H2 & H3).
  destruct (runMicrotask clk m w) as [w1 q1]. cbn [fst snd] in *.
  pose proof (IH w1) as (K1 & K2 & K3).
  destruct (runQueue clk q w1) as [w2 q2]. cbn [fst snd] in *.
  repeat split; [congruence | congruence |].
  intros cy H. apply elem_of_app in H as [H | H]; [by apply (H3 cy) | by apply (K3 cy)].
Qed.

Lemma runQueue_completion campaignId clk q w :
  statusOf campaignId (runQueue clk q w).1 = Some completed →
  statusOf campaignId w = Some completed ∨
  ∃ cy, (cy, AfterStop) ∈ q ∧ cy_campaign cy = campaignId.
Proof.
  revert w. induction q as [| m q IH]; intros w; [by left |].
  cbn [runQueue].
  destruct (runMicrotask clk m w) as [w1 q1] eqn:Hm.
  pose proof (IH w1) as H.
  destruct (runQueue clk q w1) as [w2 q2]. cbn [fst] in *.
  intros Hdone. destruct (H Hdone) as [H1 | (cy & Hcy & Hc)].
  2:{ right. exists cy. split; [by apply elem_of_cons; right | done]. }
  destruct m as [cy [| ok]]; cbn [runMicrotask] in Hm; injection Hm as <- <-.
  - destruct (decide (cy_campaign cy = campaignId)) as [E | Hne].
    + right. exists cy. split; [apply elem_of_cons; by left | done].
    + left. unfold completeCampaign in H1.
      rewrite <- (statusOf_update_other campaignId (cy_campaign cy)
                    (markCompleted (nowISO clk)) w) by done.
      rewrite <- H1. by apply statusOf_frame.
  - left. rewrite <- H1. by apply statusOf_frame.
Qed.

Lemma drain_completion campaignId clk q w :
  (∀ cy, (cy, AfterStop) ∈ q → cy_campaign cy = campaignId → finished campaignId w) →
  statusOf campaignId (drain clk q w) = Some completed →
  statusOf campaignId w = Some completed ∨ finished campaignId (drain clk q w).
Proof.
  intros Hq. unfold drain.
  pose proof (runQueue_frame clk q w) as (H1 & H2 & H3).
  pose proof (runQueue_completion campaignId clk q w) as H4.
  destruct (runQueue clk q w) as [w1 q1]. cbn [fst snd] in *.
  pose proof (runQueue_frame clk q1 w1) as (K1 & K2 & _).
  intros Hdone. apply runQueue_completion in Hdone as [Hdone | (cy & Hcy & _)];
    [| by destruct (H3 cy)].
  destruct (H4 Hdone) as [? | (cy & Hcy & Hc)]; [by left |].
  right. destruct (Hq cy Hcy Hc) as [Hn Hr]. split.
  - intros row. rewrite K1, H1. apply Hn.
  - by rewrite K2, H2.
Qed.

(** X4. Completed means nothing unsent: when a macrotask leaves a campaign
    completed that was not, every contact of the campaign is sent or failed
    (none pending, none sending), and the campaign is out of the registry. *)
Theorem completed_means_nothing_unsent (toLowerCase : string → string) t w campaignId :
  statusOf campaignId w ≠ Some completed →
  statusOf campaignId (step toLowerCase t w) = Some completed →
  nothingUnsent campaignId (step toLowerCase t w) ∧
  activeCampaigns (step toLowerCase t w) !! campaignId = None.
Proof.
  intros Hbefore. unfold step.
  destruct (tk_event t) as [c | c | c | c | i | n res |].
  - unfold startCampaign.
    destruct (bool_decide _); [done |].
    destruct (getCampaign _ _); [| done]. cbn zeta.
    set (w1 := with_db _ w).
    assert (H1 : statusOf campaignId w1 ≠ Some completed).
    { intros H. by apply not_completed_by in H. }
    destruct (participatingAccounts _ _) as [| x l]; [done |].
    set (w2 := with_activeCampaigns _ _).
    pose proof (spawn_completion campaignId (tk_clock t) (tk_connected t) c (x :: l) w2)
      as Hsp.
    destruct (spawnWorkers _ _ c (x :: l) w2) as [w3 q]. destruct Hsp as [Ha Hb].
    intros Hdone.
    apply drain_completion in Hdone as [Hdone | Hfin]; [by apply Ha in Hdone | done |].
    intros cy Hcy Hc. destruct (Hb cy Hcy) as [E Hfin]. by rewrite <- E, Hc in Hfin.
  - intros H. rewrite (statusOf_frame _ (with_db (updateCampaign c markPaused) w)) in H
      by (by rewrite pauseCampaign_db).
    by apply not_completed_by in H.
  - intros H. by apply not_completed_by_stop in H.
  - unfold resetCampaign. intros H. apply not_completed_by in H; [| done..].
    rewrite (statusOf_frame _ (stopCampaign (tk_clock t) c w)) in H by done.
    by apply not_completed_by_stop in H.
  - destruct (List.find _ _) as [tm |]; [| done].
    set (w0 := with_timers _ w).
    pose proof (scheduleNext_completion campaignId (tk_clock t) (tk_connected t)
                  (timer_campaign tm) (timer_account tm) w0) as Hsn.
    destruct (scheduleNextMessageForAccount _ _ _ _ w0) as [w1 q]. destruct Hsn as [Ha Hb].
    intros Hdone.
    apply drain_completion in Hdone as [Hdone | Hfin]; [by apply Ha in Hdone | done |].
    intros cy Hcy Hc. destruct (Hb cy Hcy) as [E Hfin]. by rewrite <- E, Hc in Hfin.
  - destruct (inflight w !! n) as [f |]; [| done].
    set (w0 := with_inflight _ w).
    assert (∀ w1 q, settleSend toLowerCase (tk_clock t) f res w0 = (w1, q) →
                    campaigns (db w1) = campaigns (db w0) ∧ q = [(if_cycle f, AfterSendNext true)])
      as Hs.
    { intros w1 q. unfold settleSend. intros [= <- <-]. split; [| done].
      destruct res as [| message]; [done |]. by destruct (isPermanentFailure _). }
    destruct (settleSend _ _ _ _ w0) as [w1 q]. destruct (Hs w1 q eq_refl) as [Hc ->].
    rewrite drain_returned. intros Hdone.
    assert (campaigns (db (scheduleAgain (if_cycle f) true w1)) = campaigns (db w)) as E
      by (change (campaigns (db w1) = campaigns (db w)); by rewrite Hc).
    rewrite (statusOf_frame _ w) in Hdone by exact E. done.
  - intros H. by rewrite (statusOf_frame _ w) in H.
Qed.

Lemma completed_means_nothing_unsent_witness :
  let w' := step asciiLowerCase (at_ morning (TimerFires 1)) lastContactSent in
  statusOf "c1" w' = Some completed ∧
  nothingUnsent "c1" w' ∧ activeCampaigns w' !! "c1" = None.
Proof.
  cbv zeta.
  assert (statusOf "c1" lastContactSent ≠ Some completed) as H0 by (by vm_compute).
  assert (statusOf "c1" (step asciiLowerCase (at_ morning (TimerFires 1)) lastContactSent)
          = Some completed) as H1 by (by vm_compute).
  split; [exact H1 |].
  exact (completed_means_nothing_unsent asciiLowerCase _ _ "c1" H0 H1).
Defined.

Lemma countStuckSending_failAll campaignId d :
  countStuckSending campaignId (failAllBlacklistedPending campaignId d) =
  countStuckSending campaignId d.
Proof.
  unfold countStuckSending, failAllBlacklistedPending, updateContacts. simpl.
  induction (campaign_contacts d) as [| r l IH]; [done |].
  cbn [fmap list_fmap].
  assert (inCampaignWith campaignId sending
            (if inCampaignWith campaignId pending r && isBlacklisted d r
             then setContactFields failed (cc_sent_by_account_id r) (cc_sent_at r)
                    (Some "Contact in BlackList") r
             else r) = inCampaignWith campaignId sending r) as E.
  { destruct (inCampaignWith campaignId pending r && isBlacklisted d r) eqn:Hc; [| done].
    apply andb_prop in Hc as [Hc _]. unfold inCampaignWith in *.
    apply andb_prop in Hc as [_ Hs]. apply bool_decide_eq_true in Hs.
    cbn [cc_status cc_campaign_id setContactFields]. rewrite Hs.
    rewrite (bool_decide_eq_false_2 (failed = sending)) by done.
    rewrite (bool_decide_eq_false_2 (pending = sending)) by done.
    by rewrite !andb_false_r. }
  destruct (inCampaignWith campaignId sending r) eqn:Hs.
  - rewrite !filter_cons_True by (by rewrite ?E). cbn. by rewrite IH.
  - rewrite !filter_cons_False by (rewrite ?E; congruence). done.
Qed.

Lemma stopCampaign_frame clk campaignId w :
  fresh (stopCampaign clk campaignId w) = fresh w ∧
  notifications (stopCampaign clk campaignId w) = notifications w ∧
  inflight (stopCampaign clk campaignId w) = inflight w ∧
  transportCalls (stopCampaign clk campaignId w) = transportCalls w.
Proof. unfold stopCampaign. by destruct (activeState campaignId w) as [[r s] |]. Qed.

(** X5. The cycle that completes a campaign: under the daily limit and
    connected, with no contact left to claim, none sending, and no other
    account holding an entry in [accountTimeouts], the cycle and its
    continuations leave the campaign completed with completed_at set to now,
    out of the registry, with the renderer notified; no contact was claimed
    and no transport call made. The wrapper still arms the account's next
    wake for the finished campaign. *)
Theorem last_worker_completes clk isConnected cy w r state campaign :
  getCampaign (cy_campaign cy) (db w) = Some campaign →
  activeState (cy_campaign cy) w = Some (r, state) →
  sentToday state (cy_account cy) < c_max_messages_per_day campaign →
  isConnected (cy_account cy) = true →
  nextPendingContact (cy_campaign cy) (db w) = None →
  countStuckSending (cy_campaign cy) (db w) = 0%nat →
  (∀ a', a' ≠ cy_account cy → accountTimeouts state !! a' = None) →
  let w' := drain clk (sendNextMessageFromAccount clk isConnected cy w).2
                      (sendNextMessageFromAccount clk isConnected cy w).1 in
  getCampaign (cy_campaign cy) (db w') =
    Some (setCampaignFields completed (c_started_at campaign) (Some (nowISO clk)) campaign) ∧
  activeCampaigns w' !! cy_campaign cy = None ∧
  notifications w' = (notifications w ++ [CampaignCompleted (cy_campaign cy)])%list ∧
  inflight w' = inflight w ∧ transportCalls w' = transportCalls w ∧
  mkTimer (fresh w) (cy_campaign cy) (cy_account cy)
    (RandomSeconds (c_min_delay (cy_row cy)) (c_max_delay (cy_row cy))) ∈ timers w'.
Proof.
  intros Hc Hs Hlim Hconn Hn Hstuck Hothers w'. subst w'.
  unfold sendNextMessageFromAccount. rewrite Hc, Hs. cbn zeta.
  destruct (Z.leb_spec (c_max_messages_per_day campaign)
              (sentToday state (cy_account cy))) as [Hle | _]; [lia |].
  rewrite Hconn, Hn. cbn [negb].
  set (w1 := if (0 <? _)%nat then _ else w).
  assert (Hst1 : countStuckSending (cy_campaign cy) (db w1) = 0%nat).
  { subst w1. destruct (0 <? _)%nat; [| done]. cbn [db with_db].
    by rewrite countStuckSending_failAll. }
  assert (F1 : campaigns (db w1) = campaigns (db w) ∧ states w1 = states w ∧
               fresh w1 = fresh w ∧ notifications w1 = notifications w ∧
               inflight w1 = inflight w ∧ transportCalls w1 = transportCalls w).
  { subst w1. by destruct (0 <? _)%nat. }
  clearbody w1. destruct F1 as (Fc & Fs & Ff & Fn & Fi & Ft).
  rewrite Hst1. cbn [Nat.ltb Nat.leb].
  assert (state = stateAt r w) as Hstate.
  { unfold activeState in Hs. destruct (activeCampaigns w !! _); [| done].
    by injection Hs as <- <-. }
  set (w2 := match accountTimeouts state !! _ with Some _ => _ | None => w1 end).
  assert (F2 : campaigns (db w2) = campaigns (db w) ∧
               fresh w2 = fresh w ∧ notifications w2 = notifications w ∧
               inflight w2 = inflight w ∧ transportCalls w2 = transportCalls w ∧
               accountTimeouts (stateAt r w2) = ∅).
  { assert (delete (cy_account cy) (accountTimeouts state) = ∅) as Hdel.
    { apply map_eq. intros a'. rewrite lookup_empty.
      destruct (decide (a' = cy_account cy)) as [-> | Hne];
        [apply lookup_delete_eq | rewrite lookup_delete_ne by done; by apply Hothers]. }
    subst w2. destruct (accountTimeouts state !! cy_account cy) as [t |] eqn:Ha.
    - repeat split; try done.
      unfold stateAt. cbn [states with_states clearTimeouts with_timers].
      rewrite lookup_alter_eq, Fs. unfold stateAt in Hstate.
      destruct (states w !! r) as [s |]; cbn in *; [by subst s | done].
    - repeat split; try done.
      assert (stateAt r w1 = state) as -> by (unfold stateAt; by rewrite Fs, Hstate).
      apply map_eq. intros a'. rewrite lookup_empty.
      destruct (decide (a' = cy_account cy)) as [-> | Hne]; [done | by apply Hothers]. }
  clearbody w2. destruct F2 as (Gc & Gf & Gn & Gi & Gt & Gempty).
  rewrite bool_decide_eq_true_2 by done. cbn [fst snd].
  change (drain clk [(cy, AfterStop)] ?x)
    with (scheduleAgain cy true (completeCampaign clk cy x)).
  destruct (stopCampaign_frame clk (cy_campaign cy) w2) as (Sf & Sn & Si & St).
  repeat split.
  - unfold scheduleAgain, armTimer, completeCampaign.
    cbn [db with_states with_fresh with_timers notifyRenderer with_db].
    unfold logActivity, getCampaign at 1. cbn [campaigns with_activities].
    fold (getCampaign (cy_campaign cy)
            (updateCampaign (cy_campaign cy) (markCompleted (nowISO clk))
               (db (stopCampaign clk (cy_campaign cy) w2)))).
    rewrite status_after_update by done. rewrite stopCampaign_db.
    rewrite status_after_update by done.
    assert (getCampaign (cy_campaign cy) (db w2) = Some campaign) as ->
      by (unfold getCampaign; by rewrite Gc).
    done.
  - unfold scheduleAgain, armTimer, completeCampaign.
    cbn [activeCampaigns with_states with_fresh with_timers notifyRenderer with_db].
    apply stopCampaign_unregisters.
  - unfold scheduleAgain, armTimer, completeCampaign.
    cbn [notifications with_states with_fresh with_timers notifyRenderer with_db].
    by rewrite Sn, Gn.
  - unfold scheduleAgain, armTimer, completeCampaign.
    cbn [inflight with_states with_fresh with_timers notifyRenderer with_db].
    by rewrite Si, Gi.
  - unfold scheduleAgain, armTimer, completeCampaign.
    cbn [transportCalls with_states with_fresh with_timers notifyRenderer with_db].
    by rewrite St, Gt.
  - unfold scheduleAgain, armTimer.
    cbn [timers with_states with_fresh with_timers].
    apply elem_of_app. right. apply list_elem_of_singleton.
    unfold completeCampaign. cbn [fresh notifyRenderer with_db]. by rewrite Sf, Gf.
Qed.

Lemma last_worker_completes_witness :
  let w := runningOver [sampleRow "x" "111" sent; sampleRow "y" "222" pending] in
  let w' := drain morning (sendNextMessageFromAccount morning allConnected cycleOfA w).2
                          (sendNextMessageFromAccount morning allConnected cycleOfA w).1 in
  getCampaign "c1" (db w') =
    Some (setCampaignFields completed None (Some "2024-05-01T07:00:00.000Z")
            (sampleCampaign running 5)) ∧
  activeCampaigns w' !! "c1" = None ∧
  notifications w' = [CampaignCompleted "c1"] ∧
  inflight w' = [] ∧ transportCalls w' = [] ∧
  mkTimer 1 "c1" "A" (RandomSeconds 30 60) ∈ timers w'.
Proof.
  cbv zeta.
  apply (last_worker_completes morning allConnected cycleOfA
           (runningOver [sampleRow "x" "111" sent; sampleRow "y" "222" pending])
           0%nat (mkCampaignState true ∅ ∅ "2024-05-01") (sampleCampaign running 5)).
  - by vm_compute.
  - by vm_compute.
  - by vm_compute.
  - done.
  - by vm_compute.
  - by vm_compute.
  - intros a' _. apply lookup_empty.
Defined.

(** ** The midnight reset *)

Lemma foldr_alter_lookup {A} (f : A → A) (l : list nat) (h : gmap nat A) r :
  (∀ x, f (f x) = f x) →
  foldr (λ r h, alter f r h) h l !! r = if decide (r ∈ l) then f <$> h !! r else h !! r.
Proof.
  intros Hf. induction l as [| r' l IH]; [done |].
  cbn [foldr]. destruct (decide (r' = r)) as [-> | Hne].
  - rewrite lookup_alter_eq, IH.
    rewrite (decide_True (P := r ∈ r :: l)) by (apply elem_of_cons; by left).
    destruct (decide (r ∈ l)); [| done].
    destruct (h !! r); [| done]. cbn. by rewrite Hf.
  - rewrite lookup_alter_ne by done. rewrite IH.
    destruct (decide (r ∈ l)) as [Hin | Hnin].
    + by rewrite (decide_True (P := r ∈ r' :: l)) by (apply elem_of_cons; by right).
    + rewrite (decide_False (P := r ∈ r' :: l)); [done |].
      rewrite not_elem_of_cons. by split.
Qed.

Lemma registered_refs (m : gmap string nat) r :
  r ∈ (map_to_list m).*2 ↔ ∃ c, m !! c = Some r.
Proof.
  rewrite list_elem_of_fmap. split.
  - intros ([c r'] & -> & H). exists c. by apply elem_of_map_to_list.
  - intros [c H]. exists (c, r). split; [done |]. by apply elem_of_map_to_list.
Qed.

(** X6. The midnight reset clears the counters of every registered campaign
    and stamps the date, whatever the date of the last reset was; it leaves
    their timers and running flag, the state objects that are no longer in
    the registry (those a send in flight still holds), the database and the
    armed timers alone. The per-cycle reset that follows on the same date
    changes nothing. *)
Theorem midnight_clears_registered_counters clk w :
  let w' := dailyReset clk w in
  (∀ c r s, activeCampaigns w !! c = Some r → states w !! r = Some s →
     states w' !! r = Some (mkCampaignState (isRunning s) (accountTimeouts s) ∅ (dateKey clk)) ∧
     (∀ a, sentToday (stateAt r w') a = 0) ∧
     resetDailyCountersIfNeeded clk c w' = w') ∧
  (∀ r, (∀ c, activeCampaigns w !! c ≠ Some r) → states w' !! r = states w !! r) ∧
  db w' = db w ∧ timers w' = timers w ∧ activeCampaigns w' = activeCampaigns w ∧
  inflight w' = inflight w.
Proof.
  intros w'. subst w'. unfold dailyReset.
  assert (∀ x, setCounters ∅ (dateKey clk) (setCounters ∅ (dateKey clk) x)
               = setCounters ∅ (dateKey clk) x) as Hidem by done.
  split; [| split; [| done]].
  - intros c r s Hc Hs.
    assert (states (with_states
              (λ h, foldr (λ r0 h0, alter (setCounters ∅ (dateKey clk)) r0 h0) h
                      (map_to_list (activeCampaigns w)).*2) w) !! r
            = Some (mkCampaignState (isRunning s) (accountTimeouts s) ∅ (dateKey clk))) as E.
    { cbn [states with_states]. rewrite foldr_alter_lookup by done.
      rewrite decide_True by (apply registered_refs; by exists c).
      by rewrite Hs. }
    split; [done |]. split.
    + intros a. unfold stateAt, sentToday. rewrite E. cbn. by rewrite lookup_empty.
    + unfold resetDailyCountersIfNeeded, activeState, stateAt.
      cbn [activeCampaigns with_states]. rewrite Hc. cbn [fmap option_fmap option_map].
      rewrite E. cbn. by rewrite bool_decide_eq_false_2 by (intros H; by apply H).
  - intros r Hr. cbn [states with_states]. rewrite foldr_alter_lookup by done.
    rewrite decide_False; [done |]. rewrite registered_refs. intros [c Hc]. by apply (Hr c).
Qed.

(** ** Contact rows keep their identity *)

Lemma updateContacts_keys cond g w :
  (∀ r, (cc_id (g r), cc_campaign_id (g r), cc_phone_number (g r))
        = (cc_id r, cc_campaign_id r, cc_phone_number r)) →
  contactKeys (with_db (updateContacts cond g) w) = contactKeys w.
Proof.
  intros Hg. unfold contactKeys, updateContacts. cbn [db with_db campaign_contacts
    with_campaign_contacts]. rewrite <- list_fmap_compose.
  apply list_fmap_ext. intros _ r _. simpl. destruct (cond r); [apply Hg | done].
Qed.

Lemma contactKeys_frame w w' :
  campaign_contacts (db w') = campaign_contacts (db w) → contactKeys w' = contactKeys w.
Proof. intros E. unfold contactKeys. by rewrite E. Qed.

Lemma contactKeys_step toLowerCase t w :
  contactKeys (step toLowerCase t w) = contactKeys w.
Proof.
  destruct (tk_event t) as [c | c | c | c | i | n res |] eqn:Hev.
  4:{ unfold step. rewrite Hev. unfold resetCampaign.
      rewrite (contactKeys_frame (with_db (resetCampaignContacts c)
                                    (stopCampaign (tk_clock t) c w))) by done.
      unfold resetCampaignContacts. rewrite updateContacts_keys by done.
      apply contactKeys_frame. by rewrite stopCampaign_db. }
  all: apply (rows_step (λ w', contactKeys w' = contactKeys w) True);
    [ intros w1 w2 Hc _ <-; by apply contactKeys_frame
    | intros c0 w0 <-; unfold failAllBlacklistedPending; by apply updateContacts_keys
    | intros c0 w0 _ <-; unfold releaseStuckSendingContacts; by apply updateContacts_keys
    | intros c0 cy campaign r c1 call w0 _ <-;
      rewrite <- (updateContacts_keys (hasId (cc_id c1)) (setContactStatus sending) w0)
        by done;
      by apply contactKeys_frame
    | intros lc clk f res' w0 n0 _ <-; unfold settleSend; cbn [fst];
      destruct res' as [| message];
      [ rewrite <- (updateContacts_keys (hasId (cc_id (if_contact f)))
                      (λ r, setContactFields sent (Some (cy_account (if_cycle f)))
                              (Some (nowISO clk)) (cc_error r) r) w0) by done;
        by apply contactKeys_frame
      | destruct (isPermanentFailure _);
        [ rewrite <- (updateContacts_keys (hasId (cc_id (if_contact f)))
                        (λ r, setContactFields failed (cc_sent_by_account_id r)
                                (cc_sent_at r) message r) w0) by done;
          by apply contactKeys_frame
        | rewrite <- (updateContacts_keys (hasId (cc_id (if_contact f)))
                        (setContactStatus pending) w0) by done;
          by apply contactKeys_frame ] ]
    | by left
    | intros c0; rewrite Hev; discriminate
    | done ].
Qed.

(** X7. No operation of the scheduler adds or removes a contact row or
    changes a row's id, campaign or phone number: starts, pauses, stops,
    resets, cycles, settled sends and the midnight reset only rewrite the
    status, sender, time and error columns. *)
Theorem contact_rows_keep_identity (toLowerCase : string → string) ts w :
  contactKeys (run toLowerCase ts w) = contactKeys w ∧
  length (campaign_contacts (db (run toLowerCase ts w))) = length (campaign_contacts (db w)).
Proof.
  assert (contactKeys (run toLowerCase ts w) = contactKeys w) as H.
  { revert w. induction ts as [| t ts IH]; intros w; [done |].
    cbn [run fold_left]. change (fold_left _ ts ?x) with (run toLowerCase ts x).
    by rewrite IH, contactKeys_step. }
  split; [done |].
  apply (f_equal length) in H. unfold contactKeys in H. by rewrite !length_fmap in H.
Qed.

(** ** Claims while every account is connected *)

(** X8. Claim exclusivity where it holds: from a world in which every send in
    flight holds a contact of its own whose rows are sending, any run in
    which every account is connected and no campaign is reset keeps it so: no
    contact has two claimants, and a claimed contact's rows stay sending
    until its send settles. *)
Theorem claims_stay_exclusive (toLowerCase : string → string) ts w :
  claimsHeld w →
  Forall (λ t, (∀ a, tk_connected t a = true) ∧ ∀ c, tk_event t ≠ ResetCampaign c) ts →
  claimsHeld (run toLowerCase ts w) ∧ claimExclusive (run toLowerCase ts w).
Proof.
  intros H Hts.
  assert (claimsHeld (run toLowerCase ts w)) as H'.
  { apply (rows_run claimsHeld False).
    - apply claimsHeld_frame.
    - apply claimsHeld_fail.
    - done.
    - apply claimsHeld_claim.
    - apply claimsHeld_settle.
    - eapply Forall_impl; [exact Hts |]. intros t [Hc He]. split; [by right | done].
    - done. }
  split; [done | by apply claimsHeld_exclusive].
Qed.

Lemma claims_stay_exclusive_witness :
  let w' := run asciiLowerCase
              [ at_ morning (TimerFires 1); at_ morning (SendSettles 0 Delivered) ]
              worldSendingX in
  claimsHeld w' ∧ claimExclusive w'.
Proof.
  cbv zeta. apply claims_stay_exclusive.
  - split; [apply NoDup_singleton |].
    intros f row Hf Hrow _.
    apply list_elem_of_singleton in Hrow. by subst row.
  - repeat constructor; discriminate.
Defined.

(** ** A wake at the daily limit *)

(** X9. A wake that finds the account at its daily limit (inside the working
    hours, counters already reset today) claims no contact, calls the
    transport for none and leaves the database and the counter alone; it arms
    two timers: the one for tomorrow's start hour, and then the wrapper's
    paced one, which replaces the first in [accountTimeouts], so that the
    timer for tomorrow is no longer known to pause or stop. *)
Theorem capped_wake_arms_two_timers clk isConnected campaignId accountId w r campaign :
  activeCampaigns w !! campaignId = Some r →
  is_Some (states w !! r) →
  isRunning (stateAt r w) = true →
  getCampaign campaignId (db w) = Some campaign →
  outsideWorkingHours (currentHour clk) (c_start_hour campaign) (c_end_hour campaign) = false →
  lastResetDate (stateAt r w) = dateKey clk →
  c_max_messages_per_day campaign ≤ sentToday (stateAt r w) accountId →
  let w' := drain clk (scheduleNextMessageForAccount clk isConnected campaignId accountId w).2
                      (scheduleNextMessageForAccount clk isConnected campaignId accountId w).1 in
  db w' = db w ∧ inflight w' = inflight w ∧ transportCalls w' = transportCalls w ∧
  sentToday (stateAt r w') accountId = sentToday (stateAt r w) accountId ∧
  timers w' =
    (timers w ++
       [ mkTimer (fresh w) campaignId accountId (UntilStartHour 1 (c_start_hour campaign));
         mkTimer (S (fresh w)) campaignId accountId
           (RandomSeconds (c_min_delay campaign) (c_max_delay campaign)) ])%list ∧
  accountTimeouts (stateAt r w') !! accountId = Some (S (fresh w)).
Proof.
  intros Hr [s Hs] Hrun Hc Hhours Hday Hcap w'. subst w'.
  unfold scheduleNextMessageForAccount, activeState. rewrite Hr.
  cbn [fmap option_fmap option_map]. rewrite Hrun, Hc, Hhours. cbn [negb].
  assert (resetDailyCountersIfNeeded clk campaignId w = w) as ->.
  { unfold resetDailyCountersIfNeeded, activeState. rewrite Hr.
    cbn [fmap option_fmap option_map].
    by rewrite bool_decide_eq_false_2 by (intros H; by apply H). }
  rewrite (capped_cycle clk isConnected (mkCycle campaignId accountId r campaign) w
             campaign r (stateAt r w));
    [| done | cbn [cy_campaign]; unfold activeState; by rewrite Hr | done].
  cbn [fst snd]. rewrite drain_returned.
  unfold scheduleAgain, armTimer, stateAt in *.
  cbn [db inflight transportCalls timers states fresh with_states with_fresh with_timers
       cy_state cy_campaign cy_account cy_row].
  rewrite Hs in *. cbn in Hcap |- *.
  repeat split.
  - rewrite !lookup_alter_eq, Hs. done.
  - by rewrite <- app_assoc.
  - rewrite !lookup_alter_eq, Hs. cbn. by rewrite lookup_insert_eq.
Qed.

Lemma capped_wake_arms_two_timers_witness :
  let w := run asciiLowerCase (take 2 firstDay) onePerDay in
  let w' := drain morning (scheduleNextMessageForAccount morning allConnected "c1" "A" w).2
                          (scheduleNextMessageForAccount morning allConnected "c1" "A" w).1 in
  db w' = db w ∧ inflight w' = inflight w ∧ transportCalls w' = transportCalls w ∧
  sentToday (stateAt 0 w') "A" = sentToday (stateAt 0 w) "A" ∧
  timers w' =
    (timers w ++ [ mkTimer (fresh w) "c1" "A" (UntilStartHour 1 9);
                   mkTimer (S (fresh w)) "c1" "A" (RandomSeconds 30 60) ])%list ∧
  accountTimeouts (stateAt 0 w') !! "A" = Some (S (fresh w)).
Proof.
  cbv zeta.
  apply (capped_wake_arms_two_timers morning allConnected "c1" "A"
           (run asciiLowerCase (take 2 firstDay) onePerDay) 0%nat
           (setCampaignFields running (Some "2024-05-01T07:00:00.000Z") None
              (sampleCampaign running 1))).
  - by vm_compute.
  - eexists. by vm_compute.
  - by vm_compute.
  - by vm_compute.
  - by vm_compute.
  - by vm_compute.
  - by vm_compute.
Defined.

(** ** What the scheduler leaves alone in the campaigns table *)

(** X10. The scheduler never adds or deletes a campaign row and never edits a
    campaign's configuration (id, name, message, delays, daily limit, working
    hours, media): whatever the events, only status, started_at and
    completed_at of the rows change. *)
Theorem campaign_config_untouched (toLowerCase : string → string) ts w :
  campaignConfigs (run toLowerCase ts w) = campaignConfigs w.
Proof.
  revert w. induction ts as [| t ts IH]; intros w; [done |].
  cbn [run fold_left]. change (fold_left _ ts ?x) with (run toLowerCase ts x).
  rewrite IH.
  refine (writes_step (λ w w', campaignConfigs w' = campaignConfigs w)
            (λ f, ∀ c, configOf (f c) = configOf c)
            _ _ _ _ _ _ _ toLowerCase t w (or_introl _)); try done.
  - intros w1 w2 w3 H12 H23. congruence.
  - intros w1 w2 E. unfold campaignConfigs. by rewrite E.
  - intros c0 f w0 Hf. unfold campaignConfigs, updateCampaign.
    cbn [db with_db campaigns with_campaigns].
    rewrite <- list_fmap_compose. apply list_fmap_ext. intros _ x _. simpl.
    by case_bool_decide.
Qed.

Lemma startedAt_update campaignId c f w t :
  (∀ x, c_id (f x) = c_id x) →
  (c = campaignId → ∀ x, c_started_at x = Some t → c_started_at (f x) = Some t) →
  startedAt campaignId w = Some t →
  startedAt campaignId (with_db (updateCampaign c f) w) = Some t.
Proof.
  intros Hid Hf. unfold startedAt. cbn [db with_db].
  rewrite getCampaign_updateCampaign by done.
  destruct (getCampaign campaignId (db w)) as [x |] eqn:E; [| done].
  cbn. case_bool_decide as Hc; [| done].
  apply Hf. rewrite <- Hc. symmetry. by apply getCampaign_in in E.
Qed.

Lemma startedAt_frame campaignId w w' :
  campaigns (db w') = campaigns (db w) → startedAt campaignId w' = startedAt campaignId w.
Proof. intros E. unfold startedAt, getCampaign. by rewrite E. Qed.

Lemma startedAt_step toLowerCase campaignId t w s :
  tk_event t ≠ ResetCampaign campaignId →
  startedAt campaignId w = Some s →
  startedAt campaignId (step toLowerCase t w) = Some s.
Proof.
  intros Hev.
  destruct (tk_event t) as [c | c | c | c | i | n res |] eqn:E.
  4:{ intros H. unfold step. rewrite E. unfold resetCampaign.
      apply startedAt_update; [done | congruence |].
      rewrite (startedAt_frame campaignId (stopCampaign (tk_clock t) c w)) by done.
      rewrite (startedAt_frame campaignId
                 (with_db (updateCampaign c (markStopped (nowISO (tk_clock t)))) w))
        by (by rewrite stopCampaign_db).
      by apply startedAt_update. }
  all: refine (writes_step
                 (λ w w', startedAt campaignId w = Some s → startedAt campaignId w' = Some s)
                 (λ f, (∀ x, c_id (f x) = c_id x) ∧
                       ∀ x, c_started_at x = Some s → c_started_at (f x) = Some s)
                 _ _ _ _ _ _ _ toLowerCase t w (or_intror _)); try done;
    [ intros w1 w2 w3 H12 H23 H; by apply H23, H12
    | intros w1 w2 Hc H; by rewrite (startedAt_frame campaignId w1)
    | intros c0 f w0 [Hid Hf] H; by apply startedAt_update
    | intros now; split; [done |]; intros x Hx; cbn; by rewrite Hx
    | intros c0; rewrite E; discriminate ].
Qed.

(** X11. started_at is written once: as long as the campaign is not reset, no
    event changes a started_at that is set; a restart after a stop or a
    completion keeps the time of the first start. *)
Theorem started_at_is_set_once (toLowerCase : string → string) campaignId ts w s :
  startedAt campaignId w = Some s →
  Forall (λ t, tk_event t ≠ ResetCampaign campaignId) ts →
  startedAt campaignId (run toLowerCase ts w) = Some s.
Proof.
  revert w. induction ts as [| t ts IH]; intros w H Hts; [done |].
  apply Forall_cons in Hts as [Ht Hts]. cbn [run fold_left].
  apply IH; [| done]. by apply startedAt_step.
Qed.

Lemma started_at_is_set_once_witness :
  startedAt "c1"
    (run asciiLowerCase
       [ at_ evening (StopCampaign "c1"); at_ nextMorning (StartCampaign "c1") ]
       lastContactSent)
  = Some "2024-05-01T07:00:00.000Z".
Proof.
  apply started_at_is_set_once; [by vm_compute |].
  repeat constructor; discriminate.
Defined.

(** ** Lifecycle calls in a row *)

Lemma filter_all {A} (P : A → Prop) `{∀ x, Decision (P x)} (l : list A) :
  (∀ x, P x) → filter P l = l.
Proof.
  intros HP. induction l as [| x l IH]; [done |].
  rewrite filter_cons_True by done. by rewrite IH.
Qed.

Lemma clearTimeouts_nil w : clearTimeouts [] w = w.
Proof.
  unfold clearTimeouts, with_timers. destruct w. cbn. f_equal.
  apply filter_all. intros x. apply not_elem_of_nil.
Qed.

Lemma updateCampaign_twice c f g d :
  (∀ x, c_id (f x) = c_id x) →
  updateCampaign c g (updateCampaign c f d) = updateCampaign c (g ∘ f) d.
Proof.
  intros Hid. unfold updateCampaign, with_campaigns. cbn. f_equal.
  rewrite <- list_fmap_compose. apply list_fmap_ext. intros _ x _. cbn.
  destruct (decide (c_id x = c)) as [E | E].
  - rewrite (bool_decide_eq_true_2 (c_id x = c) E).
    by rewrite bool_decide_eq_true_2 by (by rewrite Hid).
  - rewrite (bool_decide_eq_false_2 (c_id x = c) E).
    by rewrite (bool_decide_eq_false_2 (c_id x = c) E).
Qed.

Lemma updateCampaign_ext c f g d :
  (∀ x, f x = g x) → updateCampaign c f d = updateCampaign c g d.
Proof.
  intros H. unfold updateCampaign, with_campaigns. f_equal.
  apply list_fmap_ext. intros _ x _. cbn. case_bool_decide; [apply H | done].
Qed.

Lemma cleared_handles r w :
  timeoutHandles
    (stateAt r (with_states (alter (λ s, setTimeouts (λ _, ∅) (setRunning false s)) r) w)) = [].
Proof.
  unfold stateAt, timeoutHandles. cbn [states with_states]. rewrite lookup_alter_eq.
  destruct (states w !! r); cbn; by rewrite map_to_list_empty.
Qed.

Lemma clear_twice (m : gmap nat CampaignState) r :
  alter (λ s, setTimeouts (λ _, ∅) (setRunning false s)) r
    (alter (λ s, setTimeouts (λ _, ∅) (setRunning false s)) r m)
  = alter (λ s, setTimeouts (λ _, ∅) (setRunning false s)) r m.
Proof.
  apply map_eq. intros r'. destruct (decide (r' = r)) as [-> | Hne].
  - rewrite !lookup_alter_eq. by destruct (m !! r).
  - by rewrite !lookup_alter_ne.
Qed.

(** X12. Lifecycle calls in a row: a stop makes an earlier pause or stop of
    the same campaign irrelevant, and a second pause changes nothing. The
    whole state is meant: database, registry, state objects, timers. *)
Theorem later_stop_overrides clk clk' campaignId w :
  stopCampaign clk campaignId (pauseCampaign campaignId w) = stopCampaign clk campaignId w ∧
  stopCampaign clk' campaignId (stopCampaign clk campaignId w) = stopCampaign clk' campaignId w ∧
  pauseCampaign campaignId (pauseCampaign campaignId w) = pauseCampaign campaignId w.
Proof.
  split; [| split].
  - unfold stopCampaign at 1.
    assert (activeState campaignId (pauseCampaign campaignId w)
            = (λ r, (r, stateAt r (pauseCampaign campaignId w)))
                <$> activeCampaigns w !! campaignId) as ->.
    { unfold activeState. by rewrite pauseCampaign_registry. }
    unfold stopCampaign, pauseCampaign, activeState.
    destruct (activeCampaigns w !! campaignId) as [r |] eqn:Hr;
      cbn [fmap option_fmap option_map].
    + change (stateAt r (with_db ?f ?x)) with (stateAt r x).
      change (stateAt r (with_states ?f (clearTimeouts ?h w)))
        with (stateAt r (with_states f w)).
      rewrite cleared_handles, clearTimeouts_nil.
      unfold with_db, with_activeCampaigns, with_states, clearTimeouts, with_timers.
      cbn. rewrite clear_twice, updateCampaign_twice by done. f_equal; by apply updateCampaign_ext.
    + unfold with_db. cbn. rewrite updateCampaign_twice by done. f_equal; by apply updateCampaign_ext.
  - unfold stopCampaign at 1.
    assert (activeState campaignId (stopCampaign clk campaignId w) = None) as ->.
    { unfold activeState. by rewrite stopCampaign_unregisters. }
    unfold stopCampaign, activeState.
    destruct (activeCampaigns w !! campaignId) as [r |] eqn:Hr;
      cbn [fmap option_fmap option_map];
      unfold with_db; cbn; rewrite updateCampaign_twice by done; f_equal;
      by apply updateCampaign_ext.
  - unfold pauseCampaign at 1.
    assert (activeState campaignId (pauseCampaign campaignId w)
            = (λ r, (r, stateAt r (pauseCampaign campaignId w)))
                <$> activeCampaigns w !! campaignId) as ->.
    { unfold activeState. by rewrite pauseCampaign_registry. }
    unfold pauseCampaign, activeState.
    destruct (activeCampaigns w !! campaignId) as [r |] eqn:Hr;
      cbn [fmap option_fmap option_map].
    + change (stateAt r (with_db ?f ?x)) with (stateAt r x).
      change (stateAt r (with_states ?f (clearTimeouts ?h w)))
        with (stateAt r (with_states f w)).
      rewrite cleared_handles, clearTimeouts_nil.
      unfold with_db, with_states, clearTimeouts, with_timers.
      cbn. rewrite clear_twice, updateCampaign_twice by done. f_equal; by apply updateCampaign_ext.
    + unfold with_db. cbn. rewrite updateCampaign_twice by done. f_equal; by apply updateCampaign_ext.
Qed.

(** ** The status a macrotask leaves *)

Lemma hasStop_app campaignId q1 q2 :
  hasStop campaignId (q1 ++ q2) = hasStop campaignId q1 || hasStop campaignId q2.
Proof. unfold hasStop. apply existsb_app. Qed.

Lemma statusOf_written campaignId f s w :
  (∀ x, c_id (f x) = c_id x) → (∀ x, c_status (f x) = s) →
  statusOf campaignId (with_db (updateCampaign campaignId f) w)
  = written s (statusOf campaignId w).
Proof.
  intros Hid Hs. unfold statusOf, written. cbn [db with_db].
  rewrite status_after_update by done.
  destruct (getCampaign campaignId (db w)); [| done]. cbn. by rewrite Hs.
Qed.

Lemma statusOf_stop campaignId clk c w :
  statusOf campaignId (stopCampaign clk c w)
  = if bool_decide (c = campaignId) then written stopped (statusOf campaignId w)
    else statusOf campaignId w.
Proof.
  rewrite (statusOf_frame _ (with_db (updateCampaign c (markStopped (nowISO clk))) w))
    by (by rewrite stopCampaign_db).
  case_bool_decide as E.
  - subst c. by apply statusOf_written.
  - by apply statusOf_update_other.
Qed.

Lemma registry_stop campaignId clk c w :
  activeCampaigns (stopCampaign clk c w) !! campaignId
  = if bool_decide (c = campaignId) then None else activeCampaigns w !! campaignId.
Proof.
  case_bool_decide as E; [subst c; apply stopCampaign_unregisters |].
  unfold stopCampaign. destruct (activeState c w) as [[r s] |]; [| done].
  cbn [activeCampaigns with_db with_activeCampaigns]. by rewrite lookup_delete_ne.
Qed.

(** What a cycle does to the status and the registry entry of a campaign:
    nothing, unless it is a cycle of that campaign that stops it and queues
    its completion. *)
Lemma sendNext_status campaignId clk isConnected cy w :
  let '(w1, q) := sendNextMessageFromAccount clk isConnected cy w in
  (hasStop campaignId q = true → cy_campaign cy = campaignId) ∧
  statusOf campaignId w1
  = (if hasStop campaignId q then written stopped (statusOf campaignId w)
     else statusOf campaignId w) ∧
  activeCampaigns w1 !! campaignId
  = (if hasStop campaignId q then None else activeCampaigns w !! campaignId).
Proof.
  unfold sendNextMessageFromAccount.
  destruct (getCampaign _ _) as [campaign |]; [| done].
  destruct (activeState _ _) as [[r state] |]; [| done].
  cbn zeta.
  destruct (_ <=? _); [done |].
  destruct (negb _); [done |].
  destruct (nextPendingContact _ _) as [c |]; [done |].
  set (w1 := if (0 <? _)%nat then _ else w).
  assert (H1 : campaigns (db w1) = campaigns (db w) ∧ activeCampaigns w1 = activeCampaigns w)
    by (subst w1; by destruct (0 <? _)%nat).
  clearbody w1. destruct H1 as [H1 K1].
  destruct (0 <? countStuckSending _ _)%nat.
  { split; [done |]. split; [by apply statusOf_frame | by rewrite <- K1]. }
  set (w2 := match accountTimeouts state !! _ with Some _ => _ | None => w1 end).
  assert (H2 : campaigns (db w2) = campaigns (db w) ∧ activeCampaigns w2 = activeCampaigns w)
    by (subst w2; by destruct (accountTimeouts state !! _)).
  clearbody w2. destruct H2 as [H2 K2].
  destruct (bool_decide _).
  - unfold hasStop. cbn [existsb snd fst orb]. rewrite orb_false_r.
    rewrite statusOf_stop, registry_stop.
    rewrite (statusOf_frame _ w w2) by done. rewrite K2.
    split; [by intros ?%bool_decide_eq_true |]. by case_bool_decide.
  - split; [done |]. split; [by apply statusOf_frame | by rewrite K2].
Qed.

Lemma scheduleNext_status campaignId clk isConnected c x w :
  let '(w1, q) := scheduleNextMessageForAccount clk isConnected c x w in
  (hasStop campaignId q = true → c = campaignId) ∧
  statusOf campaignId w1
  = (if hasStop campaignId q then written stopped (statusOf campaignId w)
     else statusOf campaignId w) ∧
  activeCampaigns w1 !! campaignId
  = (if hasStop campaignId q then None else activeCampaigns w !! campaignId).
Proof.
  unfold scheduleNextMessageForAccount.
  destruct (activeState c w) as [[r state] |] eqn:Hs; [| done].
  destruct (negb _); [done |].
  destruct (getCampaign _ _) as [campaign |]; [| done].
  destruct (outsideWorkingHours _ _ _); [done |].
  pose proof (sendNext_status campaignId clk isConnected (mkCycle c x r campaign)
                (resetDailyCountersIfNeeded clk c w)) as H.
  destruct (sendNextMessageFromAccount _ _ _ _) as [w1 q].
  assert (campaigns (db (resetDailyCountersIfNeeded clk c w)) = campaigns (db w) ∧
          activeCampaigns (resetDailyCountersIfNeeded clk c w) = activeCampaigns w) as [E1 E2].
  { unfold resetDailyCountersIfNeeded. rewrite Hs. by destruct (bool_decide _). }
  rewrite (statusOf_frame _ w (resetDailyCountersIfNeeded clk c w)) in H by done.
  by rewrite E2 in H.
Qed.

Lemma spawn_status campaignId clk isConnected c l w :
  let '(w1, q) := spawnWorkers clk isConnected c l w in
  (hasStop campaignId q = true → c = campaignId) ∧
  statusOf campaignId w1
  = (if hasStop campaignId q then written stopped (statusOf campaignId w)
     else statusOf campaignId w) ∧
  activeCampaigns w1 !! campaignId
  = (if hasStop campaignId q then None else activeCampaigns w !! campaignId).
Proof.
  revert w. induction l as [| x l IH]; intros w; [done |].
  cbn [spawnWorkers].
  pose proof (scheduleNext_status campaignId clk isConnected c x w) as H1.
  destruct (scheduleNextMessageForAccount clk isConnected c x w) as [w1 q1].
  destruct H1 as (Ha & Hb & Hc).
  pose proof (IH w1) as H2.
  destruct (spawnWorkers clk isConnected c l w1) as [w2 q2] eqn:Hsp.
  destruct H2 as (Hd & He & Hf).
  rewrite hasStop_app.
  destruct (hasStop campaignId q1) eqn:E1.
  - specialize (Ha eq_refl). subst c.
    rewrite spawnWorkers_unregistered in Hsp by done.
    injection Hsp as <- <-. done.
  - cbn [orb]. rewrite He, Hf, Hb, Hc. done.
Qed.

Lemma written_written s s' o : written s (written s' o) = written s o.
Proof. by destruct o. Qed.

Lemma runQueue_status campaignId clk q w :
  hasStop campaignId (runQueue clk q w).2 = false ∧
  statusOf campaignId (runQueue clk q w).1
  = (if hasStop campaignId q then written completed (statusOf campaignId w)
     else statusOf campaignId w).
Proof.
  revert w. induction q as [| m q IH]; intros w; [done |].
  cbn [runQueue].
  destruct (runMicrotask clk m w) as [w1 q1] eqn:Hm.
  pose proof (IH w1) as [H1 H2].
  destruct (runQueue clk q w1) as [w2 q2]. cbn [fst snd] in *.
  rewrite hasStop_app, H1, H2.
  destruct m as [cy [| ok]]; cbn [runMicrotask] in Hm; injection Hm as <- <-.
  - split; [done |]. unfold hasStop at 2. cbn [existsb fst snd].
    fold (hasStop campaignId q).
    assert (statusOf campaignId (completeCampaign clk cy w)
            = if bool_decide (cy_campaign cy = campaignId)
              then written completed (statusOf campaignId w) else statusOf campaignId w) as ->.
    { unfold completeCampaign.
      rewrite (statusOf_frame _
                 (with_db (updateCampaign (cy_campaign cy) (markCompleted (nowISO clk))) w))
        by done.
      case_bool_decide as E.
      - rewrite E. by apply statusOf_written.
      - by apply statusOf_update_other. }
    case_bool_decide; cbn [orb]; [| done].
    destruct (hasStop campaignId q); [apply written_written | done].
  - split; [done |]. unfold hasStop at 2. cbn [existsb fst snd orb].
    fold (hasStop campaignId q).
    by rewrite (statusOf_frame _ w (scheduleAgain cy ok w)).
Qed.

Lemma drain_status campaignId clk q w :
  statusOf campaignId (drain clk q w)
  = (if hasStop campaignId q then written completed (statusOf campaignId w)
     else statusOf campaignId w) ∧
  activeCampaigns (drain clk q w) = activeCampaigns w.
Proof.
  unfold drain.
  pose proof (runQueue_status campaignId clk q w) as [H1 H2].
  pose proof (runQueue_frame clk q w) as (_ & K1 & _).
  destruct (runQueue clk q w) as [w1 q1]. cbn [fst snd] in *.
  pose proof (runQueue_status campaignId clk q1 w1) as [_ H3].
  pose proof (runQueue_frame clk q1 w1) as (_ & K2 & _).
  rewrite H3, H1, H2. split; [done | congruence].
Qed.

Lemma hasStop_other campaignId c q :
  (hasStop campaignId q = true → c = campaignId) → c ≠ campaignId →
  hasStop campaignId q = false.
Proof. intros H Hne. destruct (hasStop campaignId q); [by destruct Hne; apply H | done]. Qed.

(** X13. A campaign's persisted status and its registry entry change only
    through its own lifecycle calls and the firing of its own timers: a start,
    pause, stop or reset of another campaign, a timer of another campaign, any
    send that settles (its own included) and the midnight reset leave both as
    they were. *)
Theorem other_events_leave_status (toLowerCase : string → string) t w campaignId :
  concerns campaignId w (tk_event t) = false →
  statusOf campaignId (step toLowerCase t w) = statusOf campaignId w ∧
  activeCampaigns (step toLowerCase t w) !! campaignId = activeCampaigns w !! campaignId.
Proof.
  unfold step, concerns.
  destruct (tk_event t) as [c | c | c | c | i | n res |].
  - intros Hne%bool_decide_eq_false. unfold startCampaign.
    destruct (bool_decide _); [done |].
    destruct (getCampaign _ _); [| done]. cbn zeta.
    set (w1 := with_db _ w).
    assert (H1 : statusOf campaignId w1 = statusOf campaignId w)
      by (by apply statusOf_update_other).
    destruct (participatingAccounts _ _) as [| x l]; [done |].
    set (w2 := with_activeCampaigns _ _).
    pose proof (spawn_status campaignId (tk_clock t) (tk_connected t) c (x :: l) w2) as Hsp.
    destruct (spawnWorkers _ _ c (x :: l) w2) as [w3 q]. destruct Hsp as (Ha & Hb & Hc).
    destruct (drain_status campaignId (tk_clock t) q w3) as [Hd He].
    rewrite (hasStop_other _ _ _ Ha Hne) in *.
    rewrite Hd, He, Hb, Hc. split; [done |].
    subst w2. cbn [activeCampaigns with_activeCampaigns]. by rewrite lookup_insert_ne.
  - intros Hne%bool_decide_eq_false. split.
    + rewrite (statusOf_frame _ (with_db (updateCampaign c markPaused) w))
        by (by rewrite pauseCampaign_db).
      by apply statusOf_update_other.
    + by rewrite pauseCampaign_registry.
  - intros Hne%bool_decide_eq_false.
    rewrite statusOf_stop, registry_stop. by rewrite bool_decide_eq_false_2.
  - intros Hne%bool_decide_eq_false. unfold resetCampaign. split.
    + rewrite statusOf_update_other by done.
      rewrite (statusOf_frame _ (stopCampaign (tk_clock t) c w)) by done.
      rewrite statusOf_stop. by rewrite bool_decide_eq_false_2.
    + cbn [activeCampaigns with_db]. rewrite registry_stop.
      by rewrite bool_decide_eq_false_2.
  - destruct (List.find _ _) as [tm |]; [| done].
    intros Hne%bool_decide_eq_false.
    set (w0 := with_timers _ w).
    pose proof (scheduleNext_status campaignId (tk_clock t) (tk_connected t)
                  (timer_campaign tm) (timer_account tm) w0) as Hsn.
    destruct (scheduleNextMessageForAccount _ _ _ _ w0) as [w1 q].
    destruct Hsn as (Ha & Hb & Hc).
    destruct (drain_status campaignId (tk_clock t) q w1) as [Hd He].
    rewrite (hasStop_other _ _ _ Ha Hne) in *.
    by rewrite Hd, He, Hb, Hc.
  - intros _. destruct (inflight w !! n) as [f |]; [| done].
    set (w0 := with_inflight _ w).
    assert (∀ w1 q, settleSend toLowerCase (tk_clock t) f res w0 = (w1, q) →
                    campaigns (db w1) = campaigns (db w) ∧
                    activeCampaigns w1 = activeCampaigns w ∧
                    q = [(if_cycle f, AfterSendNext true)]) as Hs.
    { intros w1 q. unfold settleSend. intros [= <- <-].
      destruct res as [| message]; [done |]. by destruct (isPermanentFailure _). }
    destruct (settleSend _ _ _ _ w0) as [w1 q]. destruct (Hs w1 q eq_refl) as (Hc & Hr & ->).
    rewrite drain_returned. split.
    + rewrite (statusOf_frame _ w1) by done. by apply statusOf_frame.
    + cbn [activeCampaigns scheduleAgain armTimer with_states with_fresh with_timers].
      by rewrite Hr.
  - done.
Qed.

Lemma other_events_leave_status_witness :
  let t := at_ morning (SendSettles 0 Delivered) in
  statusOf "c1" (step asciiLowerCase t worldSendingX) = statusOf "c1" worldSendingX ∧
  activeCampaigns (step asciiLowerCase t worldSendingX) !! "c1"
  = activeCampaigns worldSendingX !! "c1".
Proof.
  cbv zeta.
  exact (other_events_leave_status asciiLowerCase (at_ morning (SendSettles 0 Delivered))
           worldSendingX "c1" eq_refl).
Defined.

(** X14. Starting a campaign that has a row and no state object in the
    registry never leaves it draft, paused or stopped: when the call and its
    continuations are over the status is running, or completed if a cycle
    found nothing left to send. If it is running and the campaign has an
    account, it is in the registry. *)
Theorem start_leaves_running_or_completed clk isConnected campaignId w :
  activeCampaigns w !! campaignId = None →
  is_Some (getCampaign campaignId (db w)) →
  let w' := startCampaign clk isConnected campaignId w in
  (statusOf campaignId w' = Some running ∨ statusOf campaignId w' = Some completed) ∧
  (statusOf campaignId w' = Some running →
   participatingAccounts campaignId (db w) ≠ [] →
   is_Some (activeCampaigns w' !! campaignId)).
Proof.
  intros Hreg [c Hc] w'. subst w'. unfold startCampaign.
  rewrite bool_decide_eq_false_2 by (rewrite Hreg; by intros [? ?]).
  rewrite Hc. cbn zeta.
  set (w1 := with_db _ w).
  assert (H1 : statusOf campaignId w1 = Some running).
  { subst w1. rewrite (statusOf_written _ _ running) by done.
    unfold statusOf. by rewrite Hc. }
  change (participatingAccounts campaignId (db w1))
    with (participatingAccounts campaignId (db w)).
  destruct (participatingAccounts _ _) as [| x l]; [split; [by left | done] |].
  set (w2 := with_activeCampaigns _ _).
  pose proof (spawn_status campaignId clk isConnected campaignId (x :: l) w2) as Hsp.
  destruct (spawnWorkers _ _ campaignId (x :: l) w2) as [w3 q].
  destruct Hsp as (_ & Hb & Hr).
  destruct (drain_status campaignId clk q w3) as [Hd He].
  rewrite Hd, He, Hb, Hr.
  change (statusOf campaignId w2) with (statusOf campaignId w1). rewrite H1.
  destruct (hasStop campaignId q); cbn.
  - split; [by right | done].
  - split; [by left |]. intros _ _. subst w2.
    cbn [activeCampaigns with_activeCampaigns]. by rewrite lookup_insert_eq.
Qed.

Lemma start_leaves_running_or_completed_witness :
  let w' := startCampaign morning allConnected "c1"
              (stopCampaign morning "c1" lastContactSent) in
  statusOf "c1" (stopCampaign morning "c1" lastContactSent) = Some stopped ∧
  (statusOf "c1" w' = Some running ∨ statusOf "c1" w' = Some completed).
Proof.
  cbv zeta. split; [by vm_compute |].
  apply (start_leaves_running_or_completed morning allConnected "c1"
           (stopCampaign morning "c1" lastContactSent)).
  - by vm_compute.
  - eexists. by vm_compute.
Defined.

(** ** The callers of startCampaign *)

Lemma startCampaign_begin clk isConnected campaignId w :
  startCampaign clk isConnected campaignId w =
    drain clk (startCampaignBegin clk isConnected campaignId w).2
              (startCampaignBegin clk isConnected campaignId w).1.
Proof.
  unfold startCampaign, startCampaignBegin.
  destruct (bool_decide _); [done |].
  destruct (getCampaign _ _); [| done]. cbn zeta.
  destruct (participatingAccounts _ _) as [| x l]; [done |].
  by destruct (spawnWorkers _ _ _ _ _).
Qed.

(** The synchronous part of a start, seen from a campaign: another
    campaign's start leaves its status and registry entry alone; its own
    start, when it has a row and no state object, leaves it running, or
    stopped with its completion queued. *)
Lemma begin_status campaignId clk isConnected c w :
  let '(w1, q) := startCampaignBegin clk isConnected c w in
  (hasStop campaignId q = true → c = campaignId) ∧
  (c ≠ campaignId →
   statusOf campaignId w1 = statusOf campaignId w ∧
   activeCampaigns w1 !! campaignId = activeCampaigns w !! campaignId) ∧
  (c = campaignId → activeCampaigns w !! campaignId = None →
   is_Some (getCampaign campaignId (db w)) →
   statusOf campaignId w1 = Some (if hasStop campaignId q then stopped else running)).
Proof.
  unfold startCampaignBegin.
  case_bool_decide as Hreg.
  { split; [done |]. split; [done |]. intros -> Hn. rewrite Hn in Hreg. by destruct Hreg. }
  destruct (getCampaign c (db w)) as [row |] eqn:Hrow.
  2:{ split; [done |]. split; [done |]. intros -> _ [? ?]. congruence. }
  cbn zeta. set (w1 := with_db _ w).
  assert (H1 : c ≠ campaignId → statusOf campaignId w1 = statusOf campaignId w)
    by (intros Hne; by apply statusOf_update_other).
  assert (H1' : c = campaignId → statusOf campaignId w1 = Some running).
  { intros ->. subst w1. rewrite (statusOf_written _ _ running) by done.
    unfold statusOf. by rewrite Hrow. }
  destruct (participatingAccounts _ _) as [| x l].
  { split; [done |]. split; [by intros Hne; split; [apply H1 |] |].
    intros E _ _. by apply H1'. }
  set (w2 := with_activeCampaigns _ _).
  pose proof (spawn_status campaignId clk isConnected c (x :: l) w2) as Hsp.
  destruct (spawnWorkers _ _ c (x :: l) w2) as [w3 q]. destruct Hsp as (Ha & Hb & Hc).
  split; [done |]. split.
  - intros Hne. rewrite (hasStop_other _ _ _ Ha Hne) in *.
    rewrite Hb, Hc. split; [by apply H1 |].
    subst w2. cbn [activeCampaigns with_activeCampaigns]. by rewrite lookup_insert_ne.
  - intros E _ _. rewrite Hb.
    change (statusOf campaignId w2) with (statusOf campaignId w1). rewrite (H1' E).
    by destruct (hasStop campaignId q).
Qed.

Lemma campaignIds_update c f w :
  (∀ x, c_id (f x) = c_id x) →
  campaignIds (with_db (updateCampaign c f) w) = campaignIds w.
Proof.
  intros Hid. unfold campaignIds, updateCampaign.
  cbn [db with_db campaigns with_campaigns].
  rewrite <- list_fmap_compose. apply list_fmap_ext. intros _ x _. simpl.
  by case_bool_decide.
Qed.

Lemma campaignIds_spawn clk isConnected c l w :
  campaignIds (spawnWorkers clk isConnected c l w).1 = campaignIds w.
Proof.
  refine (writes_spawn (λ w w', campaignIds w' = campaignIds w)
            (λ f, ∀ c, c_id (f c) = c_id c) _ _ _ _ clk isConnected c l w); try done.
  - intros w1 w2 w3 H12 H23. congruence.
  - intros w1 w2 E. unfold campaignIds. by rewrite E.
  - intros c0 f w0 Hid. by apply campaignIds_update.
Qed.

Lemma campaignIds_drain clk q w : campaignIds (drain clk q w) = campaignIds w.
Proof.
  refine (writes_drain (λ w w', campaignIds w' = campaignIds w)
            (λ f, ∀ c, c_id (f c) = c_id c) _ _ _ _ clk q w); try done.
  - intros w1 w2 w3 H12 H23. congruence.
  - intros w1 w2 E. unfold campaignIds. by rewrite E.
  - intros c0 f w0 Hid. by apply campaignIds_update.
Qed.

Lemma campaignIds_begin clk isConnected c w :
  campaignIds (startCampaignBegin clk isConnected c w).1 = campaignIds w.
Proof.
  unfold startCampaignBegin.
  destruct (bool_decide _); [done |].
  destruct (getCampaign _ _); [| done]. cbn zeta.
  destruct (participatingAccounts _ _) as [| x l]; [by apply campaignIds_update |].
  rewrite campaignIds_spawn.
  change (campaignIds (with_db (updateCampaign c (markRunning (nowISO clk))) w) = campaignIds w).
  by apply campaignIds_update.
Qed.

Lemma getCampaign_NoDup d x :
  NoDup (c_id <$> campaigns d) → x ∈ campaigns d → getCampaign (c_id x) d = Some x.
Proof.
  unfold getCampaign. induction (campaigns d) as [| y l IH]; intros Hnd Hin.
  { by apply elem_of_nil in Hin. }
  cbn [fmap list_fmap] in Hnd. apply NoDup_cons in Hnd as [Hy Hnd].
  cbn [List.find]. apply elem_of_cons in Hin as [-> | Hin].
  - by rewrite bool_decide_eq_true_2.
  - rewrite bool_decide_eq_false_2; [by apply IH |].
    intros E. apply Hy. rewrite E. by apply list_elem_of_fmap_2.
Qed.

Lemma getCampaign_elem d x : x ∈ campaigns d → is_Some (getCampaign (c_id x) d).
Proof.
  intros Hin. unfold getCampaign.
  destruct (List.find _ _) eqn:E; [done |].
  apply list_elem_of_In in Hin. pose proof (find_none _ _ E _ Hin) as H. cbn in H.
  by rewrite bool_decide_eq_true_2 in H.
Qed.

Lemma NoDup_fmap_filter {A B} (f : A → B) (p : A → bool) (l : list A) :
  NoDup (f <$> l) → NoDup (f <$> List.filter p l).
Proof.
  induction l as [| x l IH]; [done |].
  cbn [fmap list_fmap List.filter]. intros [Hx Hnd]%NoDup_cons.
  destruct (p x); [| by apply IH].
  cbn [fmap list_fmap]. apply NoDup_cons. split; [| by apply IH].
  intros Hin. apply Hx. apply list_elem_of_fmap in Hin as (y & -> & Hy).
  apply list_elem_of_fmap_2. apply list_elem_of_In in Hy. apply filter_In in Hy as [Hy _].
  by apply list_elem_of_In.
Qed.

Lemma scheduled_status campaignId clk isConnected l w :
  let '(w1, q) := startScheduledCampaigns clk isConnected l w in
  campaignIds w1 = campaignIds w ∧
  (hasStop campaignId q = true → campaignId ∈ c_id <$> l) ∧
  (campaignId ∉ c_id <$> l →
   statusOf campaignId w1 = statusOf campaignId w ∧
   activeCampaigns w1 !! campaignId = activeCampaigns w !! campaignId) ∧
  (campaignId ∈ c_id <$> l → NoDup (c_id <$> l) →
   activeCampaigns w !! campaignId = None →
   is_Some (getCampaign campaignId (db w)) →
   statusOf campaignId w1 = Some (if hasStop campaignId q then stopped else running)).
Proof.
  revert w. induction l as [| x l IH]; intros w.
  { cbn. split; [done |]. split; [done |]. split; [done |].
    intros H. by apply elem_of_nil in H. }
  cbn [startScheduledCampaigns fmap list_fmap].
  pose proof (begin_status campaignId clk isConnected (c_id x) w) as Hb.
  pose proof (campaignIds_begin clk isConnected (c_id x) w) as Hids.
  destruct (startCampaignBegin clk isConnected (c_id x) w) as [w1 q1].
  destruct Hb as (B1 & B2 & B3). cbn [fst] in Hids.
  pose proof (IH w1) as Hr.
  destruct (startScheduledCampaigns clk isConnected l w1) as [w2 q2].
  destruct Hr as (R0 & R1 & R2 & R3).
  rewrite hasStop_app.
  split; [congruence |]. split; [| split].
  - intros [H | H]%orb_prop; apply elem_of_cons; [left; symmetry; by apply B1 | right; by apply R1].
  - intros [Hx Hl]%not_elem_of_cons.
    destruct (B2 ltac:(congruence)) as [E1 E2].
    destruct (R2 Hl) as [E3 E4].
    split; congruence.
  - intros Hin [Hx Hnd]%NoDup_cons Hreg Hrow.
    destruct (decide (c_id x = campaignId)) as [E | Hne].
    + assert (campaignId ∉ c_id <$> l) as Hl by (by rewrite <- E).
      destruct (R2 Hl) as [E3 _].
      assert (hasStop campaignId q2 = false) as ->
        by (destruct (hasStop campaignId q2); [by destruct Hl; apply R1 | done]).
      rewrite orb_false_r, E3. by apply B3.
    + apply elem_of_cons in Hin as [-> | Hin]; [done |].
      destruct (B2 Hne) as [E1 E2].
      rewrite (hasStop_other _ _ _ B1 Hne). cbn [orb].
      apply R3; [done | done | by rewrite E2 |].
      unfold statusOf in E1.
      destruct Hrow as [y Hy]. rewrite Hy in E1.
      destruct (getCampaign campaignId (db w1)); [done | done].
Qed.

(** X15. The scheduled-campaign check starts due drafts only: a campaign
    none of whose rows is a draft with a scheduled start at or before now
    keeps its status and its registry entry through a check. *)
Theorem checker_leaves_others_alone clk isConnected sched w campaignId :
  (∀ x, x ∈ campaigns (db w) → c_id x = campaignId → isDue clk sched x = false) →
  statusOf campaignId (checkNow clk isConnected sched w) = statusOf campaignId w ∧
  activeCampaigns (checkNow clk isConnected sched w) !! campaignId
  = activeCampaigns w !! campaignId.
Proof.
  intros Hnot. unfold checkNow, checkScheduledCampaigns.
  assert (campaignId ∉ c_id <$> dueCampaigns clk sched (db w)) as Hl.
  { intros (x & -> & Hx)%list_elem_of_fmap.
    apply list_elem_of_In, filter_In in Hx as [Hx Hd].
    apply list_elem_of_In in Hx. by rewrite (Hnot x Hx eq_refl) in Hd. }
  pose proof (scheduled_status campaignId clk isConnected
                (dueCampaigns clk sched (db w)) w) as H.
  destruct (startScheduledCampaigns _ _ _ w) as [w1 q].
  destruct H as (_ & H1 & H2 & _).
  destruct (H2 Hl) as [E1 E2].
  destruct (drain_status campaignId clk q w1) as [Hd He].
  assert (hasStop campaignId q = false) as Hq
    by (destruct (hasStop campaignId q); [by destruct Hl; apply H1 | done]).
  rewrite Hq in Hd. split; congruence.
Qed.

Lemma checker_leaves_others_alone_witness :
  let sched : Schedule := {["c1" := "2024-05-01T08:00:00.000Z"]} in
  statusOf "c1" (checkNow morning allConnected sched twoAccountsOneContact) = Some draft ∧
  activeCampaigns (checkNow morning allConnected sched twoAccountsOneContact) !! "c1" = None.
Proof.
  cbv zeta.
  apply (checker_leaves_others_alone morning allConnected
           {["c1" := "2024-05-01T08:00:00.000Z"]} twoAccountsOneContact "c1").
  intros x Hx _. apply list_elem_of_singleton in Hx. subst x. by vm_compute.
Defined.

(** X16. A due draft is started by the check: with campaign ids unique
    (PRIMARY KEY), a draft whose scheduled start is at or before now and that
    has no state object in the registry is, when the check and its
    continuations are over, running, or completed if a cycle found nothing
    left to send; it is never left in draft. *)
Theorem checker_starts_due_drafts clk isConnected sched w x :
  NoDup (campaignIds w) →
  x ∈ campaigns (db w) →
  isDue clk sched x = true →
  activeCampaigns w !! c_id x = None →
  statusOf (c_id x) (checkNow clk isConnected sched w) = Some running ∨
  statusOf (c_id x) (checkNow clk isConnected sched w) = Some completed.
Proof.
  intros Hnd Hx Hdue Hreg. unfold checkNow, checkScheduledCampaigns.
  assert (c_id x ∈ c_id <$> dueCampaigns clk sched (db w)) as Hl.
  { apply list_elem_of_fmap_2, list_elem_of_In, filter_In.
    split; [by apply list_elem_of_In | done]. }
  pose proof (scheduled_status (c_id x) clk isConnected
                (dueCampaigns clk sched (db w)) w) as H.
  destruct (startScheduledCampaigns _ _ _ w) as [w1 q].
  destruct H as (_ & _ & _ & H3).
  specialize (H3 Hl (NoDup_fmap_filter _ _ _ Hnd) Hreg (getCampaign_elem _ _ Hx)).
  destruct (drain_status (c_id x) clk q w1) as [Hd _].
  rewrite Hd, H3. destruct (hasStop (c_id x) q); [by right | by left].
Qed.

Lemma checker_starts_due_drafts_witness :
  let sched : Schedule := {["c1" := "2024-05-01T06:30:00.000Z"]} in
  statusOf "c1" (checkNow morning allConnected sched twoAccountsOneContact) = Some running ∨
  statusOf "c1" (checkNow morning allConnected sched twoAccountsOneContact) = Some completed.
Proof.
  cbv zeta.
  apply (checker_starts_due_drafts morning allConnected
           {["c1" := "2024-05-01T06:30:00.000Z"]} twoAccountsOneContact
           (sampleCampaign draft 5)).
  - apply NoDup_singleton.
  - by apply list_elem_of_singleton.
  - by vm_compute.
  - by vm_compute.
Defined.

(** ** The resume after a restart *)

Section ResumeProperties.

Variable getTime : string → option Z.

Lemma resumeOne_status campaignId clk isConnected nowMs x w :
  let '(w1, ts, q) := resumeCampaign getTime clk isConnected nowMs x w in
  campaignIds w1 = campaignIds w ∧
  (hasStop campaignId q = true → c_id x = campaignId) ∧
  (∀ t, t ∈ ts → rt_campaign t = c_id x) ∧
  (c_id x ≠ campaignId →
   statusOf campaignId w1 = statusOf campaignId w ∧
   activeCampaigns w1 !! campaignId = activeCampaigns w !! campaignId) ∧
  (c_id x = campaignId → activeCampaigns w !! campaignId = None →
   is_Some (getCampaign campaignId (db w)) →
   if runningTooLong getTime nowMs x then
     statusOf campaignId w1 = Some paused ∧ activeCampaigns w1 !! campaignId = None ∧
     ts = [] ∧ q = []
   else if inWorkingHours clk x then
     statusOf campaignId w1 = Some (if hasStop campaignId q then stopped else running) ∧
     ts = []
   else
     statusOf campaignId w1 = statusOf campaignId w ∧
     activeCampaigns w1 !! campaignId = None ∧
     ts = [resumeTimerFor clk x] ∧ q = []).
Proof.
  unfold resumeCampaign, inWorkingHours, resumeTimerFor.
  destruct (runningTooLong getTime nowMs x).
  { split; [by apply campaignIds_update |]. split; [done |].
    split; [intros t Ht; by apply elem_of_nil in Ht |].
    split; [intros Hne; split; [by apply statusOf_update_other | done] |].
    intros <- Hreg [y Hy]. split; [| done].
    rewrite (statusOf_written _ _ paused) by done. unfold statusOf. by rewrite Hy. }
  destruct ((c_start_hour x <=? currentHour clk) && (currentHour clk <? c_end_hour x)).
  { pose proof (begin_status campaignId clk isConnected (c_id x) w) as Hb.
    pose proof (campaignIds_begin clk isConnected (c_id x) w) as Hids.
    destruct (startCampaignBegin clk isConnected (c_id x) w) as [w1 q].
    destruct Hb as (B1 & B2 & B3). cbn [fst] in Hids.
    split; [done |]. split; [done |].
    split; [intros t Ht; by apply elem_of_nil in Ht |].
    split; [intros Hne; by apply B2 |].
    intros E Hreg Hrow. split; [| done].
    rewrite (statusOf_frame _ w1) by done. by apply B3. }
  destruct (currentHour clk <? c_start_hour x).
  - split; [done |]. split; [done |].
    split; [by intros t ->%list_elem_of_singleton |].
    split; [done |]. by intros <- Hreg _.
  - split; [done |]. split; [done |].
    split; [by intros t ->%list_elem_of_singleton |].
    split; [done |]. by intros <- Hreg _.
Qed.

Lemma resume_status campaignId clk isConnected nowMs l w :
  let '(w1, ts, q) := resumeCampaigns getTime clk isConnected nowMs l w in
  campaignIds w1 = campaignIds w ∧
  (hasStop campaignId q = true → campaignId ∈ c_id <$> l) ∧
  (∀ t, t ∈ ts → rt_campaign t ∈ c_id <$> l) ∧
  (campaignId ∉ c_id <$> l →
   statusOf campaignId w1 = statusOf campaignId w ∧
   activeCampaigns w1 !! campaignId = activeCampaigns w !! campaignId) ∧
  (∀ x, x ∈ l → c_id x = campaignId → NoDup (c_id <$> l) →
   activeCampaigns w !! campaignId = None →
   is_Some (getCampaign campaignId (db w)) →
   if runningTooLong getTime nowMs x then
     statusOf campaignId w1 = Some paused ∧ activeCampaigns w1 !! campaignId = None ∧
     hasStop campaignId q = false ∧ ∀ t, t ∈ ts → rt_campaign t ≠ campaignId
   else if inWorkingHours clk x then
     statusOf campaignId w1 = Some (if hasStop campaignId q then stopped else running) ∧
     ∀ t, t ∈ ts → rt_campaign t ≠ campaignId
   else
     statusOf campaignId w1 = statusOf campaignId w ∧
     activeCampaigns w1 !! campaignId = None ∧
     hasStop campaignId q = false ∧
     resumeTimerFor clk x ∈ ts ∧
     ∀ t, t ∈ ts → rt_campaign t = campaignId → t = resumeTimerFor clk x).
Proof.
  revert w. induction l as [| y l IH]; intros w.
  { cbn. split; [done |]. split; [done |].
    split; [intros t Ht; by apply elem_of_nil in Ht |]. split; [done |].
    intros x Hx. by apply elem_of_nil in Hx. }
  cbn [resumeCampaigns fmap list_fmap].
  pose proof (resumeOne_status campaignId clk isConnected nowMs y w) as H1.
  destruct (resumeCampaign getTime clk isConnected nowMs y w) as [[w1 t1] q1].
  destruct H1 as (A0 & A1 & A2 & A3 & A4).
  pose proof (IH w1) as H2.
  destruct (resumeCampaigns getTime clk isConnected nowMs l w1) as [[w2 t2] q2].
  destruct H2 as (R0 & R1 & R2 & R3 & R4).
  rewrite hasStop_app.
  split; [congruence |]. split; [| split; [| split]].
  - intros [H | H]%orb_prop; apply elem_of_cons;
      [left; symmetry; by apply A1 | right; by apply R1].
  - intros t [Ht | Ht]%elem_of_app; apply elem_of_cons;
      [left; by apply A2 | right; by apply R2].
  - intros [Hy Hl]%not_elem_of_cons.
    destruct (A3 ltac:(congruence)) as [E1 E2]. destruct (R3 Hl) as [E3 E4].
    split; congruence.
  - intros x Hx Hid [Hy Hnd]%NoDup_cons Hreg Hrow.
    apply elem_of_cons in Hx as [-> | Hx].
    + (* the campaign's own turn comes first; the rest of the list is foreign *)
      assert (campaignId ∉ c_id <$> l) as Hl by (by rewrite <- Hid).
      destruct (R3 Hl) as [E3 E4].
      assert (hasStop campaignId q2 = false) as Hq2
        by (destruct (hasStop campaignId q2); [by destruct Hl; apply R1 | done]).
      assert (∀ t, t ∈ t2 → rt_campaign t ≠ campaignId) as Ht2
        by (intros t Ht E; apply Hl; rewrite <- E; by apply R2).
      specialize (A4 Hid Hreg Hrow).
      rewrite Hq2, orb_false_r.
      destruct (runningTooLong getTime nowMs y).
      { destruct A4 as (S1 & S2 & -> & ->). cbn [app].
        split; [congruence |]. split; [congruence |]. done. }
      destruct (inWorkingHours clk y).
      { destruct A4 as (S1 & ->). cbn [app]. split; [congruence | done]. }
      destruct A4 as (S1 & S2 & -> & ->). cbn [app hasStop existsb].
      split; [congruence |]. split; [congruence |]. split; [done |].
      split; [apply elem_of_cons; by left |].
      intros t [-> | Ht]%elem_of_cons E; [done | by destruct (Ht2 t)].
    + assert (c_id y ≠ campaignId) as Hne.
      { intros E. apply Hy. rewrite E, <- Hid. by apply list_elem_of_fmap_2. }
      destruct (A3 Hne) as [E1 E2].
      assert (hasStop campaignId q1 = false) as Hq1 by (by apply (hasStop_other _ (c_id y))).
      assert (∀ t, t ∈ t1 → rt_campaign t ≠ campaignId) as Ht1
        by (intros t Ht E; apply Hne; rewrite <- E; symmetry; by apply A2).
      assert (is_Some (getCampaign campaignId (db w1))) as Hrow1.
      { unfold statusOf in E1. destruct Hrow as [z Hz]. rewrite Hz in E1.
        by destruct (getCampaign campaignId (db w1)). }
      specialize (R4 x Hx Hid Hnd ltac:(by rewrite E2) Hrow1).
      rewrite Hq1. cbn [orb].
      destruct (runningTooLong getTime nowMs x).
      { destruct R4 as (S1 & S2 & S3 & S4). repeat split; try done.
        intros t [Ht | Ht]%elem_of_app; [by apply Ht1 | by apply S4]. }
      destruct (inWorkingHours clk x).
      { destruct R4 as (S1 & S4). split; [done |].
        intros t [Ht | Ht]%elem_of_app; [by apply Ht1 | by apply S4]. }
      destruct R4 as (S1 & S2 & S3 & S5 & S4). split; [congruence |].
      split; [done |]. split; [done |]. split; [apply elem_of_app; by right |].
      intros t [Ht | Ht]%elem_of_app E; [by destruct (Ht1 t) | by apply S4].
Qed.

Lemma not_due_by_status clk sched w campaignId s :
  NoDup (campaignIds w) → statusOf campaignId w = Some s → s ≠ draft →
  campaignId ∉ c_id <$> dueCampaigns clk sched (db w).
Proof.
  intros Hnd Hs Hne (y & -> & Hy)%list_elem_of_fmap.
  apply list_elem_of_In, filter_In in Hy as [Hy Hd]. apply list_elem_of_In in Hy.
  unfold statusOf in Hs. rewrite (getCampaign_NoDup _ _ Hnd Hy) in Hs.
  injection Hs as <-. unfold isDue in Hd. apply andb_prop in Hd as [Hd _].
  by apply bool_decide_eq_true in Hd.
Qed.

Lemma checker_foreign campaignId clk isConnected sched w :
  campaignId ∉ c_id <$> dueCampaigns clk sched (db w) →
  let '(w1, q) := checkScheduledCampaigns clk isConnected sched w in
  statusOf campaignId w1 = statusOf campaignId w ∧
  activeCampaigns w1 !! campaignId = activeCampaigns w !! campaignId ∧
  hasStop campaignId q = false.
Proof.
  intros Hl. unfold checkScheduledCampaigns.
  pose proof (scheduled_status campaignId clk isConnected
                (dueCampaigns clk sched (db w)) w) as H.
  destruct (startScheduledCampaigns _ _ _ w) as [w1 q].
  destruct H as (_ & H1 & H2 & _). destruct (H2 Hl) as [E1 E2].
  split; [done |]. split; [done |].
  destruct (hasStop campaignId q); [by destruct Hl; apply H1 | done].
Qed.

(** X17. What the start of the services does to a campaign found running
    (campaign ids unique, nothing registered yet for it). Started more than
    seven days ago (a NULL started_at is read as the epoch): it is paused,
    not started, and no timer is armed. Otherwise, inside its working hours:
    it is started, and ends running, or completed if nothing was left to
    send. Otherwise: it stays as it is and a timer is armed for it, for the
    start hour of today if that is still ahead and of tomorrow if not, and
    no timer of another kind. *)
Theorem resume_outcome clk isConnected nowMs sched w x :
  NoDup (campaignIds w) →
  x ∈ campaigns (db w) →
  c_status x = running →
  activeCampaigns w !! c_id x = None →
  let w' := (initializeServices getTime clk isConnected nowMs sched w).1 in
  let ts := (initializeServices getTime clk isConnected nowMs sched w).2 in
  if runningTooLong getTime nowMs x then
    statusOf (c_id x) w' = Some paused ∧ activeCampaigns w' !! c_id x = None ∧
    ∀ t, t ∈ ts → rt_campaign t ≠ c_id x
  else if inWorkingHours clk x then
    (statusOf (c_id x) w' = Some running ∨ statusOf (c_id x) w' = Some completed) ∧
    ∀ t, t ∈ ts → rt_campaign t ≠ c_id x
  else
    statusOf (c_id x) w' = Some running ∧ activeCampaigns w' !! c_id x = None ∧
    resumeTimerFor clk x ∈ ts ∧
    ∀ t, t ∈ ts → rt_campaign t = c_id x → t = resumeTimerFor clk x.
Proof.
  intros Hnd Hx Hrun Hreg w' ts. subst w' ts.
  unfold initializeServices, resumeRunningCampaigns.
  assert (x ∈ runningCampaigns (db w)) as Hl.
  { apply list_elem_of_In, filter_In. split; [by apply list_elem_of_In |].
    by apply bool_decide_eq_true. }
  assert (statusOf (c_id x) w = Some running) as Hst.
  { unfold statusOf. by rewrite (getCampaign_NoDup _ _ Hnd Hx), <- Hrun. }
  pose proof (resume_status (c_id x) clk isConnected nowMs (runningCampaigns (db w)) w) as H.
  destruct (resumeCampaigns getTime clk isConnected nowMs (runningCampaigns (db w)) w)
    as [[w1 ts] q1].
  destruct H as (R0 & _ & _ & _ & R4).
  specialize (R4 x Hl eq_refl (NoDup_fmap_filter _ _ _ Hnd) Hreg (getCampaign_elem _ _ Hx)).
  assert (Hnd1 : NoDup (campaignIds w1)) by (by rewrite R0).
  assert (∀ s, statusOf (c_id x) w1 = Some s → s ≠ draft →
               let '(w2, q2) := checkScheduledCampaigns clk isConnected sched w1 in
               statusOf (c_id x) (drain clk (q1 ++ q2) w2)
               = (if hasStop (c_id x) q1 then Some completed else Some s) ∧
               activeCampaigns (drain clk (q1 ++ q2) w2) !! c_id x
               = activeCampaigns w1 !! c_id x) as Hfinal.
  { intros s Hs Hne.
    pose proof (checker_foreign (c_id x) clk isConnected sched w1
                  (not_due_by_status clk sched w1 (c_id x) s Hnd1 Hs Hne)) as Hc.
    destruct (checkScheduledCampaigns clk isConnected sched w1) as [w2 q2].
    destruct Hc as (C1 & C2 & C3).
    destruct (drain_status (c_id x) clk (q1 ++ q2) w2) as [Hd He].
    rewrite Hd, He, hasStop_app, C3, orb_false_r, C1, C2, Hs.
    by destruct (hasStop (c_id x) q1). }
  destruct (runningTooLong getTime nowMs x).
  { destruct R4 as (S1 & S2 & S3 & S4).
    specialize (Hfinal paused S1 ltac:(done)).
    destruct (checkScheduledCampaigns clk isConnected sched w1) as [w2 q2].
    cbn [fst snd]. destruct Hfinal as [F1 F2]. rewrite S3 in F1.
    split; [done |]. split; [congruence | done]. }
  destruct (inWorkingHours clk x).
  { destruct R4 as (S1 & S4).
    specialize (Hfinal _ S1 ltac:(by destruct (hasStop (c_id x) q1))).
    destruct (checkScheduledCampaigns clk isConnected sched w1) as [w2 q2].
    cbn [fst snd]. destruct Hfinal as [F1 F2]. split; [| done].
    rewrite F1. destruct (hasStop (c_id x) q1); [by right | by left]. }
  destruct R4 as (S1 & S2 & S3 & S5 & S4). rewrite Hst in S1.
  specialize (Hfinal running S1 ltac:(done)).
  destruct (checkScheduledCampaigns clk isConnected sched w1) as [w2 q2].
  cbn [fst snd]. destruct Hfinal as [F1 F2]. rewrite S3 in F1.
  split; [done |]. split; [congruence |]. done.
Qed.

(** X18. The start of the services leaves every other campaign alone: a
    campaign that is not running and not a due draft keeps its status and
    its registry entry, and no timer is armed for it. *)
Theorem startup_leaves_others_alone clk isConnected nowMs sched w campaignId :
  NoDup (campaignIds w) →
  (∀ y, y ∈ campaigns (db w) → c_id y = campaignId →
        c_status y ≠ running ∧ isDue clk sched y = false) →
  let w' := (initializeServices getTime clk isConnected nowMs sched w).1 in
  let ts := (initializeServices getTime clk isConnected nowMs sched w).2 in
  statusOf campaignId w' = statusOf campaignId w ∧
  activeCampaigns w' !! campaignId = activeCampaigns w !! campaignId ∧
  ∀ t, t ∈ ts → rt_campaign t ≠ campaignId.
Proof.
  intros Hnd Hnot w' ts. subst w' ts.
  unfold initializeServices, resumeRunningCampaigns.
  assert (campaignId ∉ c_id <$> runningCampaigns (db w)) as Hl.
  { intros (y & -> & Hy)%list_elem_of_fmap.
    apply list_elem_of_In, filter_In in Hy as [Hy Hr]. apply list_elem_of_In in Hy.
    apply bool_decide_eq_true in Hr. by destruct (Hnot y Hy eq_refl). }
  pose proof (resume_status campaignId clk isConnected nowMs (runningCampaigns (db w)) w) as H.
  destruct (resumeCampaigns getTime clk isConnected nowMs (runningCampaigns (db w)) w)
    as [[w1 ts] q1].
  destruct H as (R0 & R1 & R2 & R3 & _). destruct (R3 Hl) as [E1 E2].
  assert (hasStop campaignId q1 = false) as Hq1
    by (destruct (hasStop campaignId q1); [by destruct Hl; apply R1 | done]).
  assert (campaignId ∉ c_id <$> dueCampaigns clk sched (db w1)) as Hdue.
  { intros (y & -> & Hy)%list_elem_of_fmap.
    apply list_elem_of_In, filter_In in Hy as [Hy Hd]. apply list_elem_of_In in Hy.
    assert (statusOf (c_id y) w1 = Some (c_status y)) as Hs1.
    { unfold statusOf. rewrite (getCampaign_NoDup (db w1) y); [done | | done].
      fold (campaignIds w1). by rewrite R0. }
    rewrite E1 in Hs1. unfold statusOf in Hs1.
    destruct (getCampaign (c_id y) (db w)) as [y0 |] eqn:Hy0; [| done].
    injection Hs1 as Hs1.
    pose proof (getCampaign_in _ _ _ Hy0) as Hid0.
    apply find_some in Hy0 as [Hin0 _]. apply list_elem_of_In in Hin0.
    destruct (Hnot y0 Hin0 Hid0) as [_ Hd0].
    unfold isDue in Hd, Hd0. by rewrite Hs1, Hid0, Hd in Hd0. }
  pose proof (checker_foreign campaignId clk isConnected sched w1 Hdue) as Hc.
  destruct (checkScheduledCampaigns clk isConnected sched w1) as [w2 q2].
  destruct Hc as (C1 & C2 & C3). cbn [fst snd].
  destruct (drain_status campaignId clk (q1 ++ q2) w2) as [Hd He].
  rewrite Hd, He, hasStop_app, Hq1, C3. cbn [orb].
  split; [congruence |]. split; [congruence |].
  intros t Ht E. apply Hl. rewrite <- E. by apply R2.
Qed.

End ResumeProperties.

Lemma resume_outcome_witness :
  let started := afterRestart None in
  let w' := (initializeServices sampleTimes nextMorning allConnected 1714629600000 ∅ started).1 in
  let ts := (initializeServices sampleTimes nextMorning allConnected 1714629600000 ∅ started).2 in
  statusOf "c1" w' = Some paused ∧ activeCampaigns w' !! "c1" = None ∧
  ∀ t, t ∈ ts → rt_campaign t ≠ "c1".
Proof.
  cbv zeta.
  exact (resume_outcome sampleTimes nextMorning allConnected 1714629600000 ∅
           (afterRestart None)
           (setCampaignFields running None None (sampleCampaign running 5))
           (NoDup_singleton _) ltac:(by apply list_elem_of_singleton) eq_refl eq_refl).
Defined.

Lemma startup_leaves_others_alone_witness :
  let w' := (initializeServices sampleTimes morning allConnected 1714546800000 ∅
               twoAccountsOneContact).1 in
  statusOf "c1" w' = Some draft ∧ activeCampaigns w' !! "c1" = None.
Proof.
  cbv zeta.
  destruct (startup_leaves_others_alone sampleTimes morning allConnected 1714546800000 ∅
              twoAccountsOneContact "c1" (NoDup_singleton _)) as (H1 & H2 & _).
  - intros y Hy _. apply list_elem_of_singleton in Hy. subst y. by vm_compute.
  - split; [exact H1 | exact H2].
Defined.

(** X19. The timer armed by the resume starts the campaign whatever happened
    since it was armed: fired on a campaign that has a row and no state
    object in the registry (stopped, paused before any start, or reset in the
    meantime), it leaves the campaign running, or completed if nothing was
    left to send. Nothing clears this timer: its handle is not kept. *)
Theorem resume_timer_restarts clk isConnected rt w :
  activeCampaigns w !! rt_campaign rt = None →
  is_Some (getCampaign (rt_campaign rt) (db w)) →
  statusOf (rt_campaign rt) (resumeTimerFires clk isConnected rt w) = Some running ∨
  statusOf (rt_campaign rt) (resumeTimerFires clk isConnected rt w) = Some completed.
Proof.
  intros Hreg Hrow. unfold resumeTimerFires.
  pose proof (begin_status (rt_campaign rt) clk isConnected (rt_campaign rt) w) as Hb.
  destruct (startCampaignBegin clk isConnected (rt_campaign rt) w) as [w1 q].
  destruct Hb as (_ & _ & B3). specialize (B3 eq_refl Hreg Hrow).
  set (w2 := with_db _ w1).
  destruct (drain_status (rt_campaign rt) clk q w2) as [Hd _].
  rewrite Hd. rewrite (statusOf_frame _ w1 w2) by done. rewrite B3.
  destruct (hasStop (rt_campaign rt) q); [by right | by left].
Qed.

Lemma resume_timer_restarts_witness :
  let stoppedByUser := stopCampaign evening "c1" (afterRestart (Some "2024-05-01T07:00:00.000Z")) in
  let rt := mkResumeTimer "c1" "Promo" (UntilStartHour 1 9) in
  statusOf "c1" stoppedByUser = Some stopped ∧
  (statusOf "c1" (resumeTimerFires nextMorning allConnected rt stoppedByUser) = Some running ∨
   statusOf "c1" (resumeTimerFires nextMorning allConnected rt stoppedByUser) = Some completed).
Proof.
  cbv zeta. split; [by vm_compute |].
  apply (resume_timer_restarts nextMorning allConnected
           (mkResumeTimer "c1" "Promo" (UntilStartHour 1 9))
           (stopCampaign evening "c1" (afterRestart (Some "2024-05-01T07:00:00.000Z")))).
  - by vm_compute.
  - eexists. by vm_compute.
Defined.

(** ** The campaign handlers *)

Lemma find_app_None {A} (p : A → bool) (l : list A) (x : A) :
  List.find p l = None → List.find p (l ++ [x]) = if p x then Some x else None.
Proof.
  induction l as [| y l IH]; [done |]. cbn [List.find app].
  destruct (p y); [done | apply IH].
Qed.

Lemma find_app_Some {A} (p : A → bool) (l : list A) (x y : A) :
  List.find p l = Some y → List.find p (l ++ [x]) = Some y.
Proof.
  induction l as [| z l IH]; [done |]. cbn [List.find app].
  destruct (p z); [done | apply IH].
Qed.

Lemma orNumber_nonzero x d : d ≠ 0 → orNumber x d ≠ 0.
Proof.
  intros Hd. unfold orNumber. destruct x as [n |]; [| done].
  destruct (Z.eqb_spec n 0); done.
Qed.

(** X20. [campaigns:create] stores a draft, and its defaults replace zero as
    well as a missing value: the stored delays, daily limit and hours are
    never 0, a non-zero value is stored as given, and a campaign created
    with start_hour 0 gets start_hour 9, so that its window is closed in the
    hours 0 to 8. Other campaigns' rows are not touched. *)
Theorem created_campaign_defaults id data d sched :
  getCampaign id d = None →
  let d' := (createCampaign id data (d, sched)).1 in
  let row := createdRow id data in
  getCampaign id d' = Some row ∧
  c_status row = draft ∧
  (c_min_delay row ≠ 0 ∧ c_max_delay row ≠ 0 ∧ c_max_messages_per_day row ≠ 0 ∧
   c_start_hour row ≠ 0 ∧ c_end_hour row ≠ 0) ∧
  (∀ n, cd_start_hour data = Some n → n ≠ 0 → c_start_hour row = n) ∧
  (∀ n, cd_end_hour data = Some n → n ≠ 0 → c_end_hour row = n) ∧
  (cd_start_hour data = Some 0 →
   ∀ hour, 0 ≤ hour < 9 →
     outsideWorkingHours hour (c_start_hour row) (c_end_hour row) = true) ∧
  (∀ c, c ≠ id → getCampaign c d' = getCampaign c d).
Proof.
  intros Hnew d' row. subst d' row. unfold createCampaign. rewrite Hnew. cbn [fst].
  split; [| split; [done |]; split; [| split; [| split; [| split]]]].
  - unfold getCampaign in *. cbn [campaigns with_campaigns].
    rewrite (find_app_None _ _ _ Hnew). cbn. by rewrite bool_decide_eq_true_2.
  - cbn. repeat split; by apply orNumber_nonzero.
  - intros n Hn Hne. cbn. rewrite Hn. cbn. by destruct (Z.eqb_spec n 0).
  - intros n Hn Hne. cbn. rewrite Hn. cbn. by destruct (Z.eqb_spec n 0).
  - intros H0 hour Hh. cbn. rewrite H0. cbn. unfold outsideWorkingHours.
    destruct (Z.ltb_spec hour 9); [done | lia].
  - intros c Hne. unfold getCampaign. cbn [campaigns with_campaigns].
    destruct (List.find (λ c0, bool_decide (c_id c0 = c)) (campaigns d)) as [y |] eqn:E.
    + by apply find_app_Some.
    + rewrite (find_app_None _ _ _ E). cbn. by rewrite bool_decide_eq_false_2.
Qed.

Lemma created_campaign_defaults_witness :
  let data := mkCampaignData "Night" "Hi" None None None (Some 0) (Some 24)
                None None None None in
  let d' := (createCampaign "c2" data (sampleDb draft 5 [] [], ∅)).1 in
  (c_start_hour <$> getCampaign "c2" d') = Some 9 ∧
  (c_end_hour <$> getCampaign "c2" d') = Some 24 ∧
  outsideWorkingHours 3 9 24 = true.
Proof.
  cbv zeta.
  pose proof (created_campaign_defaults "c2"
                (mkCampaignData "Night" "Hi" None None None (Some 0) (Some 24)
                   None None None None)
                (sampleDb draft 5 [] []) ∅ eq_refl) as (H1 & _ & _ & _ & _ & H6 & _).
  cbv zeta in H1. split; [by rewrite H1 |]. split; [by rewrite H1 |].
  apply (H6 eq_refl 3). lia.
Defined.

Lemma insertAccounts_spec accounts ok c ids rows rows' :
  insertAccounts accounts ok c ids rows = Some rows' →
  (NoDup rows → NoDup rows') ∧
  (∀ r, r ∈ rows → r ∈ rows') ∧
  (∀ a, a ∈ ids → mkCampaignAccount c a ∈ rows') ∧
  (∀ r, r ∈ rows' → r ∈ rows ∨ ∃ a, a ∈ ids ∧ r = mkCampaignAccount c a).
Proof.
  revert rows. induction ids as [| a ids IH]; intros rows H.
  { injection H as <-. repeat split; try done.
    - intros a Ha. by apply elem_of_nil in Ha.
    - intros r Hr. by left. }
  cbn [insertAccounts] in H. case_bool_decide as Hin.
  - destruct (IH rows H) as (I1 & I2 & I3 & I4). split; [done |]. split; [done |]. split.
    + intros a' [-> | Ha]%elem_of_cons; [by apply I2 | by apply I3].
    + intros r Hr. destruct (I4 r Hr) as [? | (a' & Ha' & ->)]; [by left |].
      right. exists a'. split; [apply elem_of_cons; by right | done].
  - destruct (ok && bool_decide (a ∈ accounts)); [| done].
    destruct (IH _ H) as (I1 & I2 & I3 & I4). split; [| split; [| split]].
    + intros Hnd. apply I1. apply NoDup_app. split; [done |].
      split; [| apply NoDup_singleton].
      intros r Hr ->%list_elem_of_singleton. done.
    + intros r Hr. apply I2, elem_of_app. by left.
    + intros a' [-> | Ha]%elem_of_cons; [| by apply I3].
      apply I2, elem_of_app. right. by apply list_elem_of_singleton.
    + intros r Hr. destruct (I4 r Hr) as [[? | ->%list_elem_of_singleton]%elem_of_app
                                          | (a' & Ha' & ->)].
      * by left.
      * right. exists a. split; [apply elem_of_cons; by left | done].
      * right. exists a'. split; [apply elem_of_cons; by right | done].
Qed.

Lemma insertAccounts_present accounts ok c ids rows :
  (∀ a, a ∈ ids → mkCampaignAccount c a ∈ rows) →
  insertAccounts accounts ok c ids rows = Some rows.
Proof.
  induction ids as [| a ids IH]; intros H; [done |].
  cbn [insertAccounts].
  rewrite bool_decide_eq_true_2 by (apply H, elem_of_cons; by left).
  apply IH. intros a' Ha'. apply H, elem_of_cons. by right.
Qed.

Lemma participatingAccounts_NoDup c d :
  NoDup (campaign_accounts d) → NoDup (participatingAccounts c d).
Proof.
  unfold participatingAccounts. rewrite merge_sort_Permutation.
  induction (campaign_accounts d) as [| r l IH]; intros Hnd.
  { cbn. apply NoDup_nil_2. }
  apply NoDup_cons in Hnd as [Hr Hnd].
  destruct (decide (ca_campaign_id r = c)) as [E | Hne].
  - rewrite filter_cons_True by done. cbn [fmap list_fmap]. apply NoDup_cons.
    split; [| by apply IH].
    intros (r' & Hid & Hr')%list_elem_of_fmap. apply list_elem_of_filter in Hr' as [Hc Hr'].
    apply Hr. destruct r as [c1 a1], r' as [c2 a2]. cbn in *. by subst.
  - rewrite filter_cons_False by done. by apply IH.
Qed.

(** The account list is the campaign's rows of [campaign_accounts], in
    ascending account id order whatever the order they were assigned in. *)
Lemma participatingAccounts_sorted c d :
  participatingAccounts c d ≡ₚ
    ca_account_id <$> filter (λ r, ca_campaign_id r = c) (campaign_accounts d) ∧
  Sorted textLe (participatingAccounts c d).
Proof.
  split; [apply merge_sort_Permutation |].
  apply Sorted_merge_sort. intros a b. apply String.leb_total.
Qed.

Lemma participatingAccounts_index_order :
  participatingAccounts "c1" (sampleDb draft 5 ["C"; "A"; "B"] []) = ["A"; "B"; "C"].
Proof. by vm_compute. Qed.

(** X21. [campaigns:addAccounts] never makes a duplicate: from a table
    without duplicate rows it leaves one without, so the account list
    [startCampaign] reads holds each account once and each gets one worker.
    It keeps every row that was there, and doing it again with the same
    arguments changes nothing. *)
Theorem addAccounts_no_duplicates accounts campaignId accountIds d :
  NoDup (campaign_accounts d) →
  let d' := addAccounts accounts campaignId accountIds d in
  NoDup (campaign_accounts d') ∧
  NoDup (participatingAccounts campaignId d') ∧
  (∀ r, r ∈ campaign_accounts d → r ∈ campaign_accounts d') ∧
  (∀ r, r ∈ campaign_accounts d' →
        r ∈ campaign_accounts d ∨
        ∃ a, a ∈ accountIds ∧ r = mkCampaignAccount campaignId a) ∧
  addAccounts accounts campaignId accountIds d' = d'.
Proof.
  intros Hnd d'. subst d'. unfold addAccounts.
  destruct (insertAccounts accounts _ campaignId accountIds (campaign_accounts d))
    as [rows |] eqn:E.
  - destruct (insertAccounts_spec _ _ _ _ _ _ E) as (I1 & I2 & I3 & I4).
    cbn [campaign_accounts campaigns].
    split; [by apply I1 |].
    split; [apply participatingAccounts_NoDup; by apply I1 |].
    split; [done |]. split; [done |].
    change (getCampaign campaignId (mkDatabase (campaigns d) rows (campaign_contacts d)
              (contacts d) (contact_tags d) (tags d) (activities d) (stats d)))
      with (getCampaign campaignId d).
    by rewrite (insertAccounts_present _ _ _ _ _ I3).
  - split; [done |]. split; [by apply participatingAccounts_NoDup |].
    split; [done |]. split; [by left |]. by rewrite E.
Qed.

Lemma addAccounts_no_duplicates_witness :
  let d' := addAccounts ["A"; "B"] "c1" ["B"; "A"; "B"] (sampleDb draft 5 ["A"] []) in
  participatingAccounts "c1" d' = ["A"; "B"] ∧
  NoDup (participatingAccounts "c1" d') ∧
  addAccounts ["A"; "B"] "c1" ["B"; "A"; "B"] d' = d'.
Proof.
  cbv zeta. split; [by vm_compute |].
  destruct (addAccounts_no_duplicates ["A"; "B"] "c1" ["B"; "A"; "B"]
              (sampleDb draft 5 ["A"] []) (NoDup_singleton _)) as (_ & H2 & _ & _ & H5).
  split; [exact H2 | exact H5].
Defined.

Lemma countStatus_cons s r rows :
  countStatus s (r :: rows) = (if bool_decide (cc_status r = s) then 1 else 0) + countStatus s rows.
Proof.
  unfold countStatus. cbn [List.filter]. destruct (bool_decide _); cbn [List.length]; lia.
Qed.

Lemma countStatus_total rows :
  Z.of_nat (List.length rows) =
    countStatus sent rows + countStatus pending rows + countStatus failed rows +
    countStatus sending rows.
Proof.
  induction rows as [| r rows IH]; [done |].
  rewrite !countStatus_cons. cbn [List.length]. rewrite Nat2Z.inj_succ, IH.
  destruct (cc_status r); repeat case_bool_decide; try done; lia.
Qed.

Lemma countStuckSending_countStatus campaignId d :
  Z.of_nat (countStuckSending campaignId d) =
    countStatus sending
      (List.filter (λ r, bool_decide (cc_campaign_id r = campaignId)) (campaign_contacts d)).
Proof.
  unfold countStuckSending, countStatus.
  assert (filter (λ r, inCampaignWith campaignId sending r = true) (campaign_contacts d)
          = List.filter (λ r, bool_decide (cc_status r = sending))
              (List.filter (λ r, bool_decide (cc_campaign_id r = campaignId))
                 (campaign_contacts d))) as ->; [| done].
  induction (campaign_contacts d) as [| r l IH]; [done |].
  cbn [List.filter].
  destruct (bool_decide (cc_campaign_id r = campaignId)) eqn:Hc.
  - cbn [List.filter]. destruct (bool_decide (cc_status r = sending)) eqn:Hs.
    + rewrite filter_cons_True by (unfold inCampaignWith; by rewrite Hc, Hs).
      by rewrite IH.
    + rewrite filter_cons_False by (unfold inCampaignWith; by rewrite Hc, Hs).
      done.
  - rewrite filter_cons_False by (unfold inCampaignWith; by rewrite Hc). done.
Qed.

(** X22. What [campaigns:getStats] adds up to: over no contact the three sums
    are NULL and total is 0; otherwise total is sent + pending + failed plus
    the contacts that are sending, which no column shows. *)
Theorem getStats_accounting campaignId d :
  match st_sent (getStats campaignId d), st_pending (getStats campaignId d),
        st_failed (getStats campaignId d) with
  | Some s, Some p, Some f =>
      0 < st_total (getStats campaignId d) ∧
      st_total (getStats campaignId d)
      = s + p + f + Z.of_nat (countStuckSending campaignId d)
  | None, None, None =>
      st_total (getStats campaignId d) = 0 ∧ countStuckSending campaignId d = 0%nat
  | _, _, _ => False
  end.
Proof.
  pose proof (countStuckSending_countStatus campaignId d) as Hstuck.
  unfold getStats. cbn [st_total st_sent st_pending st_failed].
  set (rows := List.filter _ (campaign_contacts d)) in *.
  pose proof (countStatus_total rows) as Htot.
  clearbody rows. destruct rows as [| r rest].
  - cbn [sumCase List.length]. split; [done |].
    unfold countStatus in Hstuck. cbn in Hstuck. lia.
  - cbn [sumCase]. rewrite Htot, Hstuck. split; [| done].
    rewrite <- Htot. cbn [List.length]. lia.
Qed.

(** X23. [campaigns:delete] leaves nothing of the campaign: no campaign row,
    no contact row, no account row, no scheduled start, no registry entry;
    a later start of it changes nothing, and it is halted, so its sends in
    flight and leftover timers claim nothing. Other campaigns keep their
    rows and registry entries. *)
Theorem delete_removes_campaign clk clk' isConnected id w sched :
  let w' := (deleteCampaign clk id (w, sched)).1 in
  let sched' := (deleteCampaign clk id (w, sched)).2 in
  getCampaign id (db w') = None ∧
  (∀ r, r ∈ campaign_contacts (db w') → cc_campaign_id r ≠ id) ∧
  participatingAccounts id (db w') = [] ∧
  sched' !! id = None ∧
  activeCampaigns w' !! id = None ∧ halted id w' ∧
  startCampaign clk' isConnected id w' = w' ∧
  (∀ c, c ≠ id →
     getCampaign c (db w') = getCampaign c (db w) ∧
     activeCampaigns w' !! c = activeCampaigns w !! c ∧
     participatingAccounts c (db w') = participatingAccounts c (db w) ∧
     sched' !! c = sched !! c).
Proof.
  intros w' sched'. subst w' sched'. unfold deleteCampaign. cbn [fst snd].
  assert (getCampaign id
            (db (with_db (λ d,
               mkDatabase
                 (List.filter (λ c, negb (bool_decide (c_id c = id))) (campaigns d))
                 (List.filter (λ r, negb (bool_decide (ca_campaign_id r = id)))
                    (campaign_accounts d))
                 (List.filter (λ r, negb (bool_decide (cc_campaign_id r = id)))
                    (campaign_contacts d))
                 (contacts d) (contact_tags d) (tags d) (activities d) (stats d))
               (stopCampaign clk id w))) = None) as Hgone.
  { unfold getCampaign. cbn [db with_db campaigns].
    induction (campaigns (db (stopCampaign clk id w))) as [| c l IH]; [done |].
    cbn [List.filter]. destruct (bool_decide (c_id c = id)) eqn:E; cbn [negb]; [done |].
    cbn [List.find]. by rewrite E. }
  assert (activeCampaigns (stopCampaign clk id w) !! id = None) as Hreg
    by apply stopCampaign_unregisters.
  split; [done |]. split; [| split; [| split; [| split; [| split; [| split]]]]].
  - intros r Hr. cbn [db with_db campaign_contacts] in Hr.
    apply list_elem_of_In, filter_In in Hr as [_ Hr].
    apply negb_true_iff in Hr. by apply bool_decide_eq_false in Hr.
  - unfold participatingAccounts. cbn [db with_db campaign_accounts].
    assert (filter (λ r, ca_campaign_id r = id)
              (List.filter (λ r, negb (bool_decide (ca_campaign_id r = id)))
                 (campaign_accounts (db (stopCampaign clk id w)))) = []) as ->; [| done].
    induction (campaign_accounts (db (stopCampaign clk id w))) as [| r l IH]; [done |].
    cbn [List.filter]. destruct (bool_decide (ca_campaign_id r = id)) eqn:E; cbn [negb];
      [done |].
    apply bool_decide_eq_false in E. by rewrite filter_cons_False.
  - apply lookup_delete_eq.
  - done.
  - unfold halted. cbn [activeCampaigns with_db]. by rewrite Hreg.
  - unfold startCampaign. cbn [activeCampaigns with_db]. rewrite Hreg.
    rewrite bool_decide_eq_false_2 by (by intros [? ?]). by rewrite Hgone.
  - intros c Hne. split; [| split; [| split]].
    + unfold getCampaign. cbn [db with_db campaigns]. rewrite stopCampaign_db.
      cbn [campaigns updateCampaign with_campaigns].
      induction (campaigns (db w)) as [| x l IH]; [done |].
      cbn [fmap list_fmap List.filter List.find].
      destruct (decide (c_id x = id)) as [E | E].
      * rewrite (bool_decide_eq_true_2 (c_id x = id) E).
        cbn [c_id markStopped setCampaignFields].
        rewrite (bool_decide_eq_true_2 (c_id x = id) E). cbn [negb].
        rewrite bool_decide_eq_false_2 by congruence. done.
      * rewrite !(bool_decide_eq_false_2 (c_id x = id) E). cbn [negb List.find].
        destruct (bool_decide (c_id x = c)); [done | apply IH].
    + cbn [activeCampaigns with_db]. rewrite registry_stop.
      by rewrite bool_decide_eq_false_2.
    + unfold participatingAccounts. cbn [db with_db campaign_accounts].
      rewrite stopCampaign_db. cbn [campaign_accounts updateCampaign with_campaigns].
      do 2 f_equal. induction (campaign_accounts (db w)) as [| r l IH]; [done |].
      cbn [List.filter].
      destruct (decide (ca_campaign_id r = id)) as [E | E].
      * rewrite (bool_decide_eq_true_2 _ E). cbn [negb].
        rewrite filter_cons_False by congruence. done.
      * rewrite (bool_decide_eq_false_2 _ E). cbn [negb].
        destruct (decide (ca_campaign_id r = c)) as [E' | E'].
        -- rewrite !filter_cons_True by done. by rewrite IH.
        -- rewrite !filter_cons_False by done. done.
    + by apply lookup_delete_ne.
Qed.

(** ** A sent contact *)

Lemma settledRow_rows row w w' cond g :
  (∀ r, cc_id (g r) = cc_id r) →
  cond row = false →
  campaign_contacts (db w') = campaign_contacts (updateContacts cond g (db w)) →
  (∀ f, f ∈ inflight w' → cc_id (if_contact f) ≠ cc_id row) →
  settledRow row w → settledRow row w'.
Proof.
  intros Hg Hcond Hrows Hfl (Hnd & _ & Hin).
  unfold settledRow. rewrite Hrows. split; [by rewrite updateContacts_ids |].
  split; [done |].
  unfold updateContacts. simpl. apply list_elem_of_fmap.
  exists row. split; [| done]. by rewrite Hcond.
Qed.

Lemma settledRow_frame row w w' :
  campaign_contacts (db w') = campaign_contacts (db w) →
  inflight w' = inflight w →
  settledRow row w → settledRow row w'.
Proof. intros Hc Hi H. unfold settledRow in *. by rewrite Hc, Hi. Qed.

Lemma settledRow_claim row campaignId cy campaign r c call w :
  cc_status row ≠ pending →
  nextPendingContact campaignId (db w) = Some c →
  settledRow row w →
  settledRow row
    (with_inflight (λ l, (l ++ [mkInFlight cy campaign r c])%list)
       (with_transportCalls (λ l, (l ++ [call])%list)
          (with_db (updateContacts (hasId (cc_id c)) (setContactStatus sending)) w))).
Proof.
  intros Hst Hc H.
  apply nextPendingContact_Some in Hc as (Hin & _ & Hpend & _).
  assert (cc_id c ≠ cc_id row) as Hne.
  { destruct H as (Hnd & _ & Hrow). intros E.
    apply list_elem_of_lookup_1 in Hin as [i Hi].
    apply list_elem_of_lookup_1 in Hrow as [j Hj].
    assert (i = j) as ->.
    { eapply NoDup_lookup; [exact Hnd | |];
        rewrite list_lookup_fmap; [rewrite Hi | rewrite Hj]; simpl; [done | f_equal; congruence]. }
    congruence. }
  eapply (settledRow_rows _ w _ (hasId (cc_id c)) (setContactStatus sending));
    [done | | done | | done].
  - unfold hasId. apply bool_decide_eq_false_2. congruence.
  - intros f Hf. cbn [inflight with_inflight with_transportCalls with_db] in Hf.
    apply elem_of_app in Hf as [Hf | Hf].
    + destruct H as (_ & Hfl & _). by apply Hfl.
    + apply list_elem_of_singleton in Hf. by subst f.
Qed.

Lemma settledRow_settle row toLowerCase clk f res w n :
  inflight w !! n = Some f →
  settledRow row w →
  settledRow row (settleSend toLowerCase clk f res (with_inflight (delete n) w)).1.
Proof.
  intros Hn H.
  destruct (settleSend_rows toLowerCase clk f res (with_inflight (delete n) w))
    as (Hi & g & Hg & Hrows).
  assert (Hfl : ∀ f', f' ∈ inflight w → cc_id (if_contact f') ≠ cc_id row)
    by (by destruct H as (_ & Hfl & _)).
  eapply (settledRow_rows _ w _ _ g); [done | | exact Hrows | | done].
  - unfold hasId. apply bool_decide_eq_false_2.
    intros E. eapply Hfl; [by eapply list_elem_of_lookup_2 | done].
  - intros f'. rewrite Hi. cbn [inflight with_inflight]. intros Hf'.
    apply Hfl. by eapply list_elem_of_delete_inv.
Qed.

(** X24. Sent is final: a contact row that is sent, with contact ids unique
    and no send in flight holding its contact, is still in the table after
    any run without a reset, unchanged (same sender, same time), and no send
    in flight holds its contact: it is never claimed or sent again. *)
Theorem sent_is_final (toLowerCase : string → string) row ts w :
  cc_status row = sent →
  settledRow row w →
  Forall (λ t, ∀ c, tk_event t ≠ ResetCampaign c) ts →
  settledRow row (run toLowerCase ts w).
Proof.
  intros Hst H Hts.
  apply (rows_run (settledRow row) True); try done.
  - apply settledRow_frame.
  - intros c w0 H0. unfold failAllBlacklistedPending.
    eapply (settledRow_rows _ w0); [| | done | by destruct H0 as (_ & ? & _) | done];
      [done |].
    unfold inCampaignWith. rewrite Hst.
    rewrite (bool_decide_eq_false_2 (sent = pending)) by done.
    by rewrite andb_false_r.
  - intros c w0 _ H0. unfold releaseStuckSendingContacts.
    eapply (settledRow_rows _ w0); [| | done | by destruct H0 as (_ & ? & _) | done];
      [done |].
    unfold inCampaignWith. rewrite Hst.
    rewrite (bool_decide_eq_false_2 (sent = sending)) by done.
    by rewrite andb_false_r.
  - intros. eapply settledRow_claim; [by rewrite Hst | done | done].
  - intros. by apply settledRow_settle.
  - eapply Forall_impl; [exact Hts |]. intros t He. split; [by left | done].
Qed.

Lemma sent_is_final_witness :
  settledRow
    (mkCampaignContact "x" "c1" "111" sent (Some "A") (Some "2024-05-01T07:00:00.000Z") None)
    (run asciiLowerCase
       [ at_ morning (TimerFires 1); at_ evening (StopCampaign "c1");
         at_ nextMorning (StartCampaign "c1") ] bothArmed).
Proof.
  apply sent_is_final; [done | | repeat constructor; discriminate].
  split; [by vm_compute; apply NoDup_singleton |].
  split; [intros f Hf; by vm_compute in Hf; apply elem_of_nil in Hf |].
  by vm_compute; apply list_elem_of_singleton.
Defined.

(** ** Adding contacts *)

Lemma insertContacts_Some ok c new rows rows' :
  insertContacts ok c new rows = Some rows' →
  rows' = (rows ++ (newContact c <$> new))%list.
Proof.
  revert rows. induction new as [| [id phone] new IH]; intros rows H.
  { injection H as <-. by rewrite app_nil_r. }
  cbn [insertContacts] in H. destruct (ok && _); [| done].
  rewrite (IH _ H). cbn [fmap list_fmap]. by rewrite <- app_assoc.
Qed.

Lemma insertContacts_fresh c new rows :
  NoDup (new.*1) →
  (∀ id, id ∈ new.*1 → id ∉ cc_id <$> rows) →
  insertContacts true c new rows = Some (rows ++ (newContact c <$> new))%list.
Proof.
  revert rows. induction new as [| [id phone] new IH]; intros rows Hnd Hfresh.
  { cbn. by rewrite app_nil_r. }
  cbn [fmap list_fmap fst] in Hnd. apply NoDup_cons in Hnd as [Hid Hnd].
  cbn [insertContacts andb].
  rewrite bool_decide_eq_false_2 by (apply Hfresh; cbn; apply elem_of_cons; by left).
  cbn [negb]. rewrite IH; [cbn [fmap list_fmap]; by rewrite <- app_assoc | done |].
  intros id' Hid'. rewrite fmap_app. intros [H | H]%elem_of_app.
  - eapply Hfresh; [| exact H]. cbn. apply elem_of_cons. by right.
  - cbn in H. apply list_elem_of_singleton in H. by subst id'.
Qed.

(** X25. [campaigns:addContacts] adds all the contacts or none: the table
    afterwards is the table before followed by one pending, unclaimed row per
    given contact, in order, or it is unchanged. It is the first whenever the
    campaign exists and the ids drawn are distinct and new; phone numbers are
    not compared, so a number given twice gets two rows. *)
Theorem addContacts_all_or_nothing campaignId new d :
  let d' := addContacts campaignId new d in
  (campaign_contacts d' = (campaign_contacts d ++ (newContact campaignId <$> new))%list ∨
   d' = d) ∧
  (is_Some (getCampaign campaignId d) → NoDup (new.*1) →
   (∀ id, id ∈ new.*1 → id ∉ cc_id <$> campaign_contacts d) →
   campaign_contacts d' = (campaign_contacts d ++ (newContact campaignId <$> new))%list ∧
   st_total (getStats campaignId d')
   = st_total (getStats campaignId d) + Z.of_nat (length new)) ∧
  campaigns d' = campaigns d ∧ campaign_accounts d' = campaign_accounts d.
Proof.
  intros d'. subst d'. unfold addContacts.
  split; [| split].
  - destruct (insertContacts _ campaignId new (campaign_contacts d)) as [rows |] eqn:E;
      [| by right].
    left. by rewrite (insertContacts_Some _ _ _ _ _ E).
  - intros Hc Hnd Hfresh. rewrite bool_decide_eq_true_2 by done.
    rewrite (insertContacts_fresh _ _ _ Hnd Hfresh).
    split; [done |].
    unfold getStats. cbn [st_total campaign_contacts with_campaign_contacts].
    rewrite List.filter_app, length_app, Nat2Z.inj_add. f_equal. f_equal.
    clear. induction new as [| p new IH]; [done |].
    cbn [fmap list_fmap List.filter newContact cc_campaign_id].
    rewrite bool_decide_eq_true_2 by done. cbn [List.length]. by rewrite IH.
  - by destruct (insertContacts _ campaignId new (campaign_contacts d)).
Qed.

(** ** Starting outside the working hours *)

Lemma armTimer_frame r c a dl w :
  db (armTimer r c a dl w) = db w ∧
  activeCampaigns (armTimer r c a dl w) = activeCampaigns w ∧
  inflight (armTimer r c a dl w) = inflight w ∧
  transportCalls (armTimer r c a dl w) = transportCalls w ∧
  notifications (armTimer r c a dl w) = notifications w ∧
  length (timers (armTimer r c a dl w)) = S (length (timers w)) ∧
  isRunning (stateAt r (armTimer r c a dl w)) = isRunning (stateAt r w) ∧
  (is_Some (states w !! r) →
   is_Some (states (armTimer r c a dl w) !! r) ∧
   is_Some (accountTimeouts (stateAt r (armTimer r c a dl w)) !! a) ∧
   ∀ a', is_Some (accountTimeouts (stateAt r w) !! a') →
         is_Some (accountTimeouts (stateAt r (armTimer r c a dl w)) !! a')).
Proof.
  unfold armTimer, stateAt.
  cbn [db activeCampaigns inflight transportCalls notifications timers states
       with_states with_fresh with_timers].
  rewrite length_app, lookup_alter_eq. cbn [length].
  split; [done |]. split; [done |]. split; [done |]. split; [done |]. split; [done |].
  split; [lia |]. split; [by destruct (states w !! r) |].
  intros [s Hs]. rewrite Hs. cbn. split; [done |].
  split; [by rewrite lookup_insert_eq |].
  intros a' Ha'. destruct (decide (a = a')) as [-> | Hne];
    [by rewrite lookup_insert_eq | by rewrite lookup_insert_ne].
Qed.

Lemma armAll_frame r c dl l w :
  is_Some (states w !! r) →
  let w' := armAll r c dl l w in
  db w' = db w ∧ activeCampaigns w' = activeCampaigns w ∧
  inflight w' = inflight w ∧ transportCalls w' = transportCalls w ∧
  notifications w' = notifications w ∧
  length (timers w') = (length (timers w) + length l)%nat ∧
  isRunning (stateAt r w') = isRunning (stateAt r w) ∧
  is_Some (states w' !! r) ∧
  (∀ a, a ∈ l → is_Some (accountTimeouts (stateAt r w') !! a)) ∧
  (∀ a, is_Some (accountTimeouts (stateAt r w) !! a) →
        is_Some (accountTimeouts (stateAt r w') !! a)).
Proof.
  revert w. induction l as [| a l IH]; intros w Hs w'; subst w'.
  { cbn. split; [done |]. split; [done |]. split; [done |]. split; [done |].
    split; [done |]. split; [lia |]. split; [done |]. split; [done |].
    split; [| done]. intros a Ha. by apply elem_of_nil in Ha. }
  unfold armAll. cbn [foldl]. fold (armAll r c dl l (armTimer r c a dl w)).
  destruct (armTimer_frame r c a dl w) as (A1 & A2 & A3 & A4 & A5 & A6 & A7 & A8).
  destruct (A8 Hs) as (A9 & A10 & A11).
  destruct (IH (armTimer r c a dl w) A9) as (B1 & B2 & B3 & B4 & B5 & B6 & B7 & B8 & B9 & B10).
  split; [congruence |]. split; [congruence |]. split; [congruence |].
  split; [congruence |]. split; [congruence |].
  split; [rewrite B6, A6; cbn [length]; lia |].
  split; [congruence |]. split; [done |]. split.
  - intros a' [-> | Ha]%elem_of_cons; [by apply B10 | by apply B9].
  - intros a' Ha'. by apply B10, A11.
Qed.

(** Outside the window every worker only arms its wake. *)
Lemma spawn_outside clk isConnected c l w r row :
  activeCampaigns w !! c = Some r →
  is_Some (states w !! r) →
  isRunning (stateAt r w) = true →
  getCampaign c (db w) = Some row →
  outsideWorkingHours (currentHour clk) (c_start_hour row) (c_end_hour row) = true →
  spawnWorkers clk isConnected c l w =
    (armAll r c (UntilStartHour (if c_end_hour row <=? currentHour clk then 1 else 0)
                                (c_start_hour row)) l w, []).
Proof.
  revert w. induction l as [| a l IH]; intros w Hr Hs Hrun Hrow Hout; [done |].
  cbn [spawnWorkers]. unfold scheduleNextMessageForAccount, activeState.
  rewrite Hr. cbn [fmap option_fmap option_map]. rewrite Hrun, Hrow, Hout. cbn [negb].
  set (dl := UntilStartHour _ _).
  destruct (armTimer_frame r c a dl w) as (A1 & A2 & A3 & A4 & A5 & A6 & A7 & A8).
  destruct (A8 Hs) as (A9 & _).
  rewrite (IH (armTimer r c a dl w)); [done | congruence | done | congruence |
                                       by rewrite A1 | done].
Qed.

(** X26. A campaign started outside its working hours sends nothing: the
    call marks it running, registers a state object with a timer entry for
    every account, arms one timer per account, and neither claims a contact
    nor calls the transport nor touches a contact row. *)
Theorem start_outside_hours_only_arms clk isConnected campaignId w row :
  activeCampaigns w !! campaignId = None →
  getCampaign campaignId (db w) = Some row →
  outsideWorkingHours (currentHour clk) (c_start_hour row) (c_end_hour row) = true →
  let w' := startCampaign clk isConnected campaignId w in
  statusOf campaignId w' = Some running ∧
  transportCalls w' = transportCalls w ∧ inflight w' = inflight w ∧
  campaign_contacts (db w') = campaign_contacts (db w) ∧
  length (timers w')
  = (length (timers w) + length (participatingAccounts campaignId (db w)))%nat ∧
  (∀ a, a ∈ participatingAccounts campaignId (db w) →
        ∃ r, activeCampaigns w' !! campaignId = Some r ∧
             isRunning (stateAt r w') = true ∧
             is_Some (accountTimeouts (stateAt r w') !! a)).
Proof.
  intros Hreg Hrow Hout w'. subst w'. unfold startCampaign.
  rewrite bool_decide_eq_false_2 by (rewrite Hreg; by intros [? ?]).
  rewrite Hrow. cbn zeta.
  set (w1 := with_db _ w).
  assert (H1 : statusOf campaignId w1 = Some running).
  { subst w1. rewrite (statusOf_written _ _ running) by done.
    unfold statusOf. by rewrite Hrow. }
  assert (Hrow1 : getCampaign campaignId (db w1) = Some (markRunning (nowISO clk) row)).
  { subst w1. cbn [db with_db]. rewrite status_after_update by done. by rewrite Hrow. }
  change (participatingAccounts campaignId (db w1))
    with (participatingAccounts campaignId (db w)).
  destruct (participatingAccounts campaignId (db w)) as [| x l] eqn:Hacc.
  { split; [done |]. split; [done |]. split; [done |]. split; [done |].
    split; [cbn; lia |]. intros a Ha. by apply elem_of_nil in Ha. }
  set (w2 := with_activeCampaigns _ _).
  assert (Hs2 : is_Some (states w2 !! fresh w1))
    by (subst w2; cbn [states with_activeCampaigns with_states]; by rewrite lookup_insert_eq).
  rewrite (spawn_outside clk isConnected campaignId (x :: l) w2 (fresh w1)
             (markRunning (nowISO clk) row)); [| | done | | done | done].
  2:{ subst w2. cbn [activeCampaigns with_activeCampaigns]. by rewrite lookup_insert_eq. }
  2:{ subst w2. unfold stateAt. cbn [states with_activeCampaigns with_states].
      by rewrite lookup_insert_eq. }
  rewrite drain_nil.
  set (dl := UntilStartHour _ _).
  destruct (armAll_frame (fresh w1) campaignId dl (x :: l) w2 Hs2)
    as (B1 & B2 & B3 & B4 & B5 & B6 & B7 & B8 & B9 & B10).
  split; [by rewrite (statusOf_frame _ w1) by (by rewrite B1) |].
  split; [by rewrite B4 |]. split; [by rewrite B3 |].
  split; [by rewrite B1 |]. split; [by rewrite B6 |].
  intros a Ha. exists (fresh w1). split; [| split].
  - rewrite B2. subst w2. cbn [activeCampaigns with_activeCampaigns].
    by rewrite lookup_insert_eq.
  - rewrite B7. subst w2. unfold stateAt. cbn [states with_activeCampaigns with_states].
    by rewrite lookup_insert_eq.
  - by apply B9.
Qed.

Lemma start_outside_hours_only_arms_witness :
  let data := mkCampaignData "Night" "Hi" None None None (Some 0) (Some 24)
                None None None None in
  let d := addContacts "c2" [("k1", "555")]
             (addAccounts ["A"] "c2" ["A"]
                (createCampaign "c2" data (sampleDb draft 5 [] [], ∅)).1) in
  let atThree := mkClock "2024-05-01T00:00:00.000Z" 3 in
  let w' := startCampaign atThree allConnected "c2" (idle d) in
  statusOf "c2" w' = Some running ∧
  transportCalls w' = [] ∧ inflight w' = [] ∧
  cc_status <$> campaign_contacts (db w') = [pending] ∧
  timer_delay <$> timers w' = [UntilStartHour 0 9].
Proof.
  cbv zeta.
  pose proof (start_outside_hours_only_arms (mkClock "2024-05-01T00:00:00.000Z" 3)
                allConnected "c2"
                (idle (addContacts "c2" [("k1", "555")]
                         (addAccounts ["A"] "c2" ["A"]
                            (createCampaign "c2"
                               (mkCampaignData "Night" "Hi" None None None (Some 0) (Some 24)
                                  None None None None)
                               (sampleDb draft 5 [] [], ∅)).1)))
                (createdRow "c2"
                   (mkCampaignData "Night" "Hi" None None None (Some 0) (Some 24)
                      None None None None))
                eq_refl ltac:(by vm_compute) ltac:(by vm_compute))
    as (H1 & H2 & H3 & H4 & _).
  split; [exact H1 |]. split; [exact H2 |]. split; [exact H3 |].
  split; [by rewrite H4 |]. by vm_compute.
Defined.
